(** * InstaScraper: proxy rotation, retrieval chain and orchestration

    A shallow embedding of
      - [app/proxy_manager.py]                  (module [ProxyManager]),
      - [scraper/spiders/instagram_profile.py]  (modules [Spider], [Headers]),
      - [app/scraper_service.py]                (module [Service]),
      - [app/config.py]                         (module [Config]),
      - [app/auth.py]                           (module [Auth]),
      - [app/persistence.py]                    (module [Persistence]),
      - [scraper/middlewares.py]                (module [Middleware]),
      - line 72 of [app/main.py]                (module [Main]),
    followed by the properties established about them.

    Conventions of the embedding.
      - Python [str] is [string]; a character is a code point below 256.
      - [time.time()] readings and cooldown lengths are exact clock ticks
        in [Z]; the order of two readings is all the code looks at.
      - A Python exception is a value of [Exn]; code that may raise
        returns [result].
      - Library calls whose text is not part of the repository
        ([json.loads], [re.search] on the six patterns, [html.unescape],
        the [unicode_escape] codec, [int] on a [str], [random.shuffle],
        the HTTP transport) are taken as parameters. *)

From Stdlib Require Import ZArith Lia Bool Ascii String List.
From Stdlib Require Import Floats.SpecFloat.
From stdpp Require Import base option list strings pretty gmap.
Import ListNotations.
Local Open Scope string_scope.
Local Open Scope Z_scope.
Local Open Scope list_scope.
Set Warnings "-register-all".

(** ** Python values and exceptions *)

Module Py.

(** The exception classes the code raises or lets escape; the payload is
    [str(exc)]. *)
Inductive Exn : Type :=
| ProfileNotFound (msg : string)
| RateLimited (msg : string)
| ProxyTimeout (msg : string)
| IndexError (msg : string)
| KeyError (msg : string)
| AttributeError (msg : string)
| TypeError (msg : string)
| ValueError (msg : string)
| OverflowError (msg : string)
| OtherError (msg : string)
(* raised by scraper_service *)
| ProfileNotFoundError (msg : string)
| RateLimitError (msg : string)
| ScraperRuntimeError (msg : string).

Definition str_exn (e : Exn) : string :=
  match e with
  | ProfileNotFound m | RateLimited m | ProxyTimeout m | IndexError m
  | KeyError m | AttributeError m | TypeError m | ValueError m
  | OverflowError m | OtherError m | ProfileNotFoundError m
  | RateLimitError m | ScraperRuntimeError m => m
  end.

Inductive result (A : Type) : Type :=
| Ok (a : A)
| Raise (e : Exn).
Arguments Ok {A} a.
Arguments Raise {A} e.

#[global] Instance result_ret : MRet result := fun A a => Ok a.
#[global] Instance result_bind : MBind result := fun A B k m =>
  match m with
  | Ok a => k a
  | Raise e => Raise e
  end.

(** What [json.loads] produces: [None], [bool], [int], [float], [str],
    [list], [dict] (a dict as the bindings it holds, first match wins). *)
Inductive json : Type :=
| JNull
| JBool (b : bool)
| JInt (n : Z)
| JFloat (f : spec_float)
| JStr (s : string)
| JArr (xs : list json)
| JObj (kvs : list (string * json)).

(** Truth value testing. *)
Definition truthy (v : json) : bool :=
  match v with
  | JNull => false
  | JBool b => b
  | JInt n => negb (n =? 0)
  | JFloat (S754_zero _) => false
  | JFloat _ => true
  | JStr EmptyString => false
  | JStr _ => true
  | JArr [] => false
  | JArr _ => true
  | JObj [] => false
  | JObj _ => true
  end.

(** [a or b] on values already computed. *)
Definition or_else (a b : json) : json := if truthy a then a else b.

Definition type_name (v : json) : string :=
  match v with
  | JNull => "NoneType"
  | JBool _ => "bool"
  | JInt _ => "int"
  | JFloat _ => "float"
  | JStr _ => "str"
  | JArr _ => "list"
  | JObj _ => "dict"
  end.

Fixpoint assoc (k : string) (kvs : list (string * json)) : option json :=
  match kvs with
  | [] => None
  | (k', v) :: rest => if String.eqb k k' then Some v else assoc k rest
  end.

(** [v.get(key, default)]: only a dict has the method. *)
Definition get (v : json) (key : string) (default : json) : result json :=
  match v with
  | JObj kvs => Ok (match assoc key kvs with Some x => x | None => default end)
  | _ => Raise (AttributeError
                  ("'" +:+ type_name v +:+ "' object has no attribute 'get'"))
  end.

(** [v[0]]. *)
Definition item0 (v : json) : result json :=
  match v with
  | JArr [] => Raise (IndexError "list index out of range")
  | JArr (x :: _) => Ok x
  | JStr EmptyString => Raise (IndexError "string index out of range")
  | JStr (String c _) => Ok (JStr (String c EmptyString))
  | JObj _ => Raise (KeyError "0")
  | _ => Raise (TypeError ("'" +:+ type_name v +:+ "' object is not subscriptable"))
  end.

(** [int(f)] for a float: truncation toward zero. *)
Definition int_of_float (f : spec_float) : result Z :=
  match f with
  | S754_zero _ => Ok 0
  | S754_infinity _ =>
      Raise (OverflowError "cannot convert float infinity to integer")
  | S754_nan => Raise (ValueError "cannot convert float NaN to integer")
  | S754_finite s m e =>
      let mag := if 0 <=? e then Z.shiftl (Z.pos m) e
                 else Z.shiftr (Z.pos m) (- e) in
      Ok (if s then - mag else mag)
  end.

(** [int(v)]; [int_of_str] is the library's reading of a [str]. *)
Definition int (int_of_str : string -> result Z) (v : json) : result Z :=
  match v with
  | JInt n => Ok n
  | JBool b => Ok (if b then 1 else 0)
  | JFloat f => int_of_float f
  | JStr s => int_of_str s
  | _ => Raise (TypeError
                  ("int() argument must be a string, a bytes-like object or a real number, not '"
                   +:+ type_name v +:+ "'"))
  end.

(** [str.isspace] on one character. *)
Definition isspace (c : ascii) : bool :=
  let n := Z.of_nat (nat_of_ascii c) in
  ((9 <=? n) && (n <=? 13)) || ((28 <=? n) && (n <=? 32))
  || (n =? 133) || (n =? 160).

Fixpoint lstrip_by (p : ascii -> bool) (s : string) : string :=
  match s with
  | EmptyString => EmptyString
  | String c rest => if p c then lstrip_by p rest else s
  end.

Fixpoint rstrip_by (p : ascii -> bool) (s : string) : string :=
  match s with
  | EmptyString => EmptyString
  | String c rest =>
      match rstrip_by p rest with
      | EmptyString => if p c then EmptyString else String c EmptyString
      | r => String c r
      end
  end.

(** [s.strip()]. *)
Definition strip (s : string) : string :=
  rstrip_by isspace (lstrip_by isspace s).

(** [s.lstrip("@")]. *)
Definition lstrip_at (s : string) : string :=
  lstrip_by (fun c => Ascii.eqb c "@"%char) s.

(** Truth value of a [str]. *)
Definition nonempty (s : string) : bool :=
  match s with EmptyString => false | String _ _ => true end.

(** [sep.join(parts)]. *)
Fixpoint join (sep : string) (parts : list string) : string :=
  match parts with
  | [] => EmptyString
  | [p] => p
  | p :: rest => p +:+ sep +:+ join sep rest
  end.

End Py.

(** ** app/proxy_manager.py *)

Module ProxyManager.
Import Py.

(** [self._pool], [self._bad_hosts]; [api_calls] counts the requests sent
    to the listing source so far (it indexes the source's answers). *)
Record t : Type := mk {
  _pool : list string;
  _bad_hosts : gmap string Z;
  api_calls : nat
}.

Section Pool.

(** [listing n]: the hostnames lines 33-40 extract from the answer to the
    [n]-th request, [None] when anything there raises. *)
Variable listing : nat -> option (list string).
(** [random.shuffle] as it falls at the [n]-th refresh. *)
Variable shuffle : nat -> list string -> list string.

Definition _refresh_pool (pm : t) : t :=
  let n := api_calls pm in
  let hosts := match listing n with Some hs => hs | None => [] end in
  let hosts := shuffle n hosts in
  {| _pool := match hosts with
              | [] => _pool pm
              | _ :: _ => _pool pm ++ hosts
              end;
     _bad_hosts := _bad_hosts pm;
     api_calls := S n |}.

(** [ProxyManager()] given [settings.nord_proxy_pool]. *)
Definition init (initial_pool : list string) : t :=
  let pm := {| _pool := initial_pool; _bad_hosts := ∅; api_calls := 0 |} in
  match initial_pool with
  | [] => _refresh_pool pm
  | _ :: _ => pm
  end.

(** [deque.rotate(-1)]. *)
Definition rotate (pool : list string) : list string :=
  match pool with
  | [] => []
  | h :: rest => rest ++ [h]
  end.

(** [available_at and available_at > now] for [host]. *)
Definition cooling (bad : gmap string Z) (now : Z) (host : string) : bool :=
  match bad !! host with
  | Some available_at => negb (available_at =? 0) && (now <? available_at)
  | None => false
  end.

(** The [while] loop of [get_next_host]; [remaining] is
    [max_attempts + 1 - attempts], the iterations its guard still allows. *)
Fixpoint scan (remaining : nat) (bad : gmap string Z) (now : Z)
    (pool : list string) : option string * list string :=
  match remaining with
  | O => (None, pool)
  | S k =>
      match pool with
      | [] => (None, pool)
      | host :: _ =>
          let pool' := rotate pool in
          if cooling bad now host then scan k bad now pool'
          else (Some host, pool')
      end
  end.

Definition with_pool (pm : t) (pool : list string) : t :=
  {| _pool := pool; _bad_hosts := _bad_hosts pm; api_calls := api_calls pm |}.

(** [get_next_host] when [time.time()] reads [now]. *)
Definition get_next_host (now : Z) (pm : t) : option string * t :=
  let max_attempts := length (_pool pm) in
  match scan (S max_attempts) (_bad_hosts pm) now (_pool pm) with
  | (Some host, pool') => (Some host, with_pool pm pool')
  | (None, pool') =>
      let pm1 := with_pool pm pool' in
      let pm2 := match _pool pm1 with
                 | [] => _refresh_pool pm1
                 | _ :: _ => pm1
                 end in
      match _pool pm2 with
      | [] => (None, pm2)
      | host :: _ => (Some host, with_pool pm2 (rotate (_pool pm2)))
      end
  end.

End Pool.

(** [mark_bad] when [time.time()] reads [now]. *)
Definition mark_bad (now : Z) (host : string) (cooldown_seconds : Z) (pm : t) : t :=
  {| _pool := _pool pm;
     _bad_hosts := <[host := now + cooldown_seconds]> (_bad_hosts pm);
     api_calls := api_calls pm |}.

End ProxyManager.

(** ** scraper/spiders/instagram_profile.py *)

Module Spider.
Import Py.

(** The library functions the spider calls. *)
Record Lib : Type := {
  (** [json.loads] / [response.json()]; [None] is [JSONDecodeError]. *)
  json_loads : string -> option json;
  (** [int(s)] on a [str]. *)
  int_of_str : string -> result Z;
  (** [html.unescape]. *)
  unescape : string -> string;
  (** [s.encode("utf-8").decode("unicode_escape")]. *)
  unicode_escape : string -> result string;
  (** Group 1 of [re.search] for the pattern
      [window\.__additionalDataLoaded\('feed',(\{.*?\})\);]. *)
  search_additional_data : string -> option string;
  (** ... for [window\._sharedData\s*=\s*(\{.*?\});]. *)
  search_shared_data : string -> option string;
  (** ... for the [edge_followed_by] count, [(\d+)]. *)
  search_followers : string -> option string;
  (** ... for [profile_pic_url_hd]. *)
  search_profile_pic : string -> option string;
  (** ... for [full_name]. *)
  search_full_name : string -> option string;
  (** ... for [biography]. *)
  search_biography : string -> option string
}.

(** [scrapy.http.Response] as far as the callbacks read it. *)
Record Response : Type := { status : Z; text : string }.

(** The dict the callbacks append to [result_buffer]. *)
Record ProfileRecord : Type := {
  username : string;
  full_name : json;
  biography : json;
  followers : Z;
  profile_picture_url : json
}.

(** The four callbacks, named by the strategy they parse. *)
Inductive Stage : Type :=
| MobileApi     (* parse_mobile_api *)
| WebApi        (* parse_api_v1 *)
| LegacyJson    (* parse_legacy_json *)
| HtmlPage.     (* parse_html *)

(** What a callback does when it does not raise: it appends a record, or
    it yields one request bound to the next callback. *)
Inductive Action : Type :=
| Append (r : ProfileRecord)
| Request (callback : Stage).

(** [twisted.python.failure.Failure]: the classes [errback] checks for,
    and [failure.value]. *)
Inductive FailureKind : Type :=
| HttpError (response : Response)
| TimeoutError
| TCPTimedOutError
| DNSLookupError
| OtherFailure.

Record Failure : Type := { kind : FailureKind; value : Exn }.

(** [self.username] as [__init__] sets it. *)
Definition init_username (username : string) : string :=
  lstrip_at (strip username).

Definition not_found_msg (u : string) : string :=
  "Instagram profile '" +:+ u +:+ "' not found.".

Definition rate_limited_msg : string :=
  "Instagram responded with HTTP 429 Too Many Requests.".

Definition unable_msg (u : string) : string :=
  "Unable to extract data from Instagram profile '" +:+ u +:+ "'.".

Definition timeout_msg (u : string) : string :=
  "Timeout while scraping '" +:+ u +:+ "'.".

(** [.replace("\\u0026", "&")]. *)
Fixpoint replace_u0026 (s : string) : string :=
  match s with
  | String "\" (String "u" (String "0" (String "0" (String "2" (String "6" rest))))) =>
      String "&" (replace_u0026 rest)
  | String c rest => String c (replace_u0026 rest)
  | EmptyString => EmptyString
  end.

Section WithSelf.

Variable lib : Lib.
(** [self.username]. *)
Variable self_username : string.

Definition _build_result_from_user (user_payload : json) : result ProfileRecord :=
  edge ← get user_payload "edge_followed_by" (JObj []);
  count ← get (or_else edge (JObj [])) "count" JNull;
  hd ← get user_payload "profile_pic_url_hd" JNull;
  profile_pic ← (if truthy hd then Ok hd
                 else get user_payload "profile_pic_url" JNull);
  bio ← get user_payload "biography" JNull;
  name ← get user_payload "full_name" JNull;
  n ← int (int_of_str lib) (or_else count (JInt 0));
  Ok {| username := self_username;
        full_name := name;
        biography := if truthy bio then bio else JNull;
        followers := n;
        profile_picture_url := profile_pic |}.

(** [(payload or {}).get("data", {}).get("user") if payload else None],
    with [payload = None] after a [JSONDecodeError]. *)
Definition data_user (payload : option json) : result json :=
  match payload with
  | None => Ok JNull
  | Some p =>
      if truthy p then
        d ← get (or_else p (JObj [])) "data" (JObj []);
        get d "user" JNull
      else Ok JNull
  end.

Definition _schedule_web_api : Action := Request WebApi.
Definition _schedule_legacy_json : Action := Request LegacyJson.
Definition _schedule_html_fallback : Action := Request HtmlPage.

Definition parse_mobile_api (response : Response) : result Action :=
  if status response =? 404 then Raise (ProfileNotFound (not_found_msg self_username))
  else if status response =? 429 then Raise (RateLimited rate_limited_msg)
  else if (status response =? 200) && nonempty (strip (text response)) then
    user ← data_user (json_loads lib (text response));
    if truthy user then
      r ← _build_result_from_user user; Ok (Append r)
    else Ok _schedule_web_api
  else Ok _schedule_web_api.

Definition parse_api_v1 (response : Response) : result Action :=
  if status response =? 404 then Raise (ProfileNotFound (not_found_msg self_username))
  else if status response =? 429 then Raise (RateLimited rate_limited_msg)
  else if status response =? 200 then
    user ← data_user (json_loads lib (text response));
    if truthy user then
      r ← _build_result_from_user user; Ok (Append r)
    else Ok _schedule_legacy_json
  else Ok _schedule_legacy_json.

(** The three-shape lookup of [parse_legacy_json], lines 145-149. *)
Definition legacy_user (payload : json) : result json :=
  g ← get payload "graphql" (JObj []);
  a ← get g "user" JNull;
  if truthy a then Ok a else
  d ← get payload "data" (JObj []);
  b ← get d "user" JNull;
  if truthy b then Ok b else
  items ← get payload "items" (JArr [JObj []]);
  first ← item0 items;
  get first "user" (JObj []).

Definition parse_legacy_json (response : Response) : result Action :=
  if status response =? 404 then Raise (ProfileNotFound (not_found_msg self_username))
  else if status response =? 429 then Raise (RateLimited rate_limited_msg)
  else if (400 <=? status response) || negb (nonempty (strip (text response))) then
    Ok _schedule_html_fallback
  else
    match json_loads lib (text response) with
    | None => Ok _schedule_html_fallback
    | Some payload =>
        user ← legacy_user payload;
        if truthy user then
          r ← _build_result_from_user user; Ok (Append r)
        else Ok _schedule_html_fallback
    end.

Definition _extract_json_blob (html : string) : option json :=
  let blob_match :=
    match search_additional_data lib html with
    | Some g => Some g
    | None => search_shared_data lib html
    end in
  match blob_match with
  | None => None
  | Some g => json_loads lib g
  end.

(** The blob navigation of [_extract_from_html], lines 327-332. *)
Definition blob_user (script_payload : json) : result json :=
  e ← get script_payload "entry_data" (JObj []);
  pages ← get e "ProfilePage" (JArr [JObj []]);
  page ← item0 pages;
  g ← get page "graphql" (JObj []);
  get g "user" JNull.

(** Line 343: [int(followers_match.group(1)) if followers_match else 0]. *)
Definition html_followers (html : string) : result Z :=
  match search_followers lib html with
  | Some g => int_of_str lib g
  | None => Ok 0
  end.

(** Lines 344-347: [profile_pic]. *)
Definition html_profile_pic (html : string) : result (option string) :=
  match search_profile_pic lib html with
  | Some g =>
      s ← unicode_escape lib g;
      Ok (Some (replace_u0026 (unescape lib s)))
  | None => Ok None
  end.

(** Lines 349-351: [biography]. *)
Definition html_biography (html : string) : result (option string) :=
  match search_biography lib html with
  | Some g => s ← unicode_escape lib g; Ok (Some (unescape lib s))
  | None => Ok None
  end.

(** Lines 336-362: extraction by the four field patterns. *)
Definition regex_extract (html : string) : result (option ProfileRecord) :=
  n ← html_followers html;
  profile_pic ← html_profile_pic html;
  bio ← html_biography html;
  let no_pic := match profile_pic with
                | Some s => negb (nonempty s)
                | None => true
                end in
  if (n =? 0) && no_pic then Ok None
  else
    Ok (Some {| username := self_username;
                full_name := match search_full_name lib html with
                             | Some g => JStr (unescape lib g)
                             | None => JNull
                             end;
                biography := match bio with Some s => JStr s | None => JNull end;
                followers := n;
                profile_picture_url :=
                  match profile_pic with Some s => JStr s | None => JNull end |}).

Definition _extract_from_html (html : string) : result (option ProfileRecord) :=
  match _extract_json_blob html with
  | Some script_payload =>
      if truthy script_payload then
        user ← blob_user script_payload;
        if truthy user then
          r ← _build_result_from_user user; Ok (Some r)
        else regex_extract html
      else regex_extract html
  | None => regex_extract html
  end.

Definition parse_html (response : Response) : result Action :=
  if status response =? 404 then Raise (ProfileNotFound (not_found_msg self_username))
  else if status response =? 429 then Raise (RateLimited rate_limited_msg)
  else
    parsed ← _extract_from_html (text response);
    match parsed with
    | None => Raise (ProfileNotFound (unable_msg self_username))
    | Some r => Ok (Append r)
    end.

Definition errback (failure : Failure) : result Action :=
  let after_http :=
    match kind failure with
    | TimeoutError | TCPTimedOutError | DNSLookupError =>
        Raise (ProxyTimeout (timeout_msg self_username))
    | _ => Raise (value failure)
    end in
  match kind failure with
  | HttpError response =>
      if status response =? 404 then
        Raise (ProfileNotFound (not_found_msg self_username))
      else if status response =? 429 then Raise (RateLimited rate_limited_msg)
      else after_http
  | _ => after_http
  end.

(** The callback a request is bound to. *)
Definition callback_of (s : Stage) : Response -> result Action :=
  match s with
  | MobileApi => parse_mobile_api
  | WebApi => parse_api_v1
  | LegacyJson => parse_legacy_json
  | HtmlPage => parse_html
  end.

(** What the downloader hands back for a request: a response for the
    callback or a failure for the errback. *)
Inductive Delivery : Type :=
| Delivered (r : Response)
| Failed (f : Failure).

Definition dispatch (s : Stage) (d : Delivery) : result Action :=
  match d with
  | Delivered r => callback_of s r
  | Failed f => errback f
  end.

(** [start_requests] yields the mobile request. *)
Definition start_requests : Stage := MobileApi.

(** The crawl: the engine downloads the [n]-th request, runs its callback
    and follows the request the callback yields.  An exception raised by a
    callback or by the errback ends the chain: the engine logs it and no
    further request follows; it does not reach the caller of the crawl
    (see [Service.run_crawl]).  The result is the list of requests issued
    and what the last callback did: the record it appended or the
    exception it raised. *)
Fixpoint crawl (fuel : nat) (transport : nat -> Stage -> Delivery)
    (n : nat) (req : Stage) : option (list Stage * result ProfileRecord) :=
  match fuel with
  | O => None
  | S k =>
      match dispatch req (transport n req) with
      | Ok (Append r) => Some ([req], Ok r)
      | Ok (Request next) =>
          match crawl k transport (S n) next with
          | Some (tr, out) => Some (req :: tr, out)
          | None => None
          end
      | Raise e => Some ([req], Raise e)
      end
  end.

End WithSelf.

(** The fixed order of the strategies. *)
Definition chain_order : list Stage := [MobileApi; WebApi; LegacyJson; HtmlPage].

End Spider.

(** ** app/config.py (the part the orchestrator uses) and
       app/scraper_service.py *)

Module Service.
Import Py.

Record Settings : Type := {
  nord_username : option string;
  nord_password : option string;
  socks5_host : option string;
  socks5_port : option Z;
  proxy_retry_limit : Z;
  proxy_backoff_seconds : Z
}.

Definition str_truthy (o : option string) : bool :=
  match o with Some s => nonempty s | None => false end.

(** [Settings.socks5_url]. *)
Definition socks5_url (cfg : Settings) (host : option string) : option string :=
  let host := if str_truthy host then host else socks5_host cfg in
  match host, socks5_port cfg, nord_username cfg, nord_password cfg with
  | Some h, Some port, Some user, Some pass =>
      if nonempty h && negb (port =? 0) && nonempty user && nonempty pass then
        Some ("socks5://" +:+ user +:+ ":" +:+ pass +:+ "@" +:+ h +:+ ":"
              +:+ pretty port)
      else None
  | _, _, _, _ => None
  end.

(** How a call of [_run_spider] ends: it returns, having appended
    [appended] to [result_buffer], or it raises.  What a callback of the
    spider raises is not raised by [_run_spider]: see [run_crawl]. *)
Inductive RunResult : Type :=
| Returned (appended : list Spider.ProfileRecord)
| Raised (e : Exn).

(** What the orchestrator does to the outside, in order. *)
Inductive Event : Type :=
| Select (host : option string)                  (* get_next_host *)
| Probe (proxy_url : string) (ok : bool)         (* _proxy_reachable *)
| Run (host : option string) (out : RunResult)   (* run_with_proxy *)
| MarkBad (host : string) (cooldown : Z)         (* mark_bad *)
| Sleep (seconds : Z).                           (* asyncio.sleep *)

(** What [_proxy_reachable(proxy_url)] does: it returns a boolean, or
    [urlparse(proxy_url).port] (line 14, outside the [try]) raises
    [ValueError], as it does for a port that is not a number below 65536. *)
Inductive Probed : Type :=
| Answered (ok : bool)
| PortError (msg : string).

(** The outside, asked at the [n]-th event: [reachable] is
    [_proxy_reachable], [run_spider] is [_run_spider]. *)
Record Env : Type := {
  time_at : nat -> Z;
  listing : nat -> option (list string);
  shuffle : nat -> list string -> list string;
  reachable : nat -> string -> Probed;
  run_spider : nat -> string -> option string -> RunResult
}.

Record State : Type := {
  pm : ProxyManager.t;
  result_buffer : list Spider.ProfileRecord;
  failure_reasons : list string;
  log : list Event
}.

Definition emit (e : Event) (st : State) : State :=
  {| pm := pm st; result_buffer := result_buffer st;
     failure_reasons := failure_reasons st; log := log st ++ [e] |}.

Definition set_pm (p : ProxyManager.t) (st : State) : State :=
  {| pm := p; result_buffer := result_buffer st;
     failure_reasons := failure_reasons st; log := log st |}.

Definition extend_buffer (rs : list Spider.ProfileRecord) (st : State) : State :=
  {| pm := pm st; result_buffer := result_buffer st ++ rs;
     failure_reasons := failure_reasons st; log := log st |}.

Definition add_reason (r : string) (st : State) : State :=
  {| pm := pm st; result_buffer := result_buffer st;
     failure_reasons := failure_reasons st ++ [r]; log := log st |}.

Section Orchestrator.

Variable env : Env.
Variable settings : Settings.
Variable username : string.

Definition now (st : State) : Z := time_at env (length (log st)).

(** [proxy_manager.get_next_host()]. *)
Definition select (st : State) : option string * State :=
  let '(host, p) :=
    ProxyManager.get_next_host (listing env) (shuffle env) (now st) (pm st) in
  (host, emit (Select host) (set_pm p st)).

(** [proxy_manager.mark_bad(host, cooldown_seconds=600)]. *)
Definition mark_bad (host : string) (st : State) : State :=
  emit (MarkBad host 600)
       (set_pm (ProxyManager.mark_bad (now st) host 600 (pm st)) st).

(** [await asyncio.sleep(settings.proxy_backoff_seconds)]. *)
Definition backoff (st : State) : State :=
  emit (Sleep (proxy_backoff_seconds settings)) st.

(** [await run_with_proxy(proxy_url)] on behalf of [host]. *)
Definition run_with_proxy (host : option string) (proxy_url : option string)
    (st : State) : RunResult * State :=
  let out := run_spider env (length (log st)) username proxy_url in
  let st := emit (Run host out) st in
  (out, match out with
        | Returned rs => extend_buffer rs st
        | Raised _ => st
        end).

(** The [while proxy_attempts < settings.proxy_retry_limit] loop;
    [remaining] is [proxy_retry_limit - proxy_attempts].  [None]: the loop
    was left by its guard or a [break]; [Some e]: [e] was raised, by a
    handler of the loop or by [_proxy_reachable], whose call (line 112) is
    outside the [try]. *)
Fixpoint proxy_loop (remaining : nat) (st : State) : option Exn * State :=
  match remaining with
  | O => (None, st)
  | S k =>
      let '(host, st) := select st in
      if negb (str_truthy host) then (None, st)
      else
        let h := default EmptyString host in
        match socks5_url settings host with
        | None => (None, st)
        | Some proxy_url =>
            if negb (nonempty proxy_url) then (None, st)
            else
              match reachable env (length (log st)) proxy_url with
              | PortError msg => (Some (ValueError msg), st)
              | Answered ok =>
                  let st := emit (Probe proxy_url ok) st in
                  if negb ok then proxy_loop k (mark_bad h st)
                  else
                    let '(out, st) := run_with_proxy host (Some proxy_url) st in
                    match out with
                    | Returned _ => (None, st)
                    | Raised (ProxyTimeout _) =>
                        proxy_loop k
                          (backoff (add_reason ("Proxy timeout via " +:+ h)
                                      (mark_bad h st)))
                    | Raised (RateLimited m) =>
                        (Some (RateLimitError m), mark_bad h st)
                    | Raised (ProfileNotFound m) =>
                        (Some (ProfileNotFoundError m), st)
                    | Raised exc =>
                        proxy_loop k
                          (backoff (add_reason ("Proxy " +:+ h +:+ " unexpected error: "
                                                +:+ str_exn exc)
                                      (mark_bad h st)))
                    end
              end
        end
  end.

Definition unavailable_msg (detail : string) : string :=
  "Instagram profile '" +:+ username +:+ "' is unavailable or private. "
  +:+ detail.

(** The direct attempt, lines 139-155. *)
Definition direct_attempt (st : State) : option Exn * State :=
  let '(out, st) := run_with_proxy None None st in
  match out with
  | Returned _ => (None, st)
  | Raised (ProfileNotFound m) => (Some (ProfileNotFoundError m), st)
  | Raised (RateLimited m) => (Some (RateLimitError m), st)
  | Raised (ProxyTimeout m) =>
      (Some (ScraperRuntimeError m), add_reason "Direct connection timeout" st)
  | Raised exc =>
      (Some (ProfileNotFoundError (unavailable_msg (str_exn exc))),
       add_reason ("Direct connection error: " +:+ str_exn exc) st)
  end.

(** Lines 157-164; the dict returned is the one handed to
    [InstagramProfile]. *)
Definition finish (st : State) : result Spider.ProfileRecord * State :=
  match result_buffer st with
  | [] =>
      let detail := match failure_reasons st with
                    | [] => "No data returned"
                    | _ :: _ => join ", " (failure_reasons st)
                    end in
      (Raise (ProfileNotFoundError (unavailable_msg detail)), st)
  | r :: _ => (Ok r, st)
  end.

(** [scrape_instagram_profile(username)] started with the process-wide
    proxy manager in state [p]. *)
Definition scrape_instagram_profile (p : ProxyManager.t)
    : result Spider.ProfileRecord * State :=
  let st := {| pm := p; result_buffer := []; failure_reasons := []; log := [] |} in
  match proxy_loop (Z.to_nat (proxy_retry_limit settings)) st with
  | (Some e, st) => (Raise e, st)
  | (None, st) =>
      match result_buffer st with
      | [] =>
          match direct_attempt st with
          | (Some e, st) => (Raise e, st)
          | (None, st) => finish st
          end
      | _ :: _ => finish st
      end
  end.

End Orchestrator.

(** [_run_spider] carried out by the crawl of [Spider], the downloads of
    the run that starts at event [n] through [proxy_url] being
    [transport_of n proxy_url].  [_run_spider] returns what
    [runner.crawl(...)] gives under [crochet.wait_for]: the engine logs an
    exception raised by a callback or by the errback and the crawl ends
    normally, so the run returns, having appended a record or nothing; the
    exception does not reach [scrape_instagram_profile]. *)
Definition run_crawl (lib : Spider.Lib)
    (transport_of : nat -> option string -> nat -> Spider.Stage -> Spider.Delivery)
    (n : nat) (username : string) (proxy_url : option string) : RunResult :=
  match Spider.crawl lib (Spider.init_username username) 4
          (transport_of n proxy_url) 0 Spider.start_requests with
  | Some (_, Ok r) => Returned [r]
  | Some (_, Raise _) => Returned []
  | None => Returned []
  end.

End Service.

(** ** Concrete inputs used by the examples below *)

Module Scenario.
Import Py.

(** A listing source that always answers with the single host [b]. *)
Definition listing_b : nat -> option (list string) := fun _ => Some ["b"].
(** A listing source that is unreachable. *)
Definition listing_down : nat -> option (list string) := fun _ => None.
(** A shuffle that reverses. *)
Definition shuffle_rev : nat -> list string -> list string := fun _ l => rev l.

(** A ring holding the single endpoint [a], never refreshed. *)
Definition ring_a : ProxyManager.t :=
  ProxyManager.init listing_down shuffle_rev ["a"].

(** ... after [mark_bad("a", 600)] at time 1000. *)
Definition ring_a_bad : ProxyManager.t :=
  ProxyManager.mark_bad 1000 "a" 600 ring_a.

(** An empty ring. *)
Definition ring_empty : ProxyManager.t :=
  {| ProxyManager._pool := []; ProxyManager._bad_hosts := ∅;
     ProxyManager.api_calls := 0 |}.

(** The double quote. *)
Definition dq : string := String "034"%char EmptyString.

(** [int] on a [str] of ASCII digits; anything else is a [ValueError]. *)
Fixpoint digits_value (acc : Z) (s : string) : option Z :=
  match s with
  | EmptyString => Some acc
  | String c rest =>
      let n := Z.of_nat (nat_of_ascii c) in
      if (48 <=? n) && (n <=? 57) then digits_value (10 * acc + (n - 48)) rest
      else None
  end.

Definition int_of_digits (s : string) : result Z :=
  match s with
  | EmptyString => Raise (ValueError "invalid literal for int() with base 10")
  | _ => match digits_value 0 s with
         | Some n => Ok n
         | None => Raise (ValueError "invalid literal for int() with base 10")
         end
  end.

(** A profile page whose embedded blob lists no profile:
    [<script>window._sharedData = {"entry_data": {"ProfilePage": []}};</script>] *)
Definition blob_no_page : string :=
  "{" +:+ dq +:+ "entry_data" +:+ dq +:+ ": {" +:+ dq +:+ "ProfilePage" +:+ dq
  +:+ ": []}}".

Definition page_no_page : string :=
  "<script>window._sharedData = " +:+ blob_no_page +:+ ";</script>".

(** A legacy answer with an empty item list: [{"items": []}]. *)
Definition body_no_items : string :=
  "{" +:+ dq +:+ "items" +:+ dq +:+ ": []}".

(** A profile answer:
    [{"data": {"user": {"edge_followed_by": {"count": 1234}}}}] *)
Definition body_user : string :=
  "{" +:+ dq +:+ "data" +:+ dq +:+ ": {" +:+ dq +:+ "user" +:+ dq +:+ ": {"
  +:+ dq +:+ "edge_followed_by" +:+ dq +:+ ": {" +:+ dq +:+ "count" +:+ dq
  +:+ ": 1234}}}}".

(** The library on the texts above: the decoder and the patterns give what
    Python gives on them and nothing elsewhere. *)
Definition lib_demo : Spider.Lib :=
  {| Spider.json_loads := fun s =>
       if String.eqb s blob_no_page then
         Some (JObj [("entry_data", JObj [("ProfilePage", JArr [])])])
       else if String.eqb s body_no_items then
         Some (JObj [("items", JArr [])])
       else if String.eqb s body_user then
         Some (JObj [("data", JObj [("user",
                 JObj [("edge_followed_by", JObj [("count", JInt 1234)])])])])
       else None;
     Spider.int_of_str := int_of_digits;
     Spider.unescape := fun s => s;
     Spider.unicode_escape := fun s => Ok s;
     Spider.search_additional_data := fun _ => None;
     Spider.search_shared_data := fun html =>
       if String.eqb html page_no_page then Some blob_no_page else None;
     Spider.search_followers := fun _ => None;
     Spider.search_profile_pic := fun _ => None;
     Spider.search_full_name := fun _ => None;
     Spider.search_biography := fun _ => None |}.

(** User objects: [{"edge_followed_by": null}],
    [{"edge_followed_by": {"count": 1234}}],
    [{"edge_followed_by": {"count": -5}}],
    [{"edge_followed_by": {"count": true}}],
    [{"edge_followed_by": {"count": [1]}}]. *)
Definition user_null_edge : json := JObj [("edge_followed_by", JNull)].
Definition user_count (c : json) : json :=
  JObj [("edge_followed_by", JObj [("count", c)])].

(** Downloads: every request is answered 200 with [body_user]; ... with
    [{"items": []}]; ... with the page without a profile. *)
Definition transport_user : nat -> Spider.Stage -> Spider.Delivery :=
  fun _ _ => Spider.Delivered {| Spider.status := 200; Spider.text := body_user |}.

(** ... 200 with an empty body. *)
Definition transport_blank : nat -> Spider.Stage -> Spider.Delivery :=
  fun _ _ => Spider.Delivered {| Spider.status := 200; Spider.text := EmptyString |}.

(** ... 200 with an empty body by the mobile API, then 404. *)
Definition transport_404_second : nat -> Spider.Stage -> Spider.Delivery :=
  fun n _ =>
    Spider.Delivered {| Spider.status := if (n =? 0)%nat then 200 else 404;
                        Spider.text := EmptyString |}.

Definition response_no_items : Spider.Response :=
  {| Spider.status := 200; Spider.text := body_no_items |}.

Definition response_plain : Spider.Response :=
  {| Spider.status := 200; Spider.text := "<html></html>" |}.

Definition response_no_page : Spider.Response :=
  {| Spider.status := 200; Spider.text := page_no_page |}.

(** Downloads that time out; downloads answered 429. *)
Definition transport_timeout : nat -> Spider.Stage -> Spider.Delivery :=
  fun _ _ =>
    Spider.Failed {| Spider.kind := Spider.TimeoutError;
                     Spider.value := OtherError "User timeout caused connection failure." |}.

Definition transport_429 : nat -> Spider.Stage -> Spider.Delivery :=
  fun _ _ => Spider.Delivered {| Spider.status := 429; Spider.text := EmptyString |}.

(** Settings with proxy credentials and a retry limit of 1. *)
Definition settings_demo : Service.Settings :=
  {| Service.nord_username := Some "user";
     Service.nord_password := Some "pass";
     Service.socks5_host := None;
     Service.socks5_port := Some 1080;
     Service.proxy_retry_limit := 1;
     Service.proxy_backoff_seconds := 2 |}.

(** The outside without any proxy in which the mobile API answers with
    [body_user]. *)
Definition env_direct : Service.Env :=
  {| Service.time_at := fun n => 1000 + Z.of_nat n;
     Service.listing := listing_down;
     Service.shuffle := shuffle_rev;
     Service.reachable := fun _ _ => Service.Answered true;
     Service.run_spider := Service.run_crawl lib_demo (fun _ _ => transport_user) |}.

(** The outside in which every request is answered 429. *)
Definition env_429 : Service.Env :=
  {| Service.time_at := fun n => 1000 + Z.of_nat n;
     Service.listing := listing_down;
     Service.shuffle := shuffle_rev;
     Service.reachable := fun _ _ => Service.Answered true;
     Service.run_spider := Service.run_crawl lib_demo (fun _ _ => transport_429) |}.

End Scenario.

(** ** Vocabulary used to state the properties *)

Module Claims.
Import Py Spider.

(** An uppercase letter among the code points below 256. *)
Definition is_upper (c : ascii) : bool :=
  let n := Z.of_nat (nat_of_ascii c) in
  ((65 <=? n) && (n <=? 90))
  || ((192 <=? n) && (n <=? 222) && negb (n =? 215)).

(** A lowercase handle holds no uppercase letter. *)
Fixpoint lowercase (s : string) : bool :=
  match s with
  | EmptyString => true
  | String c rest => negb (is_upper c) && lowercase rest
  end.

(** A handle with a leading [@]. *)
Definition leading_at (s : string) : bool :=
  match s with
  | String c _ => Ascii.eqb c "@"%char
  | EmptyString => false
  end.

(** An advance signal: the callback yields the request of a further
    strategy. *)
Definition advance (a : result Action) : bool :=
  match a with
  | Ok (Request _) => true
  | _ => false
  end.

(** A parseable user object, in the words of the spec for the mobile and
    the web strategy: the body decodes to a dict whose [data] is a dict
    that holds a truthy [user]. *)
Definition parseable_user (lib : Lib) (body : string) : bool :=
  match json_loads lib body with
  | Some (JObj top) =>
      match assoc "data" top with
      | Some (JObj d) =>
          match assoc "user" d with
          | Some user => truthy user
          | None => false
          end
      | _ => false
      end
  | _ => false
  end.

(** The advance signal of the mobile and the web strategy, in the words of
    the spec: anything but a 404, a 429 or a 200 with a parseable user
    object. *)
Definition advance_signal (lib : Lib) (r : Response) : bool :=
  negb (status r =? 404) && negb (status r =? 429)
  && negb ((status r =? 200) && parseable_user lib (text r)).

(** A value without the method [get]. *)
Definition no_get (v : json) : bool :=
  match v with JObj _ => false | _ => true end.

(** A decoded body the user lookup of the mobile and the web strategy
    cannot walk: a truthy value that is no dict, or a dict whose [data] is
    there and is no dict. *)
Definition unwalkable (v : json) : bool :=
  truthy v
  && match v with
     | JObj top =>
         match assoc "data" top with
         | Some d => no_get d
         | None => false
         end
     | _ => true
     end.

(** The place of a strategy in the fixed order. *)
Definition pos (s : Stage) : nat :=
  match s with
  | MobileApi => 0
  | WebApi => 1
  | LegacyJson => 2
  | HtmlPage => 3
  end.

(** The embedded blob yields a user object. *)
Definition blob_yields_user (lib : Lib) (html : string) : bool :=
  match _extract_json_blob lib html with
  | Some p =>
      truthy p && match blob_user p with
                  | Ok user => truthy user
                  | Raise _ => false
                  end
  | None => false
  end.

(** The follower pattern yields a count other than zero. *)
Definition regex_yields_followers (lib : Lib) (html : string) : bool :=
  match html_followers lib html with
  | Ok n => negb (n =? 0)
  | Raise _ => false
  end.

(** The picture pattern yields a URL. *)
Definition regex_yields_picture (lib : Lib) (html : string) : bool :=
  match html_profile_pic lib html with
  | Ok (Some s) => nonempty s
  | _ => false
  end.

(** Counting the events of one kind in a log. *)
Fixpoint count (p : Service.Event -> bool) (l : list Service.Event) : nat :=
  match l with
  | [] => 0
  | e :: rest => ((if p e then 1 else 0) + count p rest)%nat
  end.

(** A selection of a proxy endpoint; a direct attempt. *)
Definition is_select (e : Service.Event) : bool :=
  match e with Service.Select _ => true | _ => false end.

Definition is_direct_run (e : Service.Event) : bool :=
  match e with Service.Run None _ => true | _ => false end.

(** A proxy attempt that ended in a terminal classification. *)
Definition terminal_run (e : Service.Event) : bool :=
  match e with
  | Service.Run (Some _) (Service.Raised (RateLimited _))
  | Service.Run (Some _) (Service.Raised (ProfileNotFound _)) => true
  | _ => false
  end.

(** The failure reason a proxy attempt leaves behind. *)
Definition proxy_reason (e : Service.Event) : list string :=
  match e with
  | Service.Run (Some h) (Service.Raised exc) =>
      match exc with
      | ProxyTimeout _ => ["Proxy timeout via " +:+ h]
      | RateLimited _ | ProfileNotFound _ => []
      | _ => ["Proxy " +:+ h +:+ " unexpected error: " +:+ str_exn exc]
      end
  | _ => []
  end.

Definition proxy_reasons (l : list Service.Event) : list string :=
  concat (map proxy_reason l).

(** The detail of the final [ProfileNotFoundError]. *)
Definition detail (reasons : list string) : string :=
  match reasons with
  | [] => "No data returned"
  | _ :: _ => join ", " reasons
  end.

(** How one run of the proxy loop that added the events [ev] to the log
    may end: by its guard or a [break], after attempts none of which was
    terminal; with [RateLimitError] or [ProfileNotFoundError], raised by
    its last attempt, the only terminal one; or with the [ValueError] of
    the probe of the host just selected. *)
Definition loop_exit (env : Service.Env) (st : Service.State)
    (ev : list Service.Event) (exit : option Exn) (st' : Service.State) : Prop :=
  match exit with
  | None => forallb (fun e => negb (terminal_run e)) ev = true
  | Some (RateLimitError m) =>
      exists pre h,
        ev = pre ++ [Service.Run (Some h) (Service.Raised (RateLimited m));
                     Service.MarkBad h 600]
        /\ forallb (fun e => negb (terminal_run e)) pre = true
        /\ ProxyManager._bad_hosts (Service.pm st') !! h
           = Some (Service.time_at env
                     (length (Service.log st) + length pre + 1) + 600)
  | Some (ProfileNotFoundError m) =>
      exists pre h,
        ev = pre ++ [Service.Run (Some h) (Service.Raised (ProfileNotFound m))]
        /\ forallb (fun e => negb (terminal_run e)) pre = true
  | Some (ValueError m) =>
      exists pre h,
        ev = pre ++ [Service.Select (Some h)]
        /\ forallb (fun e => negb (terminal_run e)) pre = true
  | Some _ => False
  end.

(** [followers or 0] for a user object that is a dict: the value [int]
    is applied to. *)
Definition counted (kvs : list (string * json)) : result json :=
  edge ← get (JObj kvs) "edge_followed_by" (JObj []);
  count ← get (or_else edge (JObj [])) "count" JNull;
  Ok (or_else count (JInt 0)).

End Claims.

(** ** Repeated selection *)

Module Ring.
Import ProxyManager.

(** [get_next_host] called once at each of the times [times], in order. *)
Fixpoint select_many (listing : nat -> option (list string))
    (shuffle : nat -> list string -> list string)
    (times : list Z) (pm : t) : list (option string) * t :=
  match times with
  | [] => ([], pm)
  | now :: rest =>
      let '(host, pm1) := get_next_host listing shuffle now pm in
      let '(hosts, pm2) := select_many listing shuffle rest pm1 in
      (host :: hosts, pm2)
  end.

End Ring.

(** ** app/config.py *)

Module Config.
Import Py.

(** [value.split(sep)] for a separator of one character. *)
Fixpoint split_on (sep : ascii) (s : string) : list string :=
  match s with
  | EmptyString => [EmptyString]
  | String c rest =>
      if Ascii.eqb c sep then EmptyString :: split_on sep rest
      else
        match split_on sep rest with
        | piece :: pieces => String c piece :: pieces
        | [] => [String c EmptyString]
        end
  end.

(** [c in s] for a character. *)
Fixpoint has_char (c : ascii) (s : string) : bool :=
  match s with
  | EmptyString => false
  | String x rest => Ascii.eqb x c || has_char c rest
  end.

(** An item as [_split_csv] lists them: not empty, without surrounding
    whitespace, without a comma. *)
Definition clean_item (s : string) : bool :=
  nonempty s && String.eqb (strip s) s && negb (has_char ","%char s).

(** [_split_csv]; [None] is an unset variable. *)
Definition _split_csv (value : option string) : list string :=
  match value with
  | None => []
  | Some v =>
      if nonempty v then
        List.filter nonempty (map strip (split_on ","%char v))
      else []
  end.

(** The settings [instagram_cookies] reads, with the cookie file as it is
    found: [None] when it does not exist, its text otherwise. *)
Record CookieSettings : Type := {
  instagram_sessionid : option string;
  instagram_csrftoken : option string;
  cookie_file : option string
}.

(** The loop over [("sessionid", "csrftoken", "ds_user_id")], lines 77-80. *)
Definition take_key (data : list (string * json)) (cookies : gmap string json)
    (key : string) : gmap string json :=
  match assoc key data with
  | Some value => if truthy value then <[key := value]> cookies else cookies
  | None => cookies
  end.

(** Lines 73-82: what the [try] block leaves in [cookies].  A text that
    does not decode or does not decode to a dict raises inside the block,
    before any key is set, and the handler only logs. *)
Definition cookies_of_file (json_loads : string -> option json)
    (file : option string) : gmap string json :=
  match file with
  | None => ∅
  | Some text =>
      match json_loads text with
      | Some (JObj data) =>
          foldl (take_key data) ∅ ["sessionid"; "csrftoken"; "ds_user_id"]
      | _ => ∅
      end
  end.

Definition set_if_truthy (key : string) (value : option string)
    (cookies : gmap string json) : gmap string json :=
  match value with
  | Some s => if nonempty s then <[key := JStr s]> cookies else cookies
  | None => cookies
  end.

(** [cookies.setdefault(key, value)]. *)
Definition setdefault (key : string) (value : json)
    (cookies : gmap string json) : gmap string json :=
  match cookies !! key with
  | Some _ => cookies
  | None => <[key := value]> cookies
  end.

(** [Settings.instagram_cookies]. *)
Definition instagram_cookies (json_loads : string -> option json)
    (cfg : CookieSettings) : gmap string json :=
  let cookies := cookies_of_file json_loads (cookie_file cfg) in
  let cookies := set_if_truthy "sessionid" (instagram_sessionid cfg) cookies in
  let cookies := set_if_truthy "csrftoken" (instagram_csrftoken cfg) cookies in
  if decide (cookies = ∅) then cookies
  else setdefault "ig_nrcb" (JStr "1") cookies.

(** What holds of every cookie of the bag: a truthy value under one of
    four names. *)
Definition cookie_invariant (m : gmap string json) : Prop :=
  forall k v, m !! k = Some v ->
    truthy v = true
    /\ In k ["sessionid"; "csrftoken"; "ds_user_id"; "ig_nrcb"].

End Config.

(** ** The header builders of the spider *)

Module Headers.
Import Py.

Section WithSelf.

(** [self.username], [self.app_id], [self.cookies]. *)
Variable self_username : string.
Variable app_id : string.
Variable cookies : gmap string json.

(** [self.cookies.get("csrftoken")], set under [X-CSRFToken] when truthy. *)
Definition with_csrf (headers : gmap string json) : gmap string json :=
  match cookies !! "csrftoken" with
  | Some token => if truthy token then <["X-CSRFToken" := token]> headers
                  else headers
  | None => headers
  end.

Definition referer : json :=
  JStr ("https://www.instagram.com/" +:+ self_username +:+ "/").

(** [_build_headers(json_request=...)]; the Chrome build it draws is not
    used. *)
Definition _build_headers (json_request : bool) : gmap string json :=
  let base_headers : gmap string json :=
    <["Accept-Language" := JStr "en-US,en;q=0.9"]>
    (<["Referer" := referer]>
    (<["DNT" := JStr "1"]>
    (<["Sec-Fetch-Site" := JStr "same-origin"]>
    (<["Sec-Fetch-Dest" := JStr (if json_request then "empty" else "document")]>
    (<["Sec-Fetch-Mode" := JStr (if json_request then "cors" else "navigate")]>
    (<["Pragma" := JStr "no-cache"]>
    (<["Cache-Control" := JStr "no-cache"]> ∅))))))) in
  let base_headers :=
    if json_request then
      <["X-Requested-With" := JStr "XMLHttpRequest"]>
      (<["Accept" := JStr "application/json, text/javascript, */*; q=0.01"]>
         base_headers)
    else
      <["Accept" := JStr "text/html,application/xhtml+xml,application/xml;q=0.9,image/avif,image/webp,*/*;q=0.8"]>
        base_headers in
  with_csrf (<["X-IG-App-ID" := JStr app_id]> base_headers).

(** [_build_api_headers()], the Chrome build drawn being [chrome_build]. *)
Definition _build_api_headers (chrome_build : string) : gmap string json :=
  with_csrf
    (<["User-Agent" :=
         JStr ("Mozilla/5.0 (Windows NT 10.0; Win64; x64) AppleWebKit/537.36 (KHTML, like Gecko) Chrome/"
               +:+ chrome_build +:+ " Safari/537.36")]>
    (<["Accept" := JStr "application/json"]>
    (<["Referer" := referer]>
    (<["X-IG-App-ID" := JStr app_id]>
    (<["DNT" := JStr "1"]>
    (<["Sec-Fetch-Site" := JStr "same-origin"]>
    (<["Sec-Fetch-Mode" := JStr "cors"]>
    (<["Pragma" := JStr "no-cache"]>
    (<["Cache-Control" := JStr "no-cache"]>
    (<["X-Requested-With" := JStr "XMLHttpRequest"]> ∅)))))))))).

End WithSelf.

(** [_build_mobile_api_headers()]. *)
Definition _build_mobile_api_headers : gmap string json :=
  <["User-Agent" :=
      JStr "Instagram 219.0.0.12.117 Android (26/8.0.0; 640dpi; 1440x2560; Google; Pixel 3 XL; Crosshatch; qcom; en_US; 123456789)"]>
  (<["Accept" := JStr "application/json"]>
  (<["Accept-Language" := JStr "en-US"]>
  (<["X-IG-App-ID" := JStr "567067343352427"]>
  (<["X-IG-Capabilities" := JStr "3brTvw=="]>
  (<["X-IG-Connection-Type" := JStr "WIFI"]>
  (<["X-IG-Connection-Speed" := JStr "0kbps"]>
  (<["X-IG-Bandwidth-Speed-KBPS" := JStr "0.000"]>
  (<["X-IG-Bandwidth-TotalBytes-B" := JStr "0"]>
  (<["X-IG-Bandwidth-TotalTime-MS" := JStr "0"]> ∅))))))))).

(** The headers of the request that reaches each callback:
    [start_requests], [_schedule_web_api], [_schedule_legacy_json],
    [_schedule_html_fallback].  (The [cookies=] argument of the last three
    is not embedded: [scraper/settings.py] sets [COOKIES_ENABLED = False],
    so what is sent of the session is what the headers hold.) *)
Definition request_headers (self_username app_id : string)
    (cookies : gmap string json) (chrome_build : string)
    (s : Spider.Stage) : gmap string json :=
  match s with
  | Spider.MobileApi => _build_mobile_api_headers
  | Spider.WebApi => _build_api_headers self_username app_id cookies chrome_build
  | Spider.LegacyJson => _build_headers self_username app_id cookies true
  | Spider.HtmlPage => _build_headers self_username app_id cookies false
  end.

End Headers.

(** ** app/auth.py: the cookie file *)

Module Auth.
Import Py.

Definition COOKIE_KEYS : list string := ["sessionid"; "csrftoken"; "ds_user_id"].

(** [k in COOKIE_KEYS]. *)
Definition in_keys (k : string) : bool := existsb (String.eqb k) COOKIE_KEYS.

Section WithJson.

Variable json_loads : string -> option json.
Variable json_dumps : json -> string.

(** [load_persisted_cookies], the cookie file being absent ([None]) or
    holding [text].  Only [JSONDecodeError] is caught. *)
Definition load_persisted_cookies (file : option string)
    : result (list (string * json)) :=
  match file with
  | None => Ok []
  | Some text =>
      match json_loads text with
      | None => Ok []
      | Some (JObj data) =>
          Ok (List.filter (fun kv => in_keys kv.1 && truthy kv.2) data)
      | Some v =>
          Raise (AttributeError
                   ("'" +:+ type_name v +:+ "' object has no attribute 'items'"))
      end
  end.

(** [save_cookies]: the text the cookie file holds afterwards. *)
Definition save_cookies (cookies : list (string * json)) : option string :=
  Some (json_dumps (JObj (List.filter (fun kv => in_keys kv.1) cookies))).

End WithJson.

End Auth.

(** ** app/persistence.py: the profile image and the snapshot row *)

Module Persistence.
Import Py.

(** [InstagramProfile] (app/models.py).  [profile_picture_url] is an
    [HttpUrl] when present, which as an object is truthy; the string under
    [Some] is its [str()].  [scraped_at] is an instant. *)
Record InstagramProfile : Type := {
  username : string;
  full_name : option string;
  biography : option string;
  followers : Z;
  profile_picture_url : option string;
  profile_image_path : option string;
  is_cached : bool;
  scraped_at : Z
}.

(** A row of [profile_snapshots], in the order of the [INSERT]. *)
Record Row : Type := {
  row_username : string;
  row_full_name : option string;
  row_biography : option string;
  row_followers : Z;
  row_profile_picture_url : option string;
  row_profile_image_path : option string;
  row_scraped_at : Z;
  row_is_cached : Z
}.

(** What [_download_image] returns: a bare path (line 137) or a pair. *)
Inductive Downloaded : Type :=
| Path (destination : string)
| Pair (local_path : option string) (source_url : option string).

(** [needle in hay]. *)
Definition contains (needle hay : string) : bool :=
  match String.index 0 needle hay with
  | Some _ => true
  | None => false
  end.

Definition unavatar_url (username : string) : string :=
  "https://unavatar.io/instagram/" +:+ username.

Definition dicebear_url (username : string) : string :=
  "https://api.dicebear.com/7.x/initials/png?seed=" +:+ username.

(** The file system and the network as [_download_image] meets them:
    [destination] is [str(_images_dir / filename)], [present] whether it
    exists, [fetch] what [fetch_image] returns for a URL, [writable]
    whether [write_bytes] succeeds. *)
Record Outside : Type := {
  destination : string;
  present : bool;
  fetch : string -> option string;
  writable : bool
}.

(** What a call did: the URLs fetched, in order, and the content written. *)
Record Effects : Type := {
  fetched : list string;
  written : option string
}.

Definition _download_image (out : Outside) (username url : string)
    : Downloaded * Effects :=
  if present out then
    (Path (destination out), {| fetched := []; written := None |})
  else
    let content := fetch out url in
    let log := [url] in
    let '(content, url, log) :=
      match content with
      | None =>
          if negb (contains "unavatar.io" url) then
            let fallback_url := unavatar_url username in
            match fetch out fallback_url with
            | Some c => (Some c, fallback_url, log ++ [fallback_url])
            | None => (None, url, log ++ [fallback_url])
            end
          else (None, url, log)
      | Some c => (Some c, url, log)
      end in
    let '(content, url, log) :=
      match content with
      | None =>
          let fallback_url := dicebear_url username in
          match fetch out fallback_url with
          | Some c => (Some c, fallback_url, log ++ [fallback_url])
          | None => (None, url, log ++ [fallback_url])
          end
      | Some c => (Some c, url, log)
      end in
    match content with
    | None => (Pair None None, {| fetched := log; written := None |})
    | Some c =>
        if writable out then
          (Pair (Some (destination out)) (Some url),
           {| fetched := log; written := Some c |})
        else (Pair None None, {| fetched := log; written := None |})
    end.

(** [local_image_path, image_source_url = ...]: unpacking into two
    targets. *)
Definition unpack2 (d : Downloaded) : result (option string * option string) :=
  match d with
  | Pair a b => Ok (a, b)
  | Path EmptyString =>
      Raise (ValueError "not enough values to unpack (expected 2, got 0)")
  | Path (String _ EmptyString) =>
      Raise (ValueError "not enough values to unpack (expected 2, got 1)")
  | Path (String a (String b EmptyString)) =>
      Ok (Some (String a EmptyString), Some (String b EmptyString))
  | Path _ => Raise (ValueError "too many values to unpack (expected 2)")
  end.

Definition str_truthy (o : option string) : bool :=
  match o with Some s => nonempty s | None => false end.

(** [persist_profile]: the profile returned and the row inserted, or the
    exception raised before anything is inserted; with what the download
    did. *)
Definition persist_profile (out : Outside) (profile : InstagramProfile)
    : result (InstagramProfile * Row) * Effects :=
  let nothing := {| fetched := []; written := None |} in
  let image_source_url := profile_picture_url profile in
  let '(unpacked, eff) :=
    match image_source_url with
    | Some u =>
        if nonempty u then
          let '(d, eff) := _download_image out (username profile) u in
          (unpack2 d, eff)
        else (Ok (None, image_source_url), nothing)
    | None => (Ok (None, image_source_url), nothing)
    end in
  match unpacked with
  | Raise e => (Raise e, eff)
  | Ok (local_image_path, image_source_url) =>
      let picture :=
        if str_truthy image_source_url
           && negb (match profile_picture_url profile with
                    | Some _ => true
                    | None => false
                    end)
        then image_source_url
        else profile_picture_url profile in
      let serialised_profile :=
        {| username := username profile;
           full_name := full_name profile;
           biography := biography profile;
           followers := followers profile;
           profile_picture_url := picture;
           profile_image_path := local_image_path;
           is_cached := false;
           scraped_at := scraped_at profile |} in
      let row :=
        {| row_username := username serialised_profile;
           row_full_name := full_name serialised_profile;
           row_biography := biography serialised_profile;
           row_followers := followers serialised_profile;
           row_profile_picture_url := profile_picture_url serialised_profile;
           row_profile_image_path := profile_image_path serialised_profile;
           row_scraped_at := scraped_at serialised_profile;
           row_is_cached := if is_cached serialised_profile then 1 else 0 |} in
      (Ok (serialised_profile, row), eff)
  end.

End Persistence.

(** ** The rounds of the proxy loop *)

Module Rounds.
Import Py Service.

(** What one turn of the proxy loop did. *)
Inductive Round : Type :=
| Stopped (host : option string)                    (* a [break] before any probe *)
| Broken (h url : string) (msg : string)            (* the probe raised *)
| Unreachable (h url : string)                      (* the probe failed *)
| Succeeded (h url : string) (rs : list Spider.ProfileRecord)
| Retried (h url : string) (exc : Exn)              (* timeout or unexpected *)
| Limited (h url : string) (m : string)             (* RateLimited *)
| Missing (h url : string) (m : string).            (* ProfileNotFound *)

(** The events of a round, in order. *)
Definition events (settings : Settings) (r : Round) : list Event :=
  match r with
  | Stopped host => [Select host]
  | Broken h url msg => [Select (Some h)]
  | Unreachable h url => [Select (Some h); Probe url false; MarkBad h 600]
  | Succeeded h url rs =>
      [Select (Some h); Probe url true; Run (Some h) (Returned rs)]
  | Retried h url exc =>
      [Select (Some h); Probe url true; Run (Some h) (Raised exc);
       MarkBad h 600; Sleep (proxy_backoff_seconds settings)]
  | Limited h url m =>
      [Select (Some h); Probe url true; Run (Some h) (Raised (RateLimited m));
       MarkBad h 600]
  | Missing h url m =>
      [Select (Some h); Probe url true; Run (Some h) (Raised (ProfileNotFound m))]
  end.

(** The rounds after which the loop goes on. *)
Definition goes_on (r : Round) : bool :=
  match r with
  | Unreachable _ _ | Retried _ _ _ => true
  | _ => false
  end.

(** An exception the loop absorbs. *)
Definition absorbed (exc : Exn) : bool :=
  match exc with
  | RateLimited _ | ProfileNotFound _ => false
  | _ => true
  end.

(** A round is well formed for [settings]: its host is a non-empty name,
    its URL the one built for the host (the URL probed, also when the probe
    raised), and the exception of a retried round one the loop absorbs; a
    round that stopped early did so for want of a host or of a URL. *)
Definition well_formed (settings : Settings) (r : Round) : Prop :=
  match r with
  | Stopped host =>
      str_truthy host = false \/ socks5_url settings host = None
  | Broken h url _ | Unreachable h url | Succeeded h url _ | Limited h url _
  | Missing h url _ =>
      nonempty h = true /\ socks5_url settings (Some h) = Some url
  | Retried h url exc =>
      nonempty h = true /\ socks5_url settings (Some h) = Some url
      /\ absorbed exc = true
  end.

(** What the loop hands back after its last round. *)
Definition exit_of (r : Round) : option Exn :=
  match r with
  | Broken _ _ m => Some (ValueError m)
  | Limited _ _ m => Some (RateLimitError m)
  | Missing _ _ m => Some (ProfileNotFoundError m)
  | _ => None
  end.

(** How a run of the proxy loop that may make [k] turns ends, given the
    rounds after which it went on and the round, if any, that ended it. *)
Definition loop_shape (settings : Settings) (k : nat)
    (going ending : list Round) (exit : option Exn) : Prop :=
  Forall (fun r => goes_on r = true) going
  /\ Forall (well_formed settings) (going ++ ending)
  /\ match ending with
     | [] => length going = k /\ exit = None
     | [final] =>
         (length going < k)%nat /\ goes_on final = false
         /\ exit = exit_of final
     | _ => False
     end.

(** The records the ending round left in the buffer. *)
Definition left_by (ending : list Round) : list Spider.ProfileRecord :=
  match ending with
  | [Succeeded _ _ rs] => rs
  | _ => []
  end.

Definition is_mark_bad (e : Event) : bool :=
  match e with MarkBad _ _ => true | _ => false end.

Definition is_sleep (e : Event) : bool :=
  match e with Sleep _ => true | _ => false end.

Definition is_failed_probe (e : Event) : bool :=
  match e with Probe _ false => true | _ => false end.

Definition is_passed_probe (e : Event) : bool :=
  match e with Probe _ true => true | _ => false end.

Definition is_proxy_run (e : Event) : bool :=
  match e with Run (Some _) _ => true | _ => false end.

(** A proxy run that raised anything but [ProfileNotFound]. *)
Definition is_penalised_run (e : Event) : bool :=
  match e with
  | Run (Some _) (Raised (ProfileNotFound _)) => false
  | Run (Some _) (Raised _) => true
  | _ => false
  end.

(** A proxy run that raised an exception the loop absorbs. *)
Definition is_absorbed_run (e : Event) : bool :=
  match e with
  | Run (Some _) (Raised exc) => absorbed exc
  | _ => false
  end.

(** The only cooldown and the only back-off the orchestrator uses. *)
Definition uniform (settings : Settings) (e : Event) : Prop :=
  match e with
  | MarkBad _ cooldown => cooldown = 600
  | Sleep seconds => seconds = proxy_backoff_seconds settings
  | _ => True
  end.

(** The books of a log balance: one mark per failed probe and per proxy
    run that raised anything but [ProfileNotFound], one back-off per
    absorbed failure, one passed probe per proxy run, no more probes than
    selections. *)
Definition balanced (l : list Event) : Prop :=
  Claims.count is_mark_bad l
  = (Claims.count is_failed_probe l + Claims.count is_penalised_run l)%nat
  /\ Claims.count is_sleep l = Claims.count is_absorbed_run l
  /\ Claims.count is_proxy_run l = Claims.count is_passed_probe l
  /\ (Claims.count is_passed_probe l + Claims.count is_failed_probe l
      <= Claims.count Claims.is_select l)%nat.

Definition is_run (e : Event) : bool :=
  match e with Run _ _ => true | _ => false end.

(** Every run returns, as a run that is a crawl does. *)
Definition quiet (env : Env) : Prop :=
  forall n u proxy_url, exists rs, run_spider env n u proxy_url = Returned rs.

(** What lines 157-164 make of the records of a direct run when no
    failure reason was recorded. *)
Definition answer (username : string) (rs : list Spider.ProfileRecord)
    : result Spider.ProfileRecord :=
  match rs with
  | [] => Raise (ProfileNotFoundError
                   (unavailable_msg username "No data returned"))
  | r :: _ => Ok r
  end.

(** The errors the docstring of [scrape_instagram_profile] declares. *)
Definition declared (e : Exn) : bool :=
  match e with
  | ProfileNotFoundError _ | RateLimitError _ | ScraperRuntimeError _ => true
  | _ => false
  end.

End Rounds.

(** ** scraper/middlewares.py *)

Module Middleware.
Import Py Scenario.

Definition USER_AGENTS : list string :=
  ["Mozilla/5.0 (Windows NT 10.0; Win64; x64) AppleWebKit/537.36 (KHTML, like Gecko) Chrome/124.0.0.0 Safari/537.36";
   "Mozilla/5.0 (Macintosh; Intel Mac OS X 13_6_1) AppleWebKit/605.1.15 (KHTML, like Gecko) Version/17.4.1 Safari/605.1.15";
   "Mozilla/5.0 (Windows NT 10.0; Win64; x64; rv:125.0) Gecko/20100101 Firefox/125.0";
   "Mozilla/5.0 (Macintosh; Intel Mac OS X 14_2) AppleWebKit/537.36 (KHTML, like Gecko) Chrome/123.0.6312.86 Safari/537.36";
   "Mozilla/5.0 (X11; Linux x86_64) AppleWebKit/537.36 (KHTML, like Gecko) Chrome/124.0.0.0 Safari/537.36";
   "Mozilla/5.0 (Windows NT 10.0; Win64; x64) AppleWebKit/537.36 (KHTML, like Gecko) Edg/123.0.2420.65 Safari/537.36";
   "Mozilla/5.0 (Macintosh; Intel Mac OS X 14_1_2) AppleWebKit/605.1.15 (KHTML, like Gecko) Version/17.2.1 Safari/605.1.15";
   "Mozilla/5.0 (Windows NT 10.0; Win64; x64) AppleWebKit/537.36 (KHTML, like Gecko) Chrome/123.0.6312.122 Safari/537.36";
   "Mozilla/5.0 (X11; Linux x86_64; rv:125.0) Gecko/20100101 Firefox/125.0";
   "Mozilla/5.0 (Macintosh; Intel Mac OS X 13_5) AppleWebKit/537.36 (KHTML, like Gecko) Chrome/122.0.6261.128 Safari/537.36"].

Definition SEC_CH_UA_VALUES : list string :=
  [dq +:+ "Chromium" +:+ dq +:+ ";v=" +:+ dq +:+ "124" +:+ dq +:+ ", "
   +:+ dq +:+ "Google Chrome" +:+ dq +:+ ";v=" +:+ dq +:+ "124" +:+ dq +:+ ", "
   +:+ dq +:+ "Not-A.Brand" +:+ dq +:+ ";v=" +:+ dq +:+ "99" +:+ dq;
   dq +:+ "Chromium" +:+ dq +:+ ";v=" +:+ dq +:+ "122" +:+ dq +:+ ", "
   +:+ dq +:+ "Microsoft Edge" +:+ dq +:+ ";v=" +:+ dq +:+ "122" +:+ dq +:+ ", "
   +:+ dq +:+ "Not=A?Brand" +:+ dq +:+ ";v=" +:+ dq +:+ "99" +:+ dq;
   dq +:+ "Google Chrome" +:+ dq +:+ ";v=" +:+ dq +:+ "123" +:+ dq +:+ ", "
   +:+ dq +:+ "Chromium" +:+ dq +:+ ";v=" +:+ dq +:+ "123" +:+ dq +:+ ", "
   +:+ dq +:+ "Not.A/Brand" +:+ dq +:+ ";v=" +:+ dq +:+ "8" +:+ dq].

Definition SEC_CH_UA_PLATFORM : list string :=
  [dq +:+ "Windows" +:+ dq; dq +:+ "macOS" +:+ dq; dq +:+ "Linux" +:+ dq].

(** What [process_request] draws: the three [random.choice] and the
    [random.uniform(2.0, 5.0)]. *)
Record Draws : Type := {
  user_agent : string;
  sec_ch_ua : string;
  sec_ch_ua_platform : string;
  download_delay : json
}.

(** [random.choice] returns an element of its argument. *)
Definition drawn (d : Draws) : Prop :=
  In (user_agent d) USER_AGENTS
  /\ In (sec_ch_ua d) SEC_CH_UA_VALUES
  /\ In (sec_ch_ua_platform d) SEC_CH_UA_PLATFORM.

(** The headers [process_request] sets. *)
Definition set_headers : list string :=
  ["User-Agent"; "Sec-CH-UA"; "Sec-CH-UA-Platform"; "Sec-CH-UA-Mobile";
   "Pragma"; "Cache-Control"].

(** [RandomUserAgentMiddleware.process_request]: the headers and the meta
    of the request afterwards. *)
Definition process_request (d : Draws) (headers meta : gmap string json)
    : gmap string json * gmap string json :=
  let headers := <["User-Agent" := JStr (user_agent d)]> headers in
  let headers := <["Sec-CH-UA" := JStr (sec_ch_ua d)]> headers in
  let headers := <["Sec-CH-UA-Platform" := JStr (sec_ch_ua_platform d)]> headers in
  let headers := <["Sec-CH-UA-Mobile" := JStr "?0"]> headers in
  let headers := <["Pragma" := JStr "no-cache"]> headers in
  let headers := <["Cache-Control" := JStr "no-cache"]> headers in
  let meta :=
    match meta !! "download_slot" with
    | None => <["download_slot" := JStr (user_agent d)]> meta
    | Some _ => meta
    end in
  let meta := Config.setdefault "download_delay" (download_delay d) meta in
  (headers, meta).

End Middleware.

(** ** app/main.py: the handle of the route *)

Module Main.
Import Py.

(** Line 72 of [get_instagram_profile]: [username.strip().lstrip("@")],
    the handle passed to [scrape_instagram_profile] and to
    [get_latest_profile]. *)
Definition handle (username : string) : string :=
  lstrip_at (strip username).

(** A string that starts with whitespace. *)
Definition leading_space (s : string) : bool :=
  match s with
  | String c _ => isspace c
  | EmptyString => false
  end.

End Main.

(** ** Further concrete inputs *)

Module Cases.
Import Py Scenario.

(** A ring of three endpoints, none cooling; the same ring after
    [mark_bad("a", 600)] at time 1000. *)
Definition ring_abc : ProxyManager.t :=
  {| ProxyManager._pool := ["a"; "b"; "c"]; ProxyManager._bad_hosts := ∅;
     ProxyManager.api_calls := 0 |}.

Definition ring_abc_bad : ProxyManager.t :=
  ProxyManager.mark_bad 1000 "a" 600 ring_abc.

(** [json.dumps] on a dict of strings that need no escaping. *)
Fixpoint dumps_fields (kvs : list (string * json)) : string :=
  match kvs with
  | [] => EmptyString
  | (k, v) :: rest =>
      dq +:+ k +:+ dq +:+ ": "
      +:+ match v with JStr s => dq +:+ s +:+ dq | _ => "null" end
      +:+ match rest with [] => EmptyString | _ :: _ => ", " end
      +:+ dumps_fields rest
  end.

Definition dumps_demo (v : json) : string :=
  match v with
  | JObj kvs => "{" +:+ dumps_fields kvs +:+ "}"
  | _ => "null"
  end.

(** The cookies handed to [save_cookies]: a session id, a cookie of
    another name and an empty CSRF token. *)
Definition cookies_demo : list (string * json) :=
  [("sessionid", JStr "abc"); ("mid", JStr "xyz"); ("csrftoken", JStr EmptyString)].

(** The text [save_cookies] writes for them. *)
Definition cookie_text : string :=
  "{" +:+ dq +:+ "sessionid" +:+ dq +:+ ": " +:+ dq +:+ "abc" +:+ dq +:+ ", "
  +:+ dq +:+ "csrftoken" +:+ dq +:+ ": " +:+ dq +:+ dq +:+ "}".

(** [json.loads] on that text, and nothing elsewhere. *)
Definition loads_demo (s : string) : option json :=
  if String.eqb s cookie_text then
    Some (JObj [("sessionid", JStr "abc"); ("csrftoken", JStr EmptyString)])
  else None.

(** A profile with a picture URL. *)
Definition profile_demo : Persistence.InstagramProfile :=
  {| Persistence.username := "u";
     Persistence.full_name := Some "U";
     Persistence.biography := None;
     Persistence.followers := 1234;
     Persistence.profile_picture_url := Some "https://cdn.example/p.jpg";
     Persistence.profile_image_path := None;
     Persistence.is_cached := true;
     Persistence.scraped_at := 1700000000 |}.

(** The image file is not there, only dicebear answers, and the file can be
    written. *)
Definition outside_fallback : Persistence.Outside :=
  {| Persistence.destination := "/data/images/u_20231114221320.jpg";
     Persistence.present := false;
     Persistence.fetch := fun url =>
       if String.eqb url (Persistence.dicebear_url "u") then Some "png" else None;
     Persistence.writable := true |}.

(** The image file is already there. *)
Definition outside_present : Persistence.Outside :=
  {| Persistence.destination := "/data/images/u_20231114221320.jpg";
     Persistence.present := true;
     Persistence.fetch := fun _ => None;
     Persistence.writable := true |}.

(** A page on which only the follower pattern matches:
    ["edge_followed_by":{"count":1234}] *)
Definition page_followers : string :=
  dq +:+ "edge_followed_by" +:+ dq +:+ ":{" +:+ dq +:+ "count" +:+ dq +:+ ":1234}".

Definition lib_regex : Spider.Lib :=
  {| Spider.json_loads := fun _ => None;
     Spider.int_of_str := int_of_digits;
     Spider.unescape := fun s => s;
     Spider.unicode_escape := fun s => Ok s;
     Spider.search_additional_data := fun _ => None;
     Spider.search_shared_data := fun _ => None;
     Spider.search_followers := fun html =>
       if String.eqb html page_followers then Some "1234" else None;
     Spider.search_profile_pic := fun _ => None;
     Spider.search_full_name := fun _ => None;
     Spider.search_biography := fun _ => None |}.

(** A user object with a follower count, a standard picture and an empty
    biography. *)
Definition user_fields : list (string * json) :=
  [("edge_followed_by", JObj [("count", JInt 1234)]);
   ("profile_pic_url", JStr "https://cdn.example/p.jpg");
   ("biography", JStr EmptyString);
   ("full_name", JStr "U")].

Definition response_user : Spider.Response :=
  {| Spider.status := 200; Spider.text := body_user |}.

Definition response_429 : Spider.Response :=
  {| Spider.status := 429; Spider.text := EmptyString |}.

(** A redirect with an empty body. *)
Definition response_302 : Spider.Response :=
  {| Spider.status := 302; Spider.text := EmptyString |}.

(** Settings without the user name of the proxy. *)
Definition settings_no_user : Service.Settings :=
  {| Service.nord_username := None;
     Service.nord_password := Some "pass";
     Service.socks5_host := None;
     Service.socks5_port := Some 1080;
     Service.proxy_retry_limit := 5;
     Service.proxy_backoff_seconds := 2 |}.

(** The outside in which every proxy is reachable and every download times
    out. *)
Definition env_timeout : Service.Env :=
  {| Service.time_at := fun n => 1000 + Z.of_nat n;
     Service.listing := listing_down;
     Service.shuffle := shuffle_rev;
     Service.reachable := fun _ _ => Service.Answered true;
     Service.run_spider :=
       Service.run_crawl lib_demo (fun _ _ => transport_timeout) |}.

(** Settings whose proxy port, 70000, is no port number, and the outside
    in which the probe of the URL built from it raises what
    [urlparse("socks5://user:pass@a:70000").port] raises. *)
Definition settings_bad_port : Service.Settings :=
  {| Service.nord_username := Some "user";
     Service.nord_password := Some "pass";
     Service.socks5_host := None;
     Service.socks5_port := Some 70000;
     Service.proxy_retry_limit := 5;
     Service.proxy_backoff_seconds := 2 |}.

Definition env_port_error : Service.Env :=
  {| Service.time_at := fun n => 1000 + Z.of_nat n;
     Service.listing := listing_down;
     Service.shuffle := shuffle_rev;
     Service.reachable := fun _ proxy_url =>
       if String.eqb proxy_url "socks5://user:pass@a:70000" then
         Service.PortError "Port out of range 0-65535"
       else Service.Answered true;
     Service.run_spider :=
       Service.run_crawl lib_demo (fun _ _ => transport_timeout) |}.

(** A library whose decoder reads the body [[1]], and the downloads
    answered 200 with that body. *)
Definition lib_list : Spider.Lib :=
  {| Spider.json_loads := fun s =>
       if String.eqb s "[1]" then Some (JArr [JInt 1]) else None;
     Spider.int_of_str := int_of_digits;
     Spider.unescape := fun s => s;
     Spider.unicode_escape := fun s => Ok s;
     Spider.search_additional_data := fun _ => None;
     Spider.search_shared_data := fun _ => None;
     Spider.search_followers := fun _ => None;
     Spider.search_profile_pic := fun _ => None;
     Spider.search_full_name := fun _ => None;
     Spider.search_biography := fun _ => None |}.

Definition response_list : Spider.Response :=
  {| Spider.status := 200; Spider.text := "[1]" |}.

Definition transport_list : nat -> Spider.Stage -> Spider.Delivery :=
  fun _ _ => Spider.Delivered response_list.

(** One outcome of the draws of the middleware. *)
Definition draws_demo : Middleware.Draws :=
  {| Middleware.user_agent :=
       "Mozilla/5.0 (X11; Linux x86_64; rv:125.0) Gecko/20100101 Firefox/125.0";
     Middleware.sec_ch_ua :=
       dq +:+ "Google Chrome" +:+ dq +:+ ";v=" +:+ dq +:+ "123" +:+ dq +:+ ", "
       +:+ dq +:+ "Chromium" +:+ dq +:+ ";v=" +:+ dq +:+ "123" +:+ dq +:+ ", "
       +:+ dq +:+ "Not.A/Brand" +:+ dq +:+ ";v=" +:+ dq +:+ "8" +:+ dq;
     Middleware.sec_ch_ua_platform := dq +:+ "Linux" +:+ dq;
     Middleware.download_delay := JFloat (SpecFloat.S754_finite false 7 (-1)) |}.

End Cases.

(** * Properties *)

(** ** The proxy pool *)

Section PoolFacts.
Import ProxyManager.

Variable listing : nat -> option (list string).
Variable shuffle : nat -> list string -> list string.

Lemma rotate_perm (pool : list string) : rotate pool ≡ₚ pool.
Proof.
  destruct pool as [|h rest]; simpl; [done|].
  by rewrite Permutation_app_comm.
Qed.

Lemma rotate_nil_inv (pool : list string) : rotate pool = [] -> pool = [].
Proof.
  destruct pool as [|h rest]; [done|]. simpl.
  by destruct rest.
Qed.

(** A scan that meets only cooling endpoints finds nothing and leaves the
    ring rotated. *)
Lemma scan_all_cooling bad now k (pool : list string) :
  Forall (fun h => cooling bad now h = true) pool ->
  exists pool', scan k bad now pool = (None, pool') /\ pool' ≡ₚ pool.
Proof.
  revert pool. induction k as [|k IH]; intros pool Hall; simpl.
  - by exists pool.
  - destruct pool as [|h rest] eqn:Hp; [by exists []|].
    rewrite <- Hp in *.
    assert (Hh : cooling bad now h = true).
    { subst pool. by inversion Hall. }
    rewrite Hh.
    destruct (IH (rotate pool)) as (pool' & Hs & Hperm).
    { by rewrite rotate_perm. }
    exists pool'. split; [done|]. by rewrite Hperm, rotate_perm.
Qed.

(** What a successful scan returns is an endpoint of the ring that is not
    cooling. *)
Lemma scan_some_viable bad now k (pool pool' : list string) h :
  scan k bad now pool = (Some h, pool') ->
  cooling bad now h = false /\ h ∈ pool /\ pool' ≡ₚ pool.
Proof.
  revert pool. induction k as [|k IH]; intros pool Hs; simpl in Hs; [done|].
  destruct pool as [|h0 rest] eqn:Hp; [done|]. rewrite <- Hp in *.
  destruct (cooling bad now h0) eqn:Hc.
  - apply IH in Hs as (? & Hin & Hperm).
    rewrite rotate_perm in Hin, Hperm. done.
  - injection Hs as <- <-. split; [done|]. split.
    + subst pool. apply list_elem_of_here.
    + apply rotate_perm.
Qed.

(** Within one turn of the ring, an endpoint that is not cooling is found. *)
Lemma scan_finds_app bad now (l tl : list string) k :
  (length l <= k)%nat ->
  Exists (fun h => cooling bad now h = false) l ->
  exists h pool', scan k bad now (l ++ tl) = (Some h, pool').
Proof.
  revert tl k. induction l as [|x l IHl]; intros tl k Hlen Hex.
  - by apply Exists_nil in Hex.
  - simpl in Hlen. destruct k as [|k]; [lia|]. simpl.
    destruct (cooling bad now x) eqn:Hx; [|eauto].
    apply Exists_cons in Hex as [?|Hex]; [congruence|].
    rewrite <- app_assoc. apply IHl; [lia|done].
Qed.

Lemma scan_finds bad now k (pool : list string) :
  (length pool <= k)%nat ->
  Exists (fun h => cooling bad now h = false) pool ->
  exists h pool', scan k bad now pool = (Some h, pool').
Proof.
  intros Hlen Hex. rewrite <- (app_nil_r pool). by apply scan_finds_app.
Qed.

(** While some endpoint of the ring is not cooling, the selection returns
    an endpoint that is not cooling, and asks the listing source nothing. *)
Lemma get_next_host_viable now pm :
  Exists (fun h => cooling (_bad_hosts pm) now h = false) (_pool pm) ->
  exists h, (get_next_host listing shuffle now pm).1 = Some h
            /\ h ∈ _pool pm
            /\ cooling (_bad_hosts pm) now h = false
            /\ api_calls (get_next_host listing shuffle now pm).2 = api_calls pm.
Proof.
  intros Hex. unfold get_next_host.
  destruct (scan_finds (_bad_hosts pm) now (S (length (_pool pm))) (_pool pm))
    as (h & pool' & Hs); [lia|done|].
  rewrite Hs. apply scan_some_viable in Hs as (? & ? & ?). by exists h.
Qed.

(** C1 (as the code behaves).  When the ring is not empty and every
    endpoint in it is in cooldown, [get_next_host] still returns an endpoint
    of the ring, so one whose cooldown has not elapsed, and no refresh takes
    place: the scan falls through to the unconditional [self._pool[0]]. *)
Theorem get_next_host_all_cooling now pm :
  _pool pm <> [] ->
  Forall (fun h => cooling (_bad_hosts pm) now h = true) (_pool pm) ->
  exists h, (get_next_host listing shuffle now pm).1 = Some h
            /\ h ∈ _pool pm
            /\ cooling (_bad_hosts pm) now h = true
            /\ api_calls (get_next_host listing shuffle now pm).2 = api_calls pm.
Proof.
  intros Hne Hall. unfold get_next_host.
  destruct (scan_all_cooling (_bad_hosts pm) now (S (length (_pool pm)))
              (_pool pm) Hall) as (pool' & -> & Hperm).
  cbn [with_pool _pool].
  destruct pool' as [|h rest].
  { apply Permutation_nil_l in Hperm. congruence. }
  cbn [with_pool _pool fst snd api_calls].
  exists h. split; [done|].
  assert (Hin : h ∈ _pool pm) by (rewrite <- Hperm; apply list_elem_of_here).
  split; [done|]. split; [|done].
  rewrite Forall_forall in Hall. by apply Hall.
Qed.

(** The ring never loses or gains an endpoint unless it was empty. *)
Lemma get_next_host_keeps_ring now pm :
  _pool pm <> [] ->
  api_calls (get_next_host listing shuffle now pm).2 = api_calls pm
  /\ _pool (get_next_host listing shuffle now pm).2 ≡ₚ _pool pm
  /\ _bad_hosts (get_next_host listing shuffle now pm).2 = _bad_hosts pm.
Proof.
  intros Hne. unfold get_next_host.
  destruct (scan _ _ _ _) as [[h|] pool'] eqn:Hs.
  - apply scan_some_viable in Hs as (_ & _ & Hperm). done.
  - assert (Hperm : pool' ≡ₚ _pool pm).
    { clear Hne. revert Hs. generalize (S (length (_pool pm))).
      generalize (_pool pm) as pool.
      intros pool n; revert pool. induction n as [|n IH]; intros pool Hs; simpl in Hs.
      - by injection Hs as <-.
      - destruct pool as [|h0 rest] eqn:Hp; [by injection Hs as <-|].
        rewrite <- Hp in *. destruct (cooling _ _ h0); [|done].
        apply IH in Hs. by rewrite Hs, rotate_perm. }
    cbn [with_pool _pool].
    destruct pool' as [|h rest].
    { apply Permutation_nil_l in Hperm. congruence. }
    cbn [with_pool _pool fst snd api_calls _bad_hosts].
    split; [done|]. split; [|done].
    by rewrite rotate_perm.
Qed.

(** C4 (amended).  On an empty ring the selection makes exactly one
    refresh: it asks the listing source once, shuffles the answer, appends
    it, and returns the head of the refreshed ring, or [None] when the
    source failed or listed nothing (the ring then stays empty and nothing
    is raised).  On a ring that is not empty no refresh takes place. *)
Theorem get_next_host_refresh now pm :
  (forall n l, shuffle n l ≡ₚ l) ->
  let r := get_next_host listing shuffle now pm in
  let n := api_calls pm in
  let hosts := shuffle n (default [] (listing n)) in
  match _pool pm with
  | [] =>
      r = (head hosts,
           {| _pool := rotate hosts; _bad_hosts := _bad_hosts pm;
              api_calls := S n |})
      /\ _pool r.2 ≡ₚ default [] (listing n)
      /\ (r.1 = None <-> (listing n = None \/ listing n = Some []))
  | _ :: _ => api_calls r.2 = n /\ _pool r.2 ≡ₚ _pool pm
  end.
Proof.
  intros Hsh r n hosts.
  destruct (_pool pm) as [|h0 rest] eqn:Hp.
  - assert (Hr : r = (head hosts,
                     {| _pool := rotate hosts; _bad_hosts := _bad_hosts pm;
                        api_calls := S n |})).
    { subst r. unfold get_next_host. rewrite Hp. simpl.
      unfold _refresh_pool. cbn [with_pool _pool api_calls _bad_hosts].
      fold n. fold hosts.
      replace (match listing n with Some hs => hs | None => [] end)
        with (default [] (listing n)) by (by destruct (listing n)).
      fold hosts. by destruct hosts. }
    split; [done|]. rewrite Hr. cbn [fst snd _pool]. split.
    + subst hosts. by rewrite rotate_perm.
    + subst hosts. specialize (Hsh n (default [] (listing n))).
      destruct (listing n) as [[|x l]|] eqn:Hl; simpl in *.
      * apply Permutation_nil_r in Hsh. rewrite Hsh. simpl. naive_solver.
      * destruct (shuffle n (x :: l)) eqn:Hs.
        { by apply Permutation_nil_l in Hsh. }
        simpl. split; [done|]. intros [?|?]; congruence.
      * apply Permutation_nil_r in Hsh. rewrite Hsh. simpl. naive_solver.
  - destruct (get_next_host_keeps_ring now pm) as (? & ? & _); [congruence|].
    subst r n. by rewrite <- Hp.
Qed.

End PoolFacts.

Section PoolExamples.
Import ProxyManager Scenario.

(** C1, the failing input: the ring is [a], [mark_bad("a", 600)] is called
    at time 1000, and at time 1001 (599 ticks before the cooldown ends)
    [get_next_host] returns [a]. *)
Lemma get_next_host_all_cooling_witness :
  (_pool ring_a_bad <> []
   /\ Forall (fun h => cooling (_bad_hosts ring_a_bad) 1001 h = true)
        (_pool ring_a_bad))
  /\ (get_next_host listing_down shuffle_rev 1001 ring_a_bad).1 = Some "a"
  /\ exists h, (get_next_host listing_down shuffle_rev 1001 ring_a_bad).1 = Some h
               /\ h ∈ _pool ring_a_bad
               /\ cooling (_bad_hosts ring_a_bad) 1001 h = true
               /\ api_calls (get_next_host listing_down shuffle_rev 1001 ring_a_bad).2
                  = api_calls ring_a_bad.
Proof.
  assert (H1 : _pool ring_a_bad <> []) by discriminate.
  assert (H2 : Forall (fun h => cooling (_bad_hosts ring_a_bad) 1001 h = true)
                 (_pool ring_a_bad)).
  { constructor; [vm_compute; reflexivity | constructor]. }
  split; [done|]. split; [vm_compute; reflexivity|].
  exact (get_next_host_all_cooling listing_down shuffle_rev 1001 ring_a_bad H1 H2).
Defined.

(** C4, as stated, fails: the ring is [a], in cooldown until 1600; at time
    1001 the full scan finds nothing, yet the listing source (which would
    answer [b]) is not asked and the ring is still [a]. *)
Lemma get_next_host_no_refresh_when_all_cooling :
  let r := get_next_host listing_b shuffle_rev 1001 ring_a_bad in
  scan (S (length (_pool ring_a_bad))) (_bad_hosts ring_a_bad) 1001
    (_pool ring_a_bad) = (None, ["a"])
  /\ api_calls r.2 = api_calls ring_a_bad
  /\ api_calls r.2 <> S (api_calls ring_a_bad)
  /\ _pool r.2 = ["a"]
  /\ "b" ∉ _pool r.2.
Proof.
  vm_compute. repeat split; try discriminate.
  intros H. apply list_elem_of_In in H. simpl in H.
  destruct H as [H|[]]. discriminate.
Qed.

(** C4 (amended) at concrete inputs: an empty ring whose listing source
    answers [b], with a shuffle that reverses. *)
Lemma get_next_host_refresh_witness :
  (forall n l, shuffle_rev n l ≡ₚ l)
  /\ get_next_host listing_b shuffle_rev 1001 ring_empty
     = (Some "b", {| _pool := ["b"]; _bad_hosts := ∅; api_calls := 1 |}).
Proof.
  assert (H : forall n l, shuffle_rev n l ≡ₚ l).
  { intros n l. unfold shuffle_rev. symmetry. apply Permutation_rev. }
  split; [exact H|].
  exact (proj1 (get_next_host_refresh listing_b shuffle_rev 1001 ring_empty H)).
Defined.

End PoolExamples.

(** ** Record construction *)

Section RecordFacts.
Import Py Spider Claims.

Variable lib : Lib.
Variable u : string.

Lemma get_dict kvs k d : get (JObj kvs) k d = Ok (default d (assoc k kvs)).
Proof. unfold get. by destruct (assoc k kvs). Qed.

Lemma truthy_obj_cons kv e : truthy (JObj (kv :: e)) = true.
Proof. reflexivity. Qed.

Lemma or_else_truthy a b : truthy a = true -> or_else a b = a.
Proof. unfold or_else. by intros ->. Qed.

Lemma or_else_falsy a b : truthy a = false -> or_else a b = b.
Proof. unfold or_else. by intros ->. Qed.

(** Only a dict builds a record, and the record carries [self.username]. *)
Lemma build_result_inv user r :
  _build_result_from_user lib u user = Ok r ->
  (exists kvs, user = JObj kvs) /\ username r = u.
Proof.
  unfold _build_result_from_user. intros H.
  destruct user; try discriminate. split; [eauto|].
  simpl in H.
  repeat match type of H with
         | context [mbind _ ?m] =>
             let E := fresh "E" in destruct m eqn:E; simpl in H; try discriminate
         end.
  by injection H as <-.
Qed.

Lemma build_result_followers kvs :
  _build_result_from_user lib u (JObj kvs)
  = (c ← counted kvs; n ← int (int_of_str lib) c;
     Ok {| username := u;
           full_name := default JNull (assoc "full_name" kvs);
           biography := (let bio := default JNull (assoc "biography" kvs) in
                         if truthy bio then bio else JNull);
           followers := n;
           profile_picture_url :=
             (let hd := default JNull (assoc "profile_pic_url_hd" kvs) in
              if truthy hd then hd
              else default JNull (assoc "profile_pic_url" kvs)) |}).
Proof.
  unfold _build_result_from_user, counted. simpl.
  destruct (get (or_else _ _) "count" JNull) as [count|e]; simpl; [|done].
  replace (match assoc "profile_pic_url_hd" kvs with Some x => x | None => JNull end)
    with (default JNull (assoc "profile_pic_url_hd" kvs))
    by (by destruct (assoc "profile_pic_url_hd" kvs)).
  destruct (truthy (default JNull (assoc "profile_pic_url_hd" kvs))) eqn:Hhd;
    simpl;
    destruct (int (int_of_str lib) (or_else count (JInt 0))); simpl; try done;
    repeat f_equal;
    by repeat match goal with
              | |- context [assoc ?k kvs] => destruct (assoc k kvs)
              end.
Qed.

(** C6 (amended).  For a user object that is a dict: when the count under
    [edge_followed_by] is an integer, a record is produced and its followers
    field is that integer, sign included; when [edge_followed_by] is absent,
    null or otherwise falsy, or its count is, a record is produced with
    followers 0. *)
Theorem followers_normalisation kvs :
  (forall e n,
      assoc "edge_followed_by" kvs = Some (JObj e) ->
      assoc "count" e = Some (JInt n) ->
      exists r, _build_result_from_user lib u (JObj kvs) = Ok r /\ followers r = n)
  /\ ((forall edge, assoc "edge_followed_by" kvs = Some edge -> truthy edge = false) ->
      exists r, _build_result_from_user lib u (JObj kvs) = Ok r /\ followers r = 0)
  /\ (forall e,
        assoc "edge_followed_by" kvs = Some (JObj e) ->
        (forall c, assoc "count" e = Some c -> truthy c = false) ->
        exists r, _build_result_from_user lib u (JObj kvs) = Ok r /\ followers r = 0).
Proof.
  split; [|split].
  - intros e n He Hc. rewrite build_result_followers.
    assert (Hcounted : counted kvs = Ok (JInt n)).
    { unfold counted. rewrite get_dict, He. cbn [from_option id mbind result_bind].
      destruct e as [|kv e']; [done|].
      rewrite (or_else_truthy _ _ (truthy_obj_cons kv e')).
      rewrite get_dict, Hc. cbn [from_option id mbind result_bind].
      by destruct n. }
    rewrite Hcounted. cbn [mbind result_bind int followers]. eauto.
  - intros Hedge. rewrite build_result_followers.
    assert (Hcounted : counted kvs = Ok (JInt 0)).
    { unfold counted. rewrite get_dict.
      destruct (assoc "edge_followed_by" kvs) as [edge|] eqn:He;
        cbn [from_option id mbind result_bind]; [|done].
      by rewrite (or_else_falsy _ _ (Hedge edge eq_refl)). }
    rewrite Hcounted. cbn [mbind result_bind int followers]. eauto.
  - intros e He Hc. rewrite build_result_followers.
    assert (Hcounted : counted kvs = Ok (JInt 0)).
    { unfold counted. rewrite get_dict, He. cbn [from_option id mbind result_bind].
      destruct e as [|kv e']; [done|].
      rewrite (or_else_truthy _ _ (truthy_obj_cons kv e')). rewrite get_dict.
      destruct (assoc "count" (kv :: e')) as [c|] eqn:Hcount;
        cbn [from_option id mbind result_bind]; [|done].
      by rewrite (or_else_falsy _ _ (Hc c eq_refl)). }
    rewrite Hcounted. cbn [mbind result_bind int followers]. eauto.
Qed.

End RecordFacts.

Section RecordExamples.
Import Py Spider Claims Scenario.

(** C6 (amended) on the two inputs the claim names. *)
Lemma followers_normalisation_witness :
  (exists r, _build_result_from_user lib_demo "u" (user_count (JInt 1234)) = Ok r
             /\ followers r = 1234)
  /\ (exists r, _build_result_from_user lib_demo "u" user_null_edge = Ok r
                /\ followers r = 0).
Proof.
  split.
  - apply (proj1 (followers_normalisation lib_demo "u"
                    [("edge_followed_by", JObj [("count", JInt 1234)])])
             [("count", JInt 1234)] 1234); reflexivity.
  - apply (proj1 (proj2 (followers_normalisation lib_demo "u"
                           [("edge_followed_by", JNull)]))).
    intros edge H. injection H as <-. reflexivity.
Defined.

(** C6, as stated, fails: a count of -5 gives a record whose followers
    field is negative; the non-numeric count [true] gives followers 1, not
    0; the non-numeric count [[1]] gives no record at all. *)
Lemma followers_not_normalised :
  (exists r, _build_result_from_user lib_demo "u" (user_count (JInt (-5))) = Ok r
             /\ followers r = -5 /\ ~ 0 <= followers r)
  /\ (exists r, _build_result_from_user lib_demo "u" (user_count (JBool true)) = Ok r
                /\ followers r = 1 /\ followers r <> 0)
  /\ _build_result_from_user lib_demo "u" (user_count (JArr [JInt 1]))
     = Raise (TypeError
                "int() argument must be a string, a bytes-like object or a real number, not 'list'").
Proof.
  split; [|split].
  - eexists. split; [reflexivity|]. simpl. split; [done|lia].
  - eexists. split; [reflexivity|]. simpl. split; [done|lia].
  - reflexivity.
Qed.

End RecordExamples.

(** ** The handle *)

Section HandleFacts.
Import Py Spider Claims.

Lemma lstrip_at_no_leading (s : string) : leading_at (lstrip_at s) = false.
Proof.
  unfold lstrip_at. induction s as [|c rest IH]; simpl; [done|].
  destruct (Ascii.eqb c "@") eqn:Hc; [done|]. simpl. by rewrite Hc.
Qed.

Lemma init_username_no_leading (username : string) :
  leading_at (init_username username) = false.
Proof. apply lstrip_at_no_leading. Qed.

Variable lib : Lib.
Variable u : string.

Lemma regex_extract_username html r :
  regex_extract lib u html = Ok (Some r) -> username r = u.
Proof.
  unfold regex_extract. intros H.
  repeat match type of H with
         | context [mbind _ ?m] =>
             let E := fresh "E" in destruct m eqn:E;
             cbn [mbind result_bind] in H; try discriminate
         end.
  destruct (_ && _); [discriminate|]. by injection H as <-.
Qed.

Lemma extract_from_html_username html r :
  _extract_from_html lib u html = Ok (Some r) -> username r = u.
Proof.
  unfold _extract_from_html. intros H.
  destruct (_extract_json_blob lib html) as [p|]; [|by eapply regex_extract_username].
  destruct (truthy p); [|by eapply regex_extract_username].
  destruct (blob_user p) as [user|e]; cbn [mbind result_bind] in H; [|done].
  destruct (truthy user); [|by eapply regex_extract_username].
  destruct (_build_result_from_user lib u user) as [r'|e] eqn:Hb;
    cbn [mbind result_bind] in H; [|done].
  injection H as <-. by apply build_result_inv in Hb as [_ ?].
Qed.

(** A record appended by a callback carries [self.username]. *)
Lemma callback_append_username stage response r :
  callback_of lib u stage response = Ok (Append r) -> username r = u.
Proof.
  assert (Hbuild : forall user (next : Action),
             (if truthy user
              then r' ← _build_result_from_user lib u user; Ok (Append r')
              else Ok next) = Ok (Append r) ->
             next = Append r \/ username r = u).
  { intros user next H. destruct (truthy user); [|left; congruence].
    destruct (_build_result_from_user lib u user) as [r'|e] eqn:Hb;
      cbn [mbind result_bind] in H; [|done].
    injection H as <-. right. by apply build_result_inv in Hb as [_ ?]. }
  destruct stage; cbn [callback_of];
    [unfold parse_mobile_api|unfold parse_api_v1|unfold parse_legacy_json
    |unfold parse_html]; intros H;
    destruct (status response =? 404); try discriminate;
    destruct (status response =? 429); try discriminate.
  - destruct (_ && _); [|discriminate].
    destruct (data_user _) as [user|e]; cbn [mbind result_bind] in H; [|done].
    by apply Hbuild in H as [?|?].
  - destruct (status response =? 200); [|discriminate].
    destruct (data_user _) as [user|e]; cbn [mbind result_bind] in H; [|done].
    by apply Hbuild in H as [?|?].
  - destruct (_ || _); [discriminate|].
    destruct (json_loads lib _) as [payload|]; [|discriminate].
    destruct (legacy_user payload) as [user|e]; cbn [mbind result_bind] in H; [|done].
    by apply Hbuild in H as [?|?].
  - destruct (_extract_from_html lib u (text response)) as [[r'|]|e] eqn:He;
      cbn [mbind result_bind] in H; try discriminate.
    injection H as <-. by eapply extract_from_html_username.
Qed.

Lemma crawl_username fuel transport n stage tr r :
  crawl lib u fuel transport n stage = Some (tr, Ok r) -> username r = u.
Proof.
  revert n stage tr. induction fuel as [|fuel IH]; intros n stage tr H; [done|].
  simpl in H.
  destruct (dispatch lib u stage (transport n stage)) as [[r'|next]|e] eqn:Hd.
  - simplify_eq. unfold dispatch in Hd.
    destruct (transport n stage) as [resp|f].
    + by eapply callback_append_username.
    + unfold errback in Hd. by repeat case_match.
  - destruct (crawl lib u fuel transport (S n) next) as [[tr' out]|] eqn:Hc;
      [|done].
    simplify_eq. by eapply IH.
  - simplify_eq.
Qed.

End HandleFacts.

(** C9 (amended).  The handle stored in every record a crawl produces is
    the username given to the spider with the surrounding whitespace
    stripped and the leading [@] characters removed; it has no leading [@].
    Its letters are left in the case they were given in. *)
Theorem handle_normalised lib username fuel transport n stage tr r :
  Spider.crawl lib (Spider.init_username username) fuel transport n stage
  = Some (tr, Py.Ok r) ->
  Spider.username r = Py.lstrip_at (Py.strip username)
  /\ Claims.leading_at (Spider.username r) = false.
Proof.
  intros H. apply crawl_username in H. rewrite H. split; [done|].
  apply init_username_no_leading.
Qed.

Section HandleExamples.
Import Py Spider Claims Scenario.

(** C9 (amended) on the username [ @Foo], answered by the mobile API. *)
Lemma handle_normalised_witness :
  exists tr r,
    crawl lib_demo (init_username " @Foo") 4 transport_user 0 start_requests
    = Some (tr, Ok r)
    /\ username r = lstrip_at (strip " @Foo")
    /\ leading_at (username r) = false.
Proof.
  eexists _, _. split; [vm_compute; reflexivity|].
  eapply (handle_normalised lib_demo " @Foo" 4 transport_user 0 start_requests).
  vm_compute; reflexivity.
Defined.

(** C9, as stated, fails: for the username [Foo] the record produced by the
    mobile strategy stores the handle [Foo], which is not lowercase. *)
Lemma handle_keeps_case :
  exists tr r,
    crawl lib_demo (init_username "Foo") 4 transport_user 0 start_requests
    = Some (tr, Ok r)
    /\ username r = "Foo"
    /\ lowercase (username r) = false.
Proof.
  eexists _, _. split; [vm_compute; reflexivity|]. by vm_compute.
Qed.

End HandleExamples.

(** ** The legacy lookup *)

(** C10.  In [parse_legacy_json], a payload with no user under [graphql]
    and none under [data] whose [items] is the empty list makes
    [items[0]] raise [IndexError]: the lookup gives neither a user object
    nor an advance to the HTML strategy. *)
Theorem legacy_empty_items_raises lib u response payload a b :
  Spider.status response <> 404 ->
  Spider.status response <> 429 ->
  Spider.status response < 400 ->
  Py.nonempty (Py.strip (Spider.text response)) = true ->
  Spider.json_loads lib (Spider.text response) = Some payload ->
  (g ← Py.get payload "graphql" (Py.JObj []); Py.get g "user" Py.JNull) = Py.Ok a ->
  Py.truthy a = false ->
  (d ← Py.get payload "data" (Py.JObj []); Py.get d "user" Py.JNull) = Py.Ok b ->
  Py.truthy b = false ->
  Py.get payload "items" (Py.JArr [Py.JObj []]) = Py.Ok (Py.JArr []) ->
  Spider.legacy_user payload = Py.Raise (Py.IndexError "list index out of range")
  /\ Spider.parse_legacy_json lib u response
     = Py.Raise (Py.IndexError "list index out of range")
  /\ Claims.advance (Spider.parse_legacy_json lib u response) = false.
Proof.
  intros H404 H429 H400 Htext Hjson Ha Hta Hb Htb Hitems.
  assert (Hlookup : Spider.legacy_user payload
                    = Py.Raise (Py.IndexError "list index out of range")).
  { unfold Spider.legacy_user.
    destruct (Py.get payload "graphql" (Py.JObj [])) as [g|]; [|done].
    cbn [mbind Py.result_bind] in *. rewrite Ha. cbn [mbind Py.result_bind].
    rewrite Hta.
    destruct (Py.get payload "data" (Py.JObj [])) as [d|]; [|done].
    cbn [mbind Py.result_bind] in *. rewrite Hb. cbn [mbind Py.result_bind].
    rewrite Htb, Hitems. done. }
  assert (Hparse : Spider.parse_legacy_json lib u response
                   = Py.Raise (Py.IndexError "list index out of range")).
  { unfold Spider.parse_legacy_json.
    apply Z.eqb_neq in H404, H429. rewrite H404, H429.
    assert (H400' : (400 <=? Spider.status response) = false) by lia.
    rewrite H400', Htext, Hjson, Hlookup. done. }
  by rewrite Hparse.
Qed.

Section LegacyExamples.
Import Py Spider Claims Scenario.

(** C10 on the answer [{"items": []}] with status 200. *)
Lemma legacy_empty_items_raises_witness :
  legacy_user (JObj [("items", JArr [])])
  = Raise (IndexError "list index out of range")
  /\ parse_legacy_json lib_demo "u" response_no_items
     = Raise (IndexError "list index out of range")
  /\ advance (parse_legacy_json lib_demo "u" response_no_items) = false.
Proof.
  apply (legacy_empty_items_raises lib_demo "u" response_no_items
           (JObj [("items", JArr [])]) JNull JNull);
    try (vm_compute; reflexivity); try (simpl; lia).
Defined.

End LegacyExamples.

(** ** The strategy chain *)

Section ChainFacts.
Import Py Spider Claims.

Variable lib : Lib.
Variable u : string.

Lemma errback_raises f : exists e, errback u f = Raise e.
Proof. unfold errback. repeat case_match; eauto. Qed.

(** A callback only ever yields the request of the strategy that follows
    its own; the HTML callback yields none. *)
Lemma dispatch_request s d next :
  dispatch lib u s d = Ok (Request next) ->
  chain_order !! S (pos s) = Some next.
Proof.
  destruct d as [response|f]; cbn [dispatch].
  2:{ destruct (errback_raises f) as [e ->]. done. }
  assert (Hbuild : forall user (nx : Stage),
             (if truthy user
              then r' ← _build_result_from_user lib u user; Ok (Append r')
              else Ok (Request nx)) = Ok (Request next) -> nx = next).
  { intros user nx H. destruct (truthy user); [|congruence].
    destruct (_build_result_from_user lib u user);
      cbn [mbind result_bind] in H; done. }
  destruct s; cbn [callback_of pos];
    [unfold parse_mobile_api|unfold parse_api_v1|unfold parse_legacy_json
    |unfold parse_html]; intros H;
    destruct (status response =? 404); try discriminate;
    destruct (status response =? 429); try discriminate;
    unfold _schedule_web_api, _schedule_legacy_json, _schedule_html_fallback in *.
  - destruct (_ && _); [|by simplify_eq].
    destruct (data_user _) as [user|e]; cbn [mbind result_bind] in H; [|done].
    by apply Hbuild in H as <-.
  - destruct (status response =? 200); [|by simplify_eq].
    destruct (data_user _) as [user|e]; cbn [mbind result_bind] in H; [|done].
    by apply Hbuild in H as <-.
  - destruct (_ || _); [by simplify_eq|].
    destruct (json_loads lib _) as [payload|]; [|by simplify_eq].
    destruct (legacy_user payload) as [user|e]; cbn [mbind result_bind] in H; [|done].
    by apply Hbuild in H as <-.
  - destruct (_extract_from_html lib u (text response)) as [[r'|]|e];
      cbn [mbind result_bind] in H; discriminate.
Qed.

Lemma chain_drop_pos s :
  exists rest, drop (pos s) chain_order = s :: rest
               /\ rest = drop (S (pos s)) chain_order.
Proof. destruct s; eexists; split; reflexivity. Qed.

Lemma chain_lookup_pos s next :
  chain_order !! S (pos s) = Some next -> pos next = S (pos s).
Proof. destruct s; simpl; intros H; by simplify_eq. Qed.

Variable transport : nat -> Stage -> Delivery.

(** The shape of every crawl: started on strategy [s] with the [n]-th
    download, it ends, having walked a stretch of the fixed order from [s];
    each strategy walked advanced exactly when a further one was walked,
    and the last one gave the outcome. *)
Lemma crawl_structure fuel n s :
  (4 - pos s <= fuel)%nat ->
  exists tr out,
    crawl lib u fuel transport n s = Some (tr, out)
    /\ tr = take (length tr) (drop (pos s) chain_order)
    /\ (1 <= length tr)%nat
    /\ forall k s', tr !! k = Some s' ->
         ((S k < length tr)%nat
          <-> advance (dispatch lib u s' (transport (n + k)%nat s')) = true)
         /\ (length tr = S k ->
             match dispatch lib u s' (transport (n + k)%nat s') with
             | Ok (Append r) => out = Ok r
             | Raise e => out = Raise e
             | Ok (Request _) => False
             end).
Proof.
  revert n s. induction fuel as [|fuel IH]; intros n s Hfuel.
  { destruct s; simpl in Hfuel; lia. }
  destruct (chain_drop_pos s) as (rest & Hdrop & Hrest).
  cbn [crawl].
  destruct (dispatch lib u s (transport n s)) as [[r|next]|e] eqn:Hd.
  - exists [s], (Ok r). rewrite Hdrop. split; [done|]. split; [done|].
    split; [simpl; lia|].
    intros k s' Hlook. destruct k as [|k]; simpl in Hlook; [|done]. simplify_eq.
    rewrite Nat.add_0_r, Hd. simpl. split; [split; [lia|done]|done].
  - pose proof (dispatch_request _ _ _ Hd) as Hnext.
    pose proof (chain_lookup_pos _ _ Hnext) as Hpos.
    destruct (IH (S n) next) as (tr & out & -> & Htr & Hlen & Hk); [lia|].
    exists (s :: tr), out. split; [done|]. split.
    { rewrite Hdrop. simpl. f_equal. by rewrite Hrest, <- Hpos. }
    split; [simpl; lia|].
    intros k s' Hlook. destruct k as [|k]; simpl in Hlook.
    + simplify_eq. rewrite Nat.add_0_r, Hd. simpl. split; [split; [done|lia]|lia].
    + replace (n + S k)%nat with (S n + k)%nat by lia.
      destruct (Hk k s' Hlook) as [Hiff Hlast]. simpl. split.
      * rewrite <- Hiff. lia.
      * intros ?. apply Hlast. lia.
  - exists [s], (Raise e). rewrite Hdrop. split; [done|]. split; [done|].
    split; [simpl; lia|].
    intros k s' Hlook. destruct k as [|k]; simpl in Hlook; [|done]. simplify_eq.
    rewrite Nat.add_0_r, Hd. simpl. split; [split; [lia|done]|done].
Qed.

(** The order of the chain.  Every crawl ends, and the requests it issued
    are an initial stretch of mobile-API, web-API, legacy-JSON, HTML, in
    that order, starting with the mobile API.  The strategy after the
    [k]-th one is requested if and only if the callback of the [k]-th one
    yielded a request; otherwise the [k]-th one is the last, and its record
    or its exception is what the crawl ends with. *)
Lemma chain_in_order fuel :
  (4 <= fuel)%nat ->
  exists tr out,
    crawl lib u fuel transport 0 start_requests = Some (tr, out)
    /\ tr = take (length tr) chain_order
    /\ (1 <= length tr <= 4)%nat
    /\ forall k s, tr !! k = Some s ->
         ((S k < length tr)%nat
          <-> advance (dispatch lib u s (transport k s)) = true)
         /\ (length tr = S k ->
             match dispatch lib u s (transport k s) with
             | Ok (Append r) => out = Ok r
             | Raise e => out = Raise e
             | Ok (Request _) => False
             end).
Proof.
  intros Hfuel.
  destruct (crawl_structure fuel 0 start_requests) as (tr & out & Hc & Htr & Hlen & Hk).
  { simpl. lia. }
  exists tr, out. split; [done|]. split; [done|]. split; [|done].
  split; [done|]. rewrite Htr. rewrite length_take. simpl. lia.
Qed.

(** C5.  At every strategy a response with status 404 makes the callback
    raise [ProfileNotFound], whatever the body, and so does a 404 that
    reaches the errback; in a crawl, the strategy that receives it is the
    last one requested and the crawl ends with that exception. *)
Theorem not_found_is_terminal fuel :
  (4 <= fuel)%nat ->
  (forall s response,
      status response = 404 ->
      callback_of lib u s response = Raise (ProfileNotFound (not_found_msg u)))
  /\ (forall response v,
        status response = 404 ->
        errback u {| kind := HttpError response; value := v |}
        = Raise (ProfileNotFound (not_found_msg u)))
  /\ exists tr out,
       crawl lib u fuel transport 0 start_requests = Some (tr, out)
       /\ forall k s response,
            tr !! k = Some s ->
            transport k s = Delivered response ->
            status response = 404 ->
            length tr = S k
            /\ out = Raise (ProfileNotFound (not_found_msg u)).
Proof.
  intros Hfuel.
  assert (Hcb : forall s response,
             status response = 404 ->
             callback_of lib u s response
             = Raise (ProfileNotFound (not_found_msg u))).
  { intros s response Hst. destruct s; cbn [callback_of];
      [unfold parse_mobile_api|unfold parse_api_v1|unfold parse_legacy_json
      |unfold parse_html]; by rewrite Hst. }
  split; [done|].
  split. { intros response v Hst. unfold errback. cbn [kind]. by rewrite Hst. }
  destruct (crawl_structure fuel 0 start_requests) as (tr & out & Hc & _ & _ & Hk).
  { simpl. lia. }
  exists tr, out. split; [done|].
  intros k s response Hlook Htrans Hst.
  destruct (Hk k s Hlook) as [Hiff Hlast]. simpl in Hiff, Hlast.
  rewrite Htrans in Hiff, Hlast. cbn [dispatch] in Hiff, Hlast.
  rewrite (Hcb s response Hst) in Hiff, Hlast. simpl in Hiff.
  assert (Hlen : length tr = S k).
  { apply lookup_lt_Some in Hlook.
    destruct (decide (S k < length tr)%nat) as [Hlt|Hge]; [|lia].
    apply Hiff in Hlt. discriminate. }
  split; [done|]. by apply Hlast.
Qed.

End ChainFacts.

Section ChainExamples.
Import Py Spider Claims Scenario.

(** A crawl in which every strategy is answered 200 with an empty body:
    the four strategies run in order and the HTML strategy ends the
    crawl. *)
Lemma chain_in_order_witness :
  (4 <= 4)%nat
  /\ crawl lib_demo "u" 4 transport_blank 0 start_requests
     = Some (chain_order, Raise (ProfileNotFound (unable_msg "u")))
  /\ exists tr out,
       crawl lib_demo "u" 4 transport_blank 0 start_requests = Some (tr, out)
       /\ tr = take (length tr) chain_order
       /\ (1 <= length tr <= 4)%nat.
Proof.
  split; [lia|]. split; [vm_compute; reflexivity|].
  destruct (chain_in_order lib_demo "u" transport_blank 4 (le_n 4))
    as (tr & out & H1 & H2 & H3 & _).
  exists tr, out. auto.
Defined.

(** C5 on a crawl whose second download is a 404: the web API is the last
    strategy requested. *)
Lemma not_found_is_terminal_witness :
  (4 <= 4)%nat
  /\ crawl lib_demo "u" 4 transport_404_second 0 start_requests
     = Some ([MobileApi; WebApi], Raise (ProfileNotFound (not_found_msg "u")))
  /\ forall s response,
       status response = 404 ->
       callback_of lib_demo "u" s response
       = Raise (ProfileNotFound (not_found_msg "u")).
Proof.
  split; [lia|]. split; [vm_compute; reflexivity|].
  exact (proj1 (not_found_is_terminal lib_demo "u" transport_404_second 4 (le_n 4))).
Defined.

End ChainExamples.

(** ** The HTML strategy *)

Section HtmlFacts.
Import Py Spider Claims.

Variable lib : Lib.
Variable u : string.

(** When the pattern extraction raises nothing, it gives a record exactly
    when a follower count other than zero or a picture URL was found. *)
Lemma regex_extract_found html parsed :
  regex_extract lib u html = Ok parsed ->
  is_Some parsed
  <-> regex_yields_followers lib html || regex_yields_picture lib html = true.
Proof.
  unfold regex_extract, regex_yields_followers, regex_yields_picture.
  intros H.
  destruct (html_followers lib html) as [n|e]; cbn [mbind result_bind] in H; [|done].
  destruct (html_profile_pic lib html) as [pic|e]; cbn [mbind result_bind] in H; [|done].
  destruct (html_biography lib html) as [bio|e]; cbn [mbind result_bind] in H; [|done].
  destruct (n =? 0); cbn [negb andb orb] in *.
  - destruct pic as [s|].
    + destruct (nonempty s); cbn [negb] in H; simplify_eq.
      * split; [done|]. by eexists.
      * split; [by intros [? ?]|done].
    + simplify_eq. split; [by intros [? ?]|done].
  - simplify_eq. split; [done|]. by eexists.
Qed.

(** The HTML strategy where its extraction raises nothing.  For a
    response whose status is neither 404 nor 429 and on which
    [_extract_from_html] returns: when
    the embedded blob yields a user object, or the patterns yield a follower
    count other than zero or a picture URL, a record is produced; otherwise
    the outcome is [ProfileNotFound] with the reason
    [Unable to extract data ...]. *)
Lemma html_outcome response parsed :
  status response <> 404 ->
  status response <> 429 ->
  _extract_from_html lib u (text response) = Ok parsed ->
  if blob_yields_user lib (text response)
     || regex_yields_followers lib (text response)
     || regex_yields_picture lib (text response)
  then exists r, parsed = Some r /\ parse_html lib u response = Ok (Append r)
  else parsed = None
       /\ parse_html lib u response = Raise (ProfileNotFound (unable_msg u)).
Proof.
  intros H404 H429 Hex.
  assert (Hparse : parse_html lib u response
                   = match parsed with
                     | Some r => Ok (Append r)
                     | None => Raise (ProfileNotFound (unable_msg u))
                     end).
  { unfold parse_html. apply Z.eqb_neq in H404, H429.
    by rewrite H404, H429, Hex. }
  assert (Hregex : regex_extract lib u (text response) = Ok parsed ->
            if regex_yields_followers lib (text response)
               || regex_yields_picture lib (text response)
            then exists r, parsed = Some r /\ parse_html lib u response = Ok (Append r)
            else parsed = None
                 /\ parse_html lib u response
                    = Raise (ProfileNotFound (unable_msg u))).
  { intros Hr. apply regex_extract_found in Hr.
    destruct (_ || _).
    - destruct (proj2 Hr eq_refl) as [r ->]. eauto.
    - destruct parsed as [r|]; [|done].
      assert (is_Some (Some r)) as Hs by eauto. by apply Hr in Hs. }
  rewrite <- orb_assoc.
  unfold blob_yields_user. unfold _extract_from_html in Hex.
  destruct (_extract_json_blob lib (text response)) as [p|]; [|by apply Hregex].
  destruct (truthy p); [|by apply Hregex]. cbn [andb].
  destruct (blob_user p) as [user|e]; cbn [mbind result_bind] in Hex; [|done].
  destruct (truthy user); [|by apply Hregex]. cbn [orb].
  destruct (_build_result_from_user lib u user) as [r|e];
    cbn [mbind result_bind] in Hex; [|done].
  simplify_eq. eauto.
Qed.

(** The default of the page list guards a missing list only: a blob
    whose [entry_data] is a dict without [ProfilePage] yields no user and
    the extraction goes on with the patterns. *)
Lemma html_missing_profile_list_falls_back html top entry :
  _extract_json_blob lib html = Some (JObj top) ->
  assoc "entry_data" top = Some (JObj entry) ->
  assoc "ProfilePage" entry = None ->
  _extract_from_html lib u html = regex_extract lib u html.
Proof.
  intros Hblob Hentry Hpages. unfold _extract_from_html. rewrite Hblob.
  destruct (truthy (JObj top)); [|done].
  unfold blob_user. rewrite get_dict, Hentry. cbn [from_option id mbind result_bind].
  rewrite get_dict, Hpages. cbn. done.
Qed.

(** C7, the defect.  On a page whose embedded blob is a dict whose
    [entry_data] holds an empty [ProfilePage] list, the blob yields no user
    object, yet the HTML strategy neither goes on to the patterns nor ends
    in [ProfileNotFound] nor produces a record: [ProfilePage[0]] raises
    [IndexError], whatever the patterns would find.  (The default [[{}]] of
    the lookup covers a missing list, not an empty one.) *)
Theorem html_empty_profile_list_raises response top entry :
  status response <> 404 ->
  status response <> 429 ->
  _extract_json_blob lib (text response) = Some (JObj top) ->
  assoc "entry_data" top = Some (JObj entry) ->
  assoc "ProfilePage" entry = Some (JArr []) ->
  blob_yields_user lib (text response) = false
  /\ parse_html lib u response = Raise (IndexError "list index out of range")
  /\ (forall msg, parse_html lib u response <> Raise (ProfileNotFound msg))
  /\ (forall r, parse_html lib u response <> Ok (Append r)).
Proof.
  intros H404 H429 Hblob Hentry Hpages.
  assert (Htruthy : truthy (JObj top) = true) by (by destruct top).
  assert (Huser : blob_user (JObj top) = Raise (IndexError "list index out of range")).
  { unfold blob_user. rewrite get_dict, Hentry.
    cbn [from_option id mbind result_bind]. rewrite get_dict, Hpages. done. }
  assert (Hparse : parse_html lib u response
                   = Raise (IndexError "list index out of range")).
  { unfold parse_html. apply Z.eqb_neq in H404, H429. rewrite H404, H429.
    unfold _extract_from_html. rewrite Hblob, Htruthy, Huser. done. }
  split; [|rewrite Hparse; by repeat split].
  unfold blob_yields_user. by rewrite Hblob, Htruthy, Huser.
Qed.

End HtmlFacts.

Section HtmlExamples.
Import Py Spider Claims Scenario.

(** A page in which nothing is found. *)
Lemma html_outcome_witness :
  (status response_plain <> 404 /\ status response_plain <> 429
   /\ _extract_from_html lib_demo "u" (text response_plain) = Ok None)
  /\ parse_html lib_demo "u" response_plain
     = Raise (ProfileNotFound (unable_msg "u")).
Proof.
  assert (H1 : status response_plain <> 404) by (simpl; lia).
  assert (H2 : status response_plain <> 429) by (simpl; lia).
  assert (H3 : _extract_from_html lib_demo "u" (text response_plain) = Ok None)
    by (vm_compute; reflexivity).
  split; [done|].
  exact (proj2 (html_outcome lib_demo "u" response_plain None H1 H2 H3)).
Defined.

(** C7, the failing input: the page
    [<script>window._sharedData = {"entry_data": {"ProfilePage": []}};</script>],
    answered 200.  The blob yields no user object and the patterns find
    nothing, yet the outcome is an [IndexError], neither [ProfileNotFound]
    nor a record. *)
Lemma html_empty_profile_list_raises_witness :
  (status response_no_page <> 404 /\ status response_no_page <> 429
   /\ _extract_json_blob lib_demo (text response_no_page)
      = Some (JObj [("entry_data", JObj [("ProfilePage", JArr [])])]))
  /\ (blob_yields_user lib_demo (text response_no_page) = false
      /\ regex_yields_followers lib_demo (text response_no_page) = false
      /\ regex_yields_picture lib_demo (text response_no_page) = false)
  /\ parse_html lib_demo "u" response_no_page
     = Raise (IndexError "list index out of range").
Proof.
  assert (H1 : status response_no_page <> 404) by (simpl; lia).
  assert (H2 : status response_no_page <> 429) by (simpl; lia).
  assert (H3 : _extract_json_blob lib_demo (text response_no_page)
               = Some (JObj [("entry_data", JObj [("ProfilePage", JArr [])])]))
    by (vm_compute; reflexivity).
  split; [auto|].
  split; [split; [vm_compute; reflexivity|split; vm_compute; reflexivity]|].
  exact (proj1 (proj2 (html_empty_profile_list_raises lib_demo "u" response_no_page
                         [("entry_data", JObj [("ProfilePage", JArr [])])]
                         [("ProfilePage", JArr [])] H1 H2 H3 eq_refl eq_refl))).
Defined.

End HtmlExamples.

(** ** The orchestrator *)

Section ServiceFacts.
Import Py Service Claims.

Variable env : Env.
Variable settings : Settings.
Variable username : string.

Lemma count_app p l1 l2 : count p (l1 ++ l2) = (count p l1 + count p l2)%nat.
Proof. induction l1 as [|e l1 IH]; simpl; [done|]. rewrite IH. lia. Qed.

Lemma proxy_reasons_app l1 l2 :
  proxy_reasons (l1 ++ l2) = proxy_reasons l1 ++ proxy_reasons l2.
Proof. unfold proxy_reasons. by rewrite map_app, concat_app. Qed.

Lemma select_spec st host st1 :
  select env st = (host, st1) ->
  log st1 = log st ++ [Select host]
  /\ failure_reasons st1 = failure_reasons st
  /\ result_buffer st1 = result_buffer st.
Proof.
  unfold select. destruct (ProxyManager.get_next_host _ _ _ _) as [h p].
  intros H. by simplify_eq.
Qed.

Lemma loop_exit_prefix st0 st pre ev exit st' :
  log st = log st0 ++ pre ->
  forallb (fun e => negb (terminal_run e)) pre = true ->
  loop_exit env st ev exit st' ->
  loop_exit env st0 (pre ++ ev) exit st'.
Proof.
  intros Hlog Hpre. unfold loop_exit.
  destruct exit as [[]|]; try done.
  - intros (pre' & h & -> & Hp). exists (pre ++ pre'), h.
    rewrite <- app_assoc. split; [done|]. by rewrite forallb_app, Hpre, Hp.
  - intros (pre' & h & -> & Hp). exists (pre ++ pre'), h.
    rewrite <- app_assoc. split; [done|]. by rewrite forallb_app, Hpre, Hp.
  - intros (pre' & h & -> & Hp & Hbad). exists (pre ++ pre'), h.
    rewrite <- app_assoc. split; [done|]. rewrite forallb_app, Hpre, Hp.
    split; [done|]. rewrite Hbad, Hlog, !length_app. do 3 f_equal. lia.
  - intros Hev. by rewrite forallb_app, Hpre, Hev.
Qed.

Lemma proxy_loop_spec k st exit st' :
  proxy_loop env settings username k st = (exit, st') ->
  exists ev,
    log st' = log st ++ ev
    /\ (count is_select ev <= k)%nat
    /\ count is_direct_run ev = 0%nat
    /\ failure_reasons st' = failure_reasons st ++ proxy_reasons ev
    /\ loop_exit env st ev exit st'.
Proof.
  revert st. induction k as [|k IH]; intros st H.
  { simpl in H. simplify_eq. exists []. rewrite !app_nil_r. done. }
  cbn [proxy_loop] in H.
  destruct (select env st) as [host st1] eqn:Hsel.
  apply select_spec in Hsel as (Hlog1 & Hfr1 & Hrb1).
  assert (Hstop : (None, st1) = (exit, st') ->
            exists ev,
              log st' = log st ++ ev
              /\ (count is_select ev <= S k)%nat
              /\ count is_direct_run ev = 0%nat
              /\ failure_reasons st' = failure_reasons st ++ proxy_reasons ev
              /\ loop_exit env st ev exit st').
  { intros ?. simplify_eq. exists [Select host].
    rewrite Hlog1, Hfr1. simpl. rewrite app_nil_r. repeat split; try done; lia. }
  destruct (str_truthy host) eqn:Hh; cbn [negb] in H; [|by apply Hstop].
  destruct host as [h|]; [|done]. cbn [from_option id] in H.
  destruct (socks5_url settings (Some h)) as [url|]; [|by apply Hstop].
  destruct (nonempty url); cbn [negb] in H; [|by apply Hstop].
  clear Hstop.
  destruct (reachable env (length (log st1)) url) as [ok|msg] eqn:Hreach.
  2:{ simplify_eq. exists [Select (Some h)].
      rewrite Hlog1, Hfr1. cbn. rewrite app_nil_r.
      repeat split; try done; try lia. by exists [], h. }
  (* one more turn of the loop after the events [pre] *)
  assert (Hnext : forall pre st2,
             log st2 = log st ++ pre ->
             failure_reasons st2 = failure_reasons st ++ proxy_reasons pre ->
             count is_select pre = 1%nat ->
             count is_direct_run pre = 0%nat ->
             forallb (fun e => negb (terminal_run e)) pre = true ->
             proxy_loop env settings username k st2 = (exit, st') ->
             exists ev,
               log st' = log st ++ ev
               /\ (count is_select ev <= S k)%nat
               /\ count is_direct_run ev = 0%nat
               /\ failure_reasons st' = failure_reasons st ++ proxy_reasons ev
               /\ loop_exit env st ev exit st').
  { intros pre st2 Hl Hf Hs Hd Ht Hloop.
    destruct (IH _ Hloop) as (ev & Hl' & Hs' & Hd' & Hf' & Hex).
    exists (pre ++ ev). rewrite Hl', Hl, Hf', Hf, !count_app, proxy_reasons_app.
    rewrite <- !app_assoc. repeat split; try done; try lia.
    by eapply loop_exit_prefix. }
  destruct ok; cbn [negb] in H.
  2:{ eapply (Hnext [Select (Some h); Probe url false; MarkBad h 600]); [..|exact H];
        try done.
      - cbn. rewrite Hlog1. by rewrite <- !app_assoc.
      - cbn. by rewrite Hfr1, app_nil_r. }
  unfold run_with_proxy in H.
  destruct (run_spider env _ username (Some url)) as [rs|exc] eqn:Hout.
  - simplify_eq. exists [Select (Some h); Probe url true; Run (Some h) (Returned rs)].
    cbn. rewrite Hlog1, Hfr1, app_nil_r, <- !app_assoc.
    repeat split; try done; lia.
  - destruct exc.
    all: try (match type of Hout with
              | _ = Raised ?exc =>
                  eapply (Hnext [Select (Some h); Probe url true;
                                 Run (Some h) (Raised exc); MarkBad h 600;
                                 Sleep (proxy_backoff_seconds settings)]);
                  [..|exact H]; try done; cbn;
                  [by rewrite Hlog1, <- !app_assoc | by rewrite Hfr1]
              end).
    + (* ProfileNotFound *)
      simplify_eq. 
      exists [Select (Some h); Probe url true; Run (Some h) (Raised (ProfileNotFound msg))].
      cbn. rewrite Hlog1, Hfr1, app_nil_r, <- !app_assoc.
      repeat split; try done; try lia.
      by exists [Select (Some h); Probe url true], h.
    + (* RateLimited *)
      simplify_eq.
      exists [Select (Some h); Probe url true; Run (Some h) (Raised (RateLimited msg));
              MarkBad h 600].
      cbn. rewrite Hlog1, Hfr1, app_nil_r, <- !app_assoc.
      repeat split; try done; try lia.
      exists [Select (Some h); Probe url true], h.
      split; [done|]. split; [done|].
      rewrite lookup_insert_eq. unfold now. cbn. rewrite Hlog1, !length_app. cbn.
      do 3 f_equal. lia.
Qed.




(** What the handlers of lines 126-131 do, were [_run_spider] to raise:
    a proxy run that raises [RateLimited] is the last one of the request,
    the host is marked bad for 600 ticks, nothing else follows and
    [RateLimitError] is raised; a proxy run that raises [ProfileNotFound]
    is the very last thing the orchestrator does before it raises
    [ProfileNotFoundError].  (A run that is a crawl never raises, see
    [Service.run_crawl].) *)
Lemma handlers_of_terminal_runs p h m :
  let run := scrape_instagram_profile env settings username p in
  (In (Run (Some h) (Raised (RateLimited m))) (log run.2) ->
   run.1 = Raise (RateLimitError m)
   /\ exists pre,
        log run.2 = pre ++ [Run (Some h) (Raised (RateLimited m)); MarkBad h 600]
        /\ count is_select pre = count is_select (log run.2)
        /\ ProxyManager._bad_hosts (pm run.2) !! h
           = Some (time_at env (S (length pre)) + 600))
  /\ (In (Run (Some h) (Raised (ProfileNotFound m))) (log run.2) ->
      run.1 = Raise (ProfileNotFoundError m)
      /\ exists pre,
           log run.2 = pre ++ [Run (Some h) (Raised (ProfileNotFound m))]).
Proof.
  intros run. subst run. unfold scrape_instagram_profile.
  set (st0 := {| pm := p; result_buffer := []; failure_reasons := []; log := [] |}).
  destruct (proxy_loop _ _ _ _ st0) as [exit st1] eqn:Hloop.
  destruct (proxy_loop_spec _ _ _ _ Hloop) as (ev & Hlog & _ & _ & _ & Hexit).
  simpl in Hlog.
  assert (Hclean : forall l x,
             forallb (fun e => negb (terminal_run e)) l = true ->
             terminal_run x = true -> ~ In x l).
  { intros l x Hall Hx Hin. rewrite forallb_forall in Hall.
    apply Hall in Hin. by rewrite Hx in Hin. }
  assert (Hdirect : forall x,
             terminal_run x = true ->
             In x (log (direct_attempt env username st1).2) -> In x (log st1)).
  { intros x Hx. unfold direct_attempt, run_with_proxy.
    destruct (run_spider env _ username None) as [rs|[]];
      cbn [snd log emit extend_buffer add_reason];
      rewrite in_app_iff; (intros [?|[<-|[]]]; [done|discriminate]). }
  assert (Hfinal : forall x,
             terminal_run x = true -> exit = None ->
             In x (log (match result_buffer st1 with
                        | [] =>
                            match direct_attempt env username st1 with
                            | (Some e, st) => (Raise e, st)
                            | (None, st) => finish username st
                            end
                        | _ :: _ => finish username st1
                        end).2) -> False).
  { intros x Hx -> Hin. unfold loop_exit in Hexit.
    apply (Hclean ev x Hexit Hx). rewrite <- Hlog.
    destruct (result_buffer st1).
    - apply Hdirect; [done|].
      destruct (direct_attempt env username st1) as [[e|] st2]; [done|].
      unfold finish in Hin. by destruct (result_buffer st2).
    - unfold finish in Hin. by destruct (result_buffer st1). }
  split; intros Hin.
  - destruct exit as [e|]; [|by eapply Hfinal in Hin].
    cbn [fst snd] in *. rewrite Hlog in *. unfold loop_exit in Hexit.
    destruct e; try done.
    + destruct Hexit as (pre & h' & -> & Hpre).
      apply in_app_iff in Hin as [Hin|[Hin|[]]]; [|discriminate].
      by eapply Hclean in Hin.
    + destruct Hexit as (pre & h' & -> & Hpre).
      apply in_app_iff in Hin as [Hin|[Hin|[]]]; [|discriminate].
      by eapply Hclean in Hin.
    + destruct Hexit as (pre & h' & -> & Hpre & Hbad).
      apply in_app_iff in Hin as [Hin|[Hin|[Hin|[]]]]; [| |discriminate].
      { by eapply Hclean in Hin. }
      simplify_eq. split; [done|]. exists pre. split; [done|].
      split; [rewrite count_app; simpl; lia|].
      rewrite Hbad. do 3 f_equal. simpl. lia.
  - destruct exit as [e|]; [|by eapply Hfinal in Hin].
    cbn [fst snd] in *. rewrite Hlog in *. unfold loop_exit in Hexit.
    destruct e; try done.
    + destruct Hexit as (pre & h' & -> & Hpre).
      apply in_app_iff in Hin as [Hin|[Hin|[]]]; [|discriminate].
      by eapply Hclean in Hin.
    + destruct Hexit as (pre & h' & -> & Hpre).
      apply in_app_iff in Hin as [Hin|[Hin|[]]].
      { by eapply Hclean in Hin. }
      simplify_eq. split; [done|]. by exists pre.
    + destruct Hexit as (pre & h' & -> & Hpre & Hbad).
      apply in_app_iff in Hin as [Hin|[Hin|[Hin|[]]]]; try discriminate.
      by eapply Hclean in Hin.
Qed.

End ServiceFacts.

Section ServiceExamples.
Import Py Spider Service Claims Scenario.


(** Without any proxy and with a listing source that is down, the direct
    attempt alone runs; answered by the mobile API, it gives the record. *)
Example direct_attempt_alone :
  let run := scrape_instagram_profile env_direct settings_demo "u"
               (ProxyManager.init listing_down shuffle_rev []) in
  log run.2
  = [Select None;
     Run None (Returned [{| username := "u"; full_name := JNull;
                            biography := JNull; followers := 1234;
                            profile_picture_url := JNull |}])]
  /\ run.1 = Ok {| username := "u"; full_name := JNull; biography := JNull;
                   followers := 1234; profile_picture_url := JNull |}.
Proof. cbv zeta. split; vm_compute; reflexivity. Qed.

End ServiceExamples.

(** ** More on the proxy pool *)

Section RingFacts.
Import ProxyManager Ring.

Variable listing : nat -> option (list string).
Variable shuffle : nat -> list string -> list string.

Lemma scan_first_viable bad now k (pre post : list string) h :
  (length pre < k)%nat ->
  Forall (fun x => cooling bad now x = true) pre ->
  cooling bad now h = false ->
  scan k bad now (pre ++ h :: post) = (Some h, post ++ pre ++ [h]).
Proof.
  revert k post. induction pre as [|x pre IH]; intros k post Hk Hpre Hh.
  - destruct k as [|k]; [simpl in Hk; lia|]. simpl. by rewrite Hh.
  - destruct k as [|k]; [simpl in Hk; lia|].
    inversion Hpre as [|? ? Hx Hrest]; subst. simpl. rewrite Hx.
    rewrite <- app_assoc. simpl.
    rewrite (IH k (post ++ [x])); [|simpl in Hk; lia|done|done].
    by rewrite <- !app_assoc.
Qed.

Lemma select_skips now pool bad calls (pre post : list string) h :
  pool = pre ++ h :: post ->
  Forall (fun x => cooling bad now x = true) pre ->
  cooling bad now h = false ->
  get_next_host listing shuffle now
    {| _pool := pool; _bad_hosts := bad; api_calls := calls |}
  = (Some h, {| _pool := post ++ pre ++ [h]; _bad_hosts := bad;
                api_calls := calls |}).
Proof.
  intros -> Hpre Hh. unfold get_next_host. cbn [_pool _bad_hosts].
  rewrite scan_first_viable; [done| |done|done].
  rewrite length_app. simpl. lia.
Qed.

(** The selection returns the first endpoint, in ring order, that is not
    cooling; the endpoints skipped and the one returned move to the back of
    the ring in the order they were met; the cooldown map is left as it is
    and the listing source is not asked. *)
Theorem get_next_host_first_viable now pm (pre post : list string) h :
  _pool pm = pre ++ h :: post ->
  Forall (fun x => cooling (_bad_hosts pm) now x = true) pre ->
  cooling (_bad_hosts pm) now h = false ->
  get_next_host listing shuffle now pm
  = (Some h, {| _pool := post ++ pre ++ [h];
                _bad_hosts := _bad_hosts pm;
                api_calls := api_calls pm |}).
Proof.
  intros Hpool Hpre Hh. unfold get_next_host. rewrite Hpool.
  rewrite scan_first_viable; [done| |done|done].
  rewrite length_app. simpl. lia.
Qed.

Lemma select_many_turn (l1 l2 : list string) bad calls times :
  length times = length l1 ->
  (forall now x, In now times -> In x l1 -> cooling bad now x = false) ->
  select_many listing shuffle times
    {| _pool := l1 ++ l2; _bad_hosts := bad; api_calls := calls |}
  = (map Some l1, {| _pool := l2 ++ l1; _bad_hosts := bad; api_calls := calls |}).
Proof.
  revert l2 times. induction l1 as [|x l1 IH]; intros l2 times Hlen Hfree.
  - destruct times; [|done]. simpl. by rewrite app_nil_r.
  - destruct times as [|now times]; [done|]. cbn [select_many].
    rewrite (select_skips now _ bad calls [] (l1 ++ l2) x);
      [|done|constructor|apply Hfree; by left].
    rewrite app_nil_l, <- app_assoc.
    rewrite (IH (l2 ++ [x]) times).
    + by rewrite <- app_assoc.
    + simpl in Hlen. lia.
    + intros t y Ht Hy. apply Hfree; by right.
Qed.

(** Ring fairness.  As many selections as the ring has endpoints, made
    while none of them is cooling, return every endpoint once, in ring
    order, and leave the pool as it was. *)
Theorem one_turn_visits_all times pm :
  length times = length (_pool pm) ->
  (forall now x, In now times -> In x (_pool pm) ->
                 cooling (_bad_hosts pm) now x = false) ->
  select_many listing shuffle times pm = (map Some (_pool pm), pm).
Proof.
  intros Hlen Hfree. destruct pm as [pool bad calls]. cbn in *.
  pose proof (select_many_turn pool [] bad calls times Hlen Hfree) as H.
  by rewrite app_nil_r in H.
Qed.

Lemma scan_rotates bad now k (pool pool' : list string) o :
  scan k bad now pool = (o, pool') ->
  exists n, pool' = Nat.iter n rotate pool.
Proof.
  revert pool. induction k as [|k IH]; intros pool H; simpl in H.
  - exists 0%nat. by simplify_eq.
  - destruct pool as [|x rest] eqn:Hp; [exists 0%nat; by simplify_eq|].
    rewrite <- Hp in *.
    destruct (cooling bad now x).
    + apply IH in H as [n ->]. exists (S n). by rewrite Nat.iter_succ_r.
    + exists 1%nat. by simplify_eq.
Qed.

Lemma iter_rotate_nil n (pool : list string) :
  Nat.iter n rotate pool = [] -> pool = [].
Proof.
  induction n as [|n IH]; simpl; [done|].
  intros H. apply rotate_nil_inv in H. by apply IH.
Qed.

(** A selection on a ring that is not empty only turns the ring: the pool
    afterwards is the pool before, rotated; no endpoint is dropped, added
    or reordered, the cooldown map is untouched and the listing source is
    not asked. *)
Theorem get_next_host_only_rotates now pm :
  _pool pm <> [] ->
  exists n,
    (get_next_host listing shuffle now pm).2
    = {| _pool := Nat.iter n rotate (_pool pm);
         _bad_hosts := _bad_hosts pm;
         api_calls := api_calls pm |}.
Proof.
  intros Hne. unfold get_next_host.
  destruct (scan _ _ _ _) as [[h|] pool'] eqn:Hs.
  - apply scan_rotates in Hs as [n ->]. by exists n.
  - pose proof Hs as Hrot. apply scan_rotates in Hrot as [n ->].
    cbn [with_pool _pool].
    destruct (Nat.iter n rotate (_pool pm)) as [|x rest] eqn:Hiter.
    { apply iter_rotate_nil in Hiter. done. }
    cbn [with_pool _pool snd api_calls _bad_hosts].
    exists (S n). simpl. by rewrite Hiter.
Qed.

(** The cooldown ends at the deadline itself.  An endpoint at the head of
    the ring that was marked bad at [t0] for [d] is the one selected from
    the instant [t0 + d] on; before it, the selection passes it over and
    returns the next endpoint, if that one is not cooling. *)
Theorem marked_head_skipped_until_deadline t0 h d now pm rest next post :
  _pool pm = h :: rest ->
  0 < t0 + d ->
  (t0 + d <= now ->
   (get_next_host listing shuffle now (mark_bad t0 h d pm)).1 = Some h)
  /\ (now < t0 + d -> rest = next :: post -> next <> h ->
      cooling (_bad_hosts pm) now next = false ->
      (get_next_host listing shuffle now (mark_bad t0 h d pm)).1 = Some next).
Proof.
  intros Hpool Hpos.
  assert (Hh : cooling (<[h := t0 + d]> (_bad_hosts pm)) now h
               = (now <? t0 + d)).
  { unfold cooling. rewrite lookup_insert_eq.
    replace (t0 + d =? 0) with false by (symmetry; apply Z.eqb_neq; lia).
    done. }
  unfold mark_bad. split.
  - intros Hnow.
    rewrite (select_skips now _ _ _ [] rest h); [done|done|constructor|].
    rewrite Hh. apply Z.ltb_ge. lia.
  - intros Hnow -> Hne Hfree.
    rewrite (select_skips now _ _ _ [h] post next); [done|done| |].
    + constructor; [|constructor]. rewrite Hh. apply Z.ltb_lt. lia.
    + unfold cooling in *. by rewrite lookup_insert_ne.
Qed.

End RingFacts.

(** ** Stripping *)

Section StripFacts.
Import Py.

Variable p : ascii -> bool.

Lemma lstrip_by_length s : (String.length (lstrip_by p s) <= String.length s)%nat.
Proof. induction s as [|c s IH]; simpl; [done|]. destruct (p c); simpl; lia. Qed.

Lemma lstrip_by_fixed_head c s :
  lstrip_by p (String c s) = String c s -> p c = false.
Proof.
  simpl. destruct (p c); [|done]. intros H.
  pose proof (lstrip_by_length s) as Hl. rewrite H in Hl. simpl in Hl. lia.
Qed.

Lemma lstrip_by_idem s : lstrip_by p (lstrip_by p s) = lstrip_by p s.
Proof.
  induction s as [|c s IH]; simpl; [done|].
  destruct (p c) eqn:Hc; [done|]. simpl. by rewrite Hc.
Qed.

Lemma rstrip_by_cons c s :
  rstrip_by p (String c s)
  = match rstrip_by p s with
    | EmptyString => if p c then EmptyString else String c EmptyString
    | String c' r => String c (String c' r)
    end.
Proof. simpl. by destruct (rstrip_by p s). Qed.

Lemma rstrip_by_idem s : rstrip_by p (rstrip_by p s) = rstrip_by p s.
Proof.
  induction s as [|c s IH]; [done|]. rewrite rstrip_by_cons.
  destruct (rstrip_by p s) as [|c' r] eqn:Hr.
  - destruct (p c) eqn:Hc; [done|]. rewrite rstrip_by_cons. simpl. by rewrite Hc.
  - rewrite rstrip_by_cons. by rewrite IH.
Qed.

Lemma rstrip_by_keeps_head c s :
  p c = false -> exists r, rstrip_by p (String c s) = String c r.
Proof.
  intros Hc. simpl. destruct (rstrip_by p s); [rewrite Hc|]; eauto.
Qed.

Lemma lstrip_rstrip_fixed s :
  lstrip_by p s = s -> lstrip_by p (rstrip_by p s) = rstrip_by p s.
Proof.
  destruct s as [|c s]; [done|]. intros H.
  apply lstrip_by_fixed_head in H.
  destruct (rstrip_by_keeps_head c s H) as [r ->]. simpl. by rewrite H.
Qed.

Lemma rstrip_by_tail c s :
  rstrip_by p (String c s) = String c s -> rstrip_by p s = s.
Proof.
  simpl. destruct (rstrip_by p s) as [|c' r] eqn:Hr.
  - destruct (p c); intros H; by simplify_eq.
  - intros H. by simplify_eq.
Qed.

(** Dropping characters from the left of a string that does not end in a
    stripped character leaves one that does not either. *)
Lemma rstrip_lstrip_fixed (q : ascii -> bool) s :
  rstrip_by p s = s -> rstrip_by p (lstrip_by q s) = lstrip_by q s.
Proof.
  induction s as [|c s IH]; [done|]. intros H. simpl.
  destruct (q c); [|done]. apply IH. by eapply rstrip_by_tail.
Qed.

End StripFacts.

Lemma strip_idem s : Py.strip (Py.strip s) = Py.strip s.
Proof.
  unfold Py.strip.
  rewrite (lstrip_rstrip_fixed _ (Py.lstrip_by Py.isspace s)) by apply lstrip_by_idem.
  apply rstrip_by_idem.
Qed.

(** ** app/config.py *)

Section ConfigFacts.
Import Py Config.

Lemma has_char_lstrip c q s :
  has_char c s = false -> has_char c (lstrip_by q s) = false.
Proof.
  induction s as [|x s IH]; simpl; [done|]. intros H.
  apply orb_false_iff in H as [Hx Hs].
  destruct (q x); [by apply IH|]. simpl. by rewrite Hx, Hs.
Qed.

Lemma has_char_rstrip c q s :
  has_char c s = false -> has_char c (rstrip_by q s) = false.
Proof.
  induction s as [|x s IH]; simpl; [done|]. intros H.
  apply orb_false_iff in H as [Hx Hs]. specialize (IH Hs).
  destruct (rstrip_by q s) as [|c' r].
  - destruct (q x); simpl; [done|]. by rewrite Hx.
  - cbn [has_char] in *. by rewrite Hx, IH.
Qed.

Lemma split_on_pieces sep s :
  Forall (fun piece => has_char sep piece = false) (split_on sep s)
  /\ split_on sep s <> [].
Proof.
  induction s as [|c s [IH Hne]]; simpl.
  - split; [by repeat constructor|done].
  - destruct (Ascii.eqb c sep) eqn:Hc.
    + split; [by constructor|done].
    + destruct (split_on sep s) as [|piece pieces]; [done|].
      inversion IH; subst. split; [|done].
      constructor; [|done]. simpl. by rewrite Hc.
Qed.

(** Every item [_split_csv] lists is not empty, has no whitespace around
    it and holds no comma, whatever the value. *)
Theorem split_csv_items_clean value item :
  In item (_split_csv value) -> clean_item item = true.
Proof.
  unfold _split_csv. destruct value as [v|]; [|done].
  destruct (nonempty v); [|done].
  intros H. apply filter_In in H as [Hin Hne].
  apply in_map_iff in Hin as (piece & <- & Hpiece).
  unfold clean_item. rewrite Hne, strip_idem, String.eqb_refl. simpl.
  destruct (split_on_pieces ","%char v) as [Hall _].
  rewrite Forall_forall in Hall. apply list_elem_of_In in Hpiece.
  apply Hall in Hpiece.
  unfold strip. by rewrite has_char_rstrip; [|apply has_char_lstrip].
Qed.

Lemma split_on_whole sep x :
  has_char sep x = false -> split_on sep x = [x].
Proof.
  induction x as [|c x IH]; simpl; [done|]. intros H.
  apply orb_false_iff in H as [Hc Hx]. rewrite Hc, (IH Hx). done.
Qed.

Lemma split_on_app sep x rest :
  has_char sep x = false ->
  split_on sep (x +:+ String sep rest) = x :: split_on sep rest.
Proof.
  induction x as [|c x IH]; simpl.
  - intros _. by rewrite Ascii.eqb_refl.
  - intros H. apply orb_false_iff in H as [Hc Hx]. rewrite Hc, (IH Hx). done.
Qed.

Lemma clean_item_inv s :
  clean_item s = true ->
  nonempty s = true /\ strip s = s /\ has_char ","%char s = false.
Proof.
  unfold clean_item. intros H.
  apply andb_true_iff in H as [H Hc]. apply andb_true_iff in H as [Hn Hs].
  apply String.eqb_eq in Hs. apply negb_true_iff in Hc. done.
Qed.

Lemma split_on_join items :
  items <> [] ->
  Forall (fun s => clean_item s = true) items ->
  split_on ","%char (join "," items) = items.
Proof.
  induction items as [|x items IH]; [done|]. intros _ Hall.
  inversion Hall as [|? ? Hx Hrest]; subst.
  apply clean_item_inv in Hx as (_ & _ & Hx).
  destruct items as [|y items].
  - simpl. by apply split_on_whole.
  - change (join "," (x :: y :: items))
      with (x +:+ String ","%char (join "," (y :: items))).
    rewrite split_on_app by done. f_equal. by apply IH.
Qed.

Lemma join_nonempty items :
  items <> [] ->
  Forall (fun s => clean_item s = true) items ->
  nonempty (join "," items) = true.
Proof.
  destruct items as [|x items]; [done|]. intros _ Hall.
  inversion Hall as [|? ? Hx _]; subst.
  apply clean_item_inv in Hx as (Hn & _ & _).
  destruct x as [|c x]; [done|]. by destruct items.
Qed.

(** Round trip.  Joining clean items with commas and splitting the result
    gives the items back, in order. *)
Theorem split_csv_join items :
  Forall (fun s => clean_item s = true) items ->
  _split_csv (Some (join "," items)) = items.
Proof.
  intros Hall. destruct (decide (items = [])) as [->|Hne]; [done|].
  unfold _split_csv. rewrite join_nonempty, split_on_join by done.
  induction Hall as [|x items Hx Hall IH]; [done|].
  simpl. apply clean_item_inv in Hx as (Hn & Hs & _). rewrite Hs, Hn.
  f_equal. destruct items; [done|]. by apply IH.
Qed.

Lemma cookie_invariant_insert k v m :
  truthy v = true ->
  In k ["sessionid"; "csrftoken"; "ds_user_id"; "ig_nrcb"] ->
  cookie_invariant m -> cookie_invariant (<[k := v]> m).
Proof.
  intros Hv Hk Hm k' v' H. apply lookup_insert_Some in H as [[<- <-]|[_ H]]; [done|].
  by apply Hm.
Qed.

Lemma take_key_invariant data m key :
  In key ["sessionid"; "csrftoken"; "ds_user_id"; "ig_nrcb"] ->
  cookie_invariant m -> cookie_invariant (take_key data m key).
Proof.
  intros Hk Hm. unfold take_key. destruct (assoc key data) as [v|]; [|done].
  destruct (truthy v) eqn:Hv; [|done]. by apply cookie_invariant_insert.
Qed.

Lemma cookies_of_file_invariant json_loads file :
  cookie_invariant (cookies_of_file json_loads file).
Proof.
  unfold cookies_of_file.
  destruct file as [text|]; [|by intros k v H].
  destruct (json_loads text) as [[]|]; try by intros k v H.
  simpl. repeat apply take_key_invariant; simpl; try tauto.
  by intros k v H.
Qed.

Lemma set_if_truthy_invariant key value m :
  In key ["sessionid"; "csrftoken"; "ds_user_id"; "ig_nrcb"] ->
  cookie_invariant m -> cookie_invariant (set_if_truthy key value m).
Proof.
  intros Hk Hm. unfold set_if_truthy. destruct value as [s|]; [|done].
  destruct (nonempty s) eqn:Hs; [|done].
  apply cookie_invariant_insert; [|done|done]. by destruct s.
Qed.

Lemma take_key_lookup_ne data m key k :
  k <> key -> take_key data m key !! k = m !! k.
Proof.
  intros Hne. unfold take_key. destruct (assoc key data) as [v|]; [|done].
  destruct (truthy v); [|done]. by rewrite lookup_insert_ne.
Qed.

Lemma cookies_of_file_no_nrcb json_loads file :
  cookies_of_file json_loads file !! "ig_nrcb" = None.
Proof.
  unfold cookies_of_file. destruct file as [text|]; [|done].
  destruct (json_loads text) as [[]|]; try done.
  simpl. by rewrite !take_key_lookup_ne.
Qed.

Lemma set_if_truthy_lookup key value m k :
  set_if_truthy key value m !! k
  = if decide (k = key) then
      (if Service.str_truthy value then JStr <$> value else m !! k)
    else m !! k.
Proof.
  unfold set_if_truthy, Service.str_truthy.
  destruct value as [s|]; [|by case_decide].
  destruct (nonempty s); [|by case_decide].
  case_decide as Hk.
  - subst. by rewrite lookup_insert_eq.
  - by rewrite lookup_insert_ne.
Qed.

Lemma setdefault_lookup_ne key v m k :
  k <> key -> setdefault key v m !! k = m !! k.
Proof.
  intros Hne. unfold setdefault. destruct (m !! key); [done|].
  by rewrite lookup_insert_ne.
Qed.

Lemma instagram_cookies_invariant json_loads cfg :
  cookie_invariant (instagram_cookies json_loads cfg).
Proof.
  unfold instagram_cookies.
  set (c2 := set_if_truthy "csrftoken" _ _).
  assert (Hinv : cookie_invariant c2).
  { subst c2. repeat apply set_if_truthy_invariant; simpl; try tauto.
    apply cookies_of_file_invariant. }
  case_decide; [done|]. unfold setdefault.
  destruct (c2 !! "ig_nrcb"); [done|].
  apply cookie_invariant_insert; [done|simpl; tauto|done].
Qed.

(** The cookie bag of the configuration.  Every cookie it holds has a
    truthy value and one of four names; a session id or CSRF token set in
    the environment replaces the one of the cookie file, and where the
    environment sets none the file's is kept; [ig_nrcb] is "1" as soon as
    the bag holds anything, and an empty bag stays empty. *)
Theorem instagram_cookies_bag json_loads cfg :
  let bag := instagram_cookies json_loads cfg in
  let file := cookies_of_file json_loads (cookie_file cfg) in
  cookie_invariant bag
  /\ bag !! "sessionid"
     = (if Service.str_truthy (instagram_sessionid cfg)
        then JStr <$> instagram_sessionid cfg else file !! "sessionid")
  /\ bag !! "csrftoken"
     = (if Service.str_truthy (instagram_csrftoken cfg)
        then JStr <$> instagram_csrftoken cfg else file !! "csrftoken")
  /\ bag !! "ds_user_id" = file !! "ds_user_id"
  /\ (bag = ∅ \/ bag !! "ig_nrcb" = Some (JStr "1")).
Proof.
  intros bag file. subst bag. unfold instagram_cookies. fold file.
  set (c2 := set_if_truthy "csrftoken" _ _).
  assert (Hinv : cookie_invariant c2).
  { subst c2. repeat apply set_if_truthy_invariant; simpl; try tauto.
    apply cookies_of_file_invariant. }
  assert (Hnrcb : c2 !! "ig_nrcb" = None).
  { subst c2. rewrite !set_if_truthy_lookup.
    repeat (case_decide; [done|]). apply cookies_of_file_no_nrcb. }
  assert (Hsid : c2 !! "sessionid"
                 = (if Service.str_truthy (instagram_sessionid cfg)
                    then JStr <$> instagram_sessionid cfg
                    else file !! "sessionid")).
  { subst c2. rewrite !set_if_truthy_lookup.
    case_decide; [done|]. by case_decide. }
  assert (Hcsrf : c2 !! "csrftoken"
                  = (if Service.str_truthy (instagram_csrftoken cfg)
                     then JStr <$> instagram_csrftoken cfg
                     else file !! "csrftoken")).
  { subst c2. rewrite !set_if_truthy_lookup.
    case_decide; [|done]. destruct (Service.str_truthy _); [done|].
    by case_decide. }
  assert (Hds : c2 !! "ds_user_id" = file !! "ds_user_id").
  { subst c2. rewrite !set_if_truthy_lookup. by repeat (case_decide; [done|]). }
  case_decide as Hempty.
  { rewrite <- Hsid, <- Hcsrf, <- Hds.
    split; [done|]. split; [done|]. split; [done|]. split; [done|]. by left. }
  rewrite !setdefault_lookup_ne by done.
  split; [|split; [done|split; [done|split; [done|]]]].
  - unfold setdefault. rewrite Hnrcb.
    apply cookie_invariant_insert; [done|simpl; tauto|done].
  - right. unfold setdefault. rewrite Hnrcb. apply lookup_insert_eq.
Qed.

End ConfigFacts.

(** ** The headers of the requests *)

Section HeaderFacts.
Import Py Config Headers.

Lemma with_csrf_lookup cookies (h : gmap string json) :
  h !! "X-CSRFToken" = None ->
  with_csrf cookies h !! "X-CSRFToken"
  = match cookies !! "csrftoken" with
    | Some token => if truthy token then Some token else None
    | None => None
    end.
Proof.
  intros Hh. unfold with_csrf. destruct (cookies !! "csrftoken") as [t|]; [|done].
  destruct (truthy t); [|done]. apply lookup_insert_eq.
Qed.

Lemma with_csrf_lookup_ne cookies (h : gmap string json) k :
  k <> "X-CSRFToken" -> with_csrf cookies h !! k = h !! k.
Proof.
  intros Hk. unfold with_csrf. destruct (cookies !! "csrftoken") as [t|]; [|done].
  destruct (truthy t); [|done]. by rewrite lookup_insert_ne.
Qed.

(** The CSRF token reaches the web requests and never the mobile one.
    With the cookie bag of the configuration as [self.cookies], the
    headers built for the web-API, legacy and HTML requests hold, under
    [X-CSRFToken], the CSRF token of the bag exactly when the bag has one
    (a token of the cookie file or of the environment, never a falsy
    value); they hold the configured application id and a referer made of
    the handle.  The headers of the mobile request hold no CSRF token, no
    referer, and a fixed application id of their own.  The two JSON
    requests, and only they, are marked [XMLHttpRequest]. *)
Theorem csrf_token_reaches_web_requests json_loads cfg u app build s :
  let bag := instagram_cookies json_loads cfg in
  let headers := request_headers u app bag build s in
  headers !! "X-CSRFToken"
  = (match s with Spider.MobileApi => None | _ => bag !! "csrftoken" end)
  /\ headers !! "X-IG-App-ID"
     = Some (JStr (match s with
                   | Spider.MobileApi => "567067343352427"
                   | _ => app
                   end))
  /\ headers !! "Referer"
     = (match s with
        | Spider.MobileApi => None
        | _ => Some (JStr ("https://www.instagram.com/" +:+ u +:+ "/"))
        end)
  /\ headers !! "X-Requested-With"
     = (match s with
        | Spider.WebApi | Spider.LegacyJson => Some (JStr "XMLHttpRequest")
        | _ => None
        end).
Proof.
  intros bag headers.
  assert (Hcsrf : match bag !! "csrftoken" with
                  | Some token => if truthy token then Some token else None
                  | None => None
                  end = bag !! "csrftoken").
  { destruct (bag !! "csrftoken") as [t|] eqn:Ht; [|done].
    apply instagram_cookies_invariant in Ht as [-> _]. done. }
  subst headers.
  destruct s; cbn [request_headers].
  - unfold _build_mobile_api_headers. by simplify_map_eq.
  - unfold _build_api_headers. rewrite with_csrf_lookup by (by simplify_map_eq).
    rewrite !with_csrf_lookup_ne by done. rewrite Hcsrf. by simplify_map_eq.
  - unfold _build_headers. rewrite with_csrf_lookup by (by simplify_map_eq).
    rewrite !with_csrf_lookup_ne by done. rewrite Hcsrf. by simplify_map_eq.
  - unfold _build_headers. rewrite with_csrf_lookup by (by simplify_map_eq).
    rewrite !with_csrf_lookup_ne by done. rewrite Hcsrf. by simplify_map_eq.
Qed.

End HeaderFacts.

(** ** app/auth.py *)

Section AuthFacts.
Import Py Auth.

Lemma filter_filter_and {A} (f g : A -> bool) l :
  List.filter f (List.filter g l) = List.filter (fun x => g x && f x) l.
Proof.
  induction l as [|x l IH]; simpl; [done|].
  destruct (g x); simpl; [|done]. destruct (f x); by rewrite IH.
Qed.

(** Round trip of the cookie file.  If the decoder reads back the payload
    the encoder wrote, loading after saving gives the cookies saved that
    have one of the three session names and a truthy value, in their
    order; every other cookie is dropped, by the save or by the load. *)
Theorem load_after_save json_loads json_dumps cookies :
  let payload := JObj (List.filter (fun kv => in_keys kv.1) cookies) in
  json_loads (json_dumps payload) = Some payload ->
  load_persisted_cookies json_loads (save_cookies json_dumps cookies)
  = Ok (List.filter (fun kv => in_keys kv.1 && truthy kv.2) cookies)
  /\ forall k v, In (k, v) (List.filter (fun kv => in_keys kv.1 && truthy kv.2) cookies) ->
       In k COOKIE_KEYS /\ truthy v = true /\ In (k, v) cookies.
Proof.
  intros payload Hrt. split.
  - unfold load_persisted_cookies, save_cookies. fold payload. rewrite Hrt.
    subst payload. cbv beta iota.
    rewrite filter_filter_and. f_equal.
    apply filter_ext. intros [k v]. simpl.
    destruct (in_keys k); simpl; [done|done].
  - intros k v H. apply filter_In in H as [Hin H]. simpl in H.
    apply andb_true_iff in H as [Hk Hv]. split; [|done].
    unfold in_keys in Hk. apply existsb_exists in Hk as (k' & Hk' & Heq).
    apply String.eqb_eq in Heq. by subst.
Qed.

End AuthFacts.

(** ** app/persistence.py *)

Section PersistenceFacts.
Import Py Persistence.

(** The order of the image sources.  When the file is not there yet, the
    image is asked from the given URL first, then from unavatar (unless the
    given URL is an unavatar URL), then from dicebear, stopping at the
    first that answers.  A path and a source are returned exactly when one
    answered and the file could be written; the source is then the URL that
    answered and the content written is its answer.  Otherwise both are
    [None] and nothing is written. *)
Theorem download_image_fallbacks out username url :
  present out = false ->
  let candidates :=
    url :: (if contains "unavatar.io" url then [] else [unavatar_url username])
        ++ [dicebear_url username] in
  let r := _download_image out username url in
  exists n,
    (1 <= n <= length candidates)%nat
    /\ fetched r.2 = take n candidates
    /\ Forall (fun u => fetch out u = None) (take (n - 1) candidates)
    /\ match r.1 with
       | Pair (Some p) (Some src) =>
           p = destination out /\ writable out = true
           /\ candidates !! (n - 1)%nat = Some src
           /\ (exists c, fetch out src = Some c /\ written r.2 = Some c)
       | Pair None None =>
           written r.2 = None
           /\ ((n = length candidates
                /\ Forall (fun u => fetch out u = None) candidates)
               \/ writable out = false)
       | _ => False
       end.
Proof.
  intros Hp candidates r. subst r candidates. unfold _download_image. rewrite Hp.
  assert (Hnil : Forall (fun u => fetch out u = None) []) by constructor.
  destruct (fetch out url) as [c0|] eqn:H0.
  { exists 1%nat.
    destruct (contains _ url), (writable out) eqn:Hw; simpl;
      (split; [lia|]); (split; [done|]); (split; [done|]); eauto 10. }
  destruct (contains "unavatar.io" url) eqn:Hc; simpl.
  - destruct (fetch out (dicebear_url username)) as [c2|] eqn:H2.
    + exists 2%nat. destruct (writable out) eqn:Hw; simpl;
        (split; [lia|]); (split; [done|]); (split; [by repeat constructor|]);
        eauto 10.
    + exists 2%nat. simpl. split; [lia|]. split; [done|].
      split; [by repeat constructor|]. split; [done|].
      left. split; [done|]. by repeat constructor.
  - destruct (fetch out (unavatar_url username)) as [c1|] eqn:H1.
    + exists 2%nat. destruct (writable out) eqn:Hw; simpl;
        (split; [lia|]); (split; [done|]); (split; [by repeat constructor|]);
        eauto 10.
    + destruct (fetch out (dicebear_url username)) as [c2|] eqn:H2.
      * exists 3%nat. destruct (writable out) eqn:Hw; simpl;
          (split; [lia|]); (split; [done|]); (split; [by repeat constructor|]);
          eauto 10.
      * exists 3%nat. simpl. split; [lia|]. split; [done|].
        split; [by repeat constructor|]. split; [done|].
        left. split; [done|]. by repeat constructor.
Qed.

(** A file that is already there breaks the persisting.  When the profile
    has a picture URL and the image file exists, [_download_image] returns
    the bare path, which the two-target assignment of [persist_profile]
    cannot unpack unless it has exactly two characters: [ValueError] is
    raised, nothing is fetched, nothing is written, and no row is
    inserted. *)
Theorem persist_existing_image_raises out profile u :
  profile_picture_url profile = Some u ->
  nonempty u = true ->
  present out = true ->
  String.length (destination out) <> 2%nat ->
  exists msg,
    persist_profile out profile
    = (Raise (ValueError msg), {| fetched := []; written := None |}).
Proof.
  intros Hu Hne Hp Hlen. unfold persist_profile. rewrite Hu, Hne.
  unfold _download_image. rewrite Hp.
  destruct (destination out) as [|a [|b [|c rest]]]; simpl in *; eauto.
  lia.
Qed.

(** What is persisted when the persisting succeeds.  The profile returned
    and the row inserted carry the handle, name, biography, follower count,
    instant and picture URL of the profile given, the picture URL also
    when the image came from a fallback source; both are marked not cached;
    the row stores the image path of the profile returned; and a profile
    without a picture URL causes no download and gets no image path. *)
Theorem persist_keeps_profile out profile p row eff :
  persist_profile out profile = (Ok (p, row), eff) ->
  (username p, full_name p, biography p, followers p, scraped_at p,
   profile_picture_url p)
  = (username profile, full_name profile, biography profile,
     followers profile, scraped_at profile, profile_picture_url profile)
  /\ (row_username row, row_full_name row, row_biography row,
      row_followers row, row_scraped_at row, row_profile_picture_url row)
     = (username profile, full_name profile, biography profile,
        followers profile, scraped_at profile, profile_picture_url profile)
  /\ is_cached p = false /\ row_is_cached row = 0
  /\ row_profile_image_path row = profile_image_path p
  /\ (profile_picture_url profile = None ->
      profile_image_path p = None /\ fetched eff = []).
Proof.
  unfold persist_profile. intros H.
  destruct (profile_picture_url profile) as [u|] eqn:Hu.
  - destruct (nonempty u).
    + destruct (_download_image out (username profile) u) as [d eff'].
      destruct (unpack2 d) as [[a b]|e]; [|done].
      rewrite andb_false_r in H. by simplify_eq.
    + rewrite andb_false_r in H. by simplify_eq.
  - simpl in H. by simplify_eq.
Qed.

End PersistenceFacts.

(** ** More on the strategy chain *)

Section ChainMore.
Import Py Spider Claims.

Variable lib : Lib.
Variable u : string.

(** What the errback raises for a failure. *)
Lemma errback_table f :
  errback u f
  = Raise (match kind f with
           | HttpError r =>
               if status r =? 404 then ProfileNotFound (not_found_msg u)
               else if status r =? 429 then RateLimited rate_limited_msg
               else value f
           | TimeoutError | TCPTimedOutError | DNSLookupError =>
               ProxyTimeout (timeout_msg u)
           | OtherFailure => value f
           end).
Proof. unfold errback. by repeat case_match. Qed.

Lemma last_of_crawl transport fuel tr out k s e :
  (4 <= fuel)%nat ->
  crawl lib u fuel transport 0 start_requests = Some (tr, out) ->
  tr !! k = Some s ->
  dispatch lib u s (transport k s) = Raise e ->
  length tr = S k /\ out = Raise e.
Proof.
  intros Hfuel Hc Hlook Hd.
  destruct (crawl_structure lib u transport fuel 0 start_requests)
    as (tr' & out' & Hc' & _ & _ & Hk); [simpl; lia|].
  rewrite Hc in Hc'. simplify_eq.
  destruct (Hk k s Hlook) as [Hiff Hlast]. simpl in Hiff, Hlast.
  rewrite Hd in Hiff, Hlast. simpl in Hiff.
  assert (Hlen : length tr' = S k).
  { apply lookup_lt_Some in Hlook.
    destruct (decide (S k < length tr')%nat) as [Hlt|Hge]; [|lia].
    apply Hiff in Hlt. discriminate. }
  split; [done|]. by apply Hlast.
Qed.

Lemma crawl_ends transport fuel :
  (4 <= fuel)%nat ->
  exists tr out, crawl lib u fuel transport 0 start_requests = Some (tr, out).
Proof.
  intros Hfuel.
  destruct (crawl_structure lib u transport fuel 0 start_requests)
    as (tr & out & Hc & _); [simpl; lia|]. eauto.
Qed.

(** C2, the defect.  A 200 of the mobile or the web API whose body
    decodes to a truthy value that is no dict (a list, a number, a string),
    or to a dict whose [data] is no dict, is an advance signal in the words
    of the spec: a 200 without a parseable user object.  The callback does
    not advance on it: the user lookup raises [AttributeError], and in a
    crawl the strategy that received it is the last one requested; the
    crawl ends with that exception, which is neither a record nor
    [ProfileNotFound] nor [RateLimited]. *)
Theorem advance_signal_lost transport fuel k s response v :
  (4 <= fuel)%nat ->
  s = MobileApi \/ s = WebApi ->
  transport k s = Delivered response ->
  status response = 200 ->
  nonempty (strip (text response)) = true ->
  json_loads lib (text response) = Some v ->
  unwalkable v = true ->
  advance_signal lib response = true
  /\ (exists m, callback_of lib u s response = Raise (AttributeError m))
  /\ exists tr out,
       crawl lib u fuel transport 0 start_requests = Some (tr, out)
       /\ (tr !! k = Some s ->
           length tr = S k /\ exists m, out = Raise (AttributeError m)).
Proof.
  intros Hfuel Hs Htr Hst Htext Hjson Hv.
  unfold unwalkable in Hv. apply andb_true_iff in Hv as [Htruthy Hshape].
  assert (Hsignal : advance_signal lib response = true).
  { unfold advance_signal, parseable_user. rewrite Hst, Hjson. cbn.
    destruct v as [| | | | | |top]; try done.
    destruct (assoc "data" top) as [[]|]; done. }
  assert (Huser : exists m, data_user (Some v) = Raise (AttributeError m)).
  { unfold data_user. rewrite Htruthy, (or_else_truthy _ _ Htruthy).
    destruct v as [| | | | | |top]; try (cbn; eauto; fail).
    rewrite get_dict. destruct (assoc "data" top) as [d|]; [|done].
    cbn [from_option id mbind result_bind].
    destruct d; try done; cbn; eauto. }
  destruct Huser as [m Huser].
  assert (Hcb : callback_of lib u s response = Raise (AttributeError m)).
  { destruct Hs as [-> | ->]; cbn [callback_of];
      [unfold parse_mobile_api|unfold parse_api_v1];
      rewrite Hst, ?Htext, Hjson; cbn [Z.eqb Pos.eqb andb];
      by rewrite Huser. }
  split; [done|]. split; [eauto|].
  destruct (crawl_ends transport fuel Hfuel) as (tr & out & Hc).
  exists tr, out. split; [done|]. intros Hlook.
  destruct (last_of_crawl transport fuel tr out k s (AttributeError m))
    as [Hlen Hout]; [done|done|done| |eauto].
  by rewrite Htr.
Qed.

(** Elsewhere the advance signal is followed: when the decoded body, if
    there is one, can be walked, the mobile API goes on to the web API and
    the web API to the legacy endpoint. *)
Lemma advance_signal_followed s response :
  s = MobileApi \/ s = WebApi ->
  advance_signal lib response = true ->
  (forall v, json_loads lib (text response) = Some v -> unwalkable v = false) ->
  callback_of lib u s response
  = Ok (Request (match s with MobileApi => WebApi | _ => LegacyJson end)).
Proof.
  intros Hs Hsig Hwalk. unfold advance_signal in Hsig.
  apply andb_true_iff in Hsig as [Hsig Hp].
  apply andb_true_iff in Hsig as [H404 H429].
  apply negb_true_iff in H404, H429, Hp.
  assert (Huser : status response = 200 ->
                  exists user, data_user (json_loads lib (text response)) = Ok user
                               /\ truthy user = false).
  { intros Hst. rewrite Hst in Hp. cbn in Hp. unfold parseable_user in Hp.
    destruct (json_loads lib (text response)) as [v|] eqn:Hjson;
      [|by exists JNull].
    specialize (Hwalk v eq_refl). unfold unwalkable in Hwalk.
    unfold data_user. destruct (truthy v) eqn:Htruthy; [|by exists JNull].
    rewrite (or_else_truthy _ _ Htruthy). cbn [andb] in Hwalk.
    destruct v as [| | | | | |top]; try done.
    rewrite get_dict. destruct (assoc "data" top) as [d|] eqn:Hd.
    - cbn [from_option id mbind result_bind].
      destruct d as [| | | | | |dd]; try done.
      rewrite get_dict. destruct (assoc "user" dd) as [user|]; [|by exists JNull].
      by exists user.
    - by exists JNull. }
  destruct Hs as [-> | ->]; cbn [callback_of];
    [unfold parse_mobile_api|unfold parse_api_v1]; rewrite H404, H429.
  - destruct (status response =? 200) eqn:Hst; [|done].
    apply Z.eqb_eq in Hst. destruct (Huser Hst) as (user & -> & Hf).
    destruct (nonempty _); cbn; by rewrite ?Hf.
  - destruct (status response =? 200) eqn:Hst; [|done].
    apply Z.eqb_eq in Hst. destruct (Huser Hst) as (user & -> & Hf).
    cbn. by rewrite Hf.
Qed.

(** A 429 is terminal at every strategy: the callback raises
    [RateLimited] whatever the body (unless the status is 404, which it is
    not), and the crawl ends with that exception at the strategy that
    received it. *)
Theorem rate_limit_is_terminal transport fuel :
  (4 <= fuel)%nat ->
  exists tr out,
    crawl lib u fuel transport 0 start_requests = Some (tr, out)
    /\ forall k s response,
         tr !! k = Some s ->
         transport k s = Delivered response ->
         status response = 429 ->
         callback_of lib u s response = Raise (RateLimited rate_limited_msg)
         /\ length tr = S k
         /\ out = Raise (RateLimited rate_limited_msg).
Proof.
  intros Hfuel. destruct (crawl_ends transport fuel Hfuel) as (tr & out & Hc).
  exists tr, out. split; [done|]. intros k s response Hlook Htr Hst.
  assert (Hcb : callback_of lib u s response = Raise (RateLimited rate_limited_msg)).
  { destruct s; cbn [callback_of];
      [unfold parse_mobile_api|unfold parse_api_v1|unfold parse_legacy_json
      |unfold parse_html]; by rewrite Hst. }
  split; [done|]. eapply last_of_crawl; [done|done|done|].
  by rewrite Htr.
Qed.

(** A download that fails ends the crawl, at whichever strategy: a
    time-out, a TCP time-out or a DNS failure as [ProxyTimeout]; an HTTP
    error with status 404 or 429 as [ProfileNotFound] or [RateLimited];
    anything else as the exception the failure carries.  No later strategy
    is tried. *)
Theorem failure_ends_crawl transport fuel :
  (4 <= fuel)%nat ->
  exists tr out,
    crawl lib u fuel transport 0 start_requests = Some (tr, out)
    /\ forall k s f,
         tr !! k = Some s ->
         transport k s = Failed f ->
         length tr = S k
         /\ out = Raise (match kind f with
                         | HttpError r =>
                             if status r =? 404
                             then ProfileNotFound (not_found_msg u)
                             else if status r =? 429
                                  then RateLimited rate_limited_msg
                                  else value f
                         | TimeoutError | TCPTimedOutError | DNSLookupError =>
                             ProxyTimeout (timeout_msg u)
                         | OtherFailure => value f
                         end).
Proof.
  intros Hfuel. destruct (crawl_ends transport fuel Hfuel) as (tr & out & Hc).
  exists tr, out. split; [done|]. intros k s f Hlook Htr.
  eapply last_of_crawl; [done|done|done|].
  rewrite Htr. cbn [dispatch]. apply errback_table.
Qed.

(** The chain short-circuits.  When the mobile API answers 200 with a body
    that decodes to a dict holding a truthy user under [data], and the
    record builds, the crawl issues that one request and its outcome is the
    record: no web-API, legacy or HTML request is made. *)
Theorem mobile_success_short_circuits transport fuel response top d user r :
  (1 <= fuel)%nat ->
  transport 0%nat MobileApi = Delivered response ->
  status response = 200 ->
  nonempty (strip (text response)) = true ->
  json_loads lib (text response) = Some (JObj top) ->
  assoc "data" top = Some (JObj d) ->
  assoc "user" d = Some user ->
  truthy user = true ->
  _build_result_from_user lib u user = Ok r ->
  crawl lib u fuel transport 0 start_requests = Some ([MobileApi], Ok r).
Proof.
  intros Hfuel Htr Hst Htext Hjson Hdata Huser Htruthy Hbuild.
  destruct fuel as [|fuel]; [lia|]. unfold start_requests. cbn [crawl].
  rewrite Htr. cbn [dispatch callback_of]. unfold parse_mobile_api.
  rewrite Hst, Htext, Hjson. cbn [Z.eqb Pos.eqb andb].
  unfold data_user.
  assert (Htop : truthy (JObj top) = true) by (by destruct top).
  rewrite Htop, (or_else_truthy _ _ Htop), get_dict, Hdata.
  cbn [from_option id mbind result_bind]. rewrite get_dict, Huser.
  cbn [from_option id mbind result_bind]. rewrite Htruthy, Hbuild. done.
Qed.

(** What makes an API strategy advance.  A response whose status is
    neither 404 nor 429 advances, without raising, whenever the strategy
    does not read its body or finds nothing to read: the mobile strategy on
    any status but 200, on a blank body, on a body that is not JSON; the
    web strategy on any status but 200 and on a body that is not JSON; the
    legacy strategy on any status from 400 up, on a blank body, on a body
    that is not JSON. *)
Theorem unreadable_answers_advance response :
  status response <> 404 ->
  status response <> 429 ->
  (status response <> 200 \/ nonempty (strip (text response)) = false
   \/ json_loads lib (text response) = None ->
   parse_mobile_api lib u response = Ok (Request WebApi))
  /\ (status response <> 200 \/ json_loads lib (text response) = None ->
      parse_api_v1 lib u response = Ok (Request LegacyJson))
  /\ (400 <= status response \/ nonempty (strip (text response)) = false
      \/ json_loads lib (text response) = None ->
      parse_legacy_json lib u response = Ok (Request HtmlPage)).
Proof.
  intros H404 H429. apply Z.eqb_neq in H404, H429.
  unfold parse_mobile_api, parse_api_v1, parse_legacy_json.
  rewrite H404, H429. split; [|split].
  - intros [H|[H|H]].
    + apply Z.eqb_neq in H. by rewrite H.
    + rewrite H, andb_false_r. done.
    + rewrite H. by destruct (_ && _).
  - intros [H|H].
    + apply Z.eqb_neq in H. by rewrite H.
    + rewrite H. by destruct (_ =? 200).
  - intros [H|[H|H]].
    + apply Z.leb_le in H. by rewrite H.
    + rewrite H, orb_true_r. done.
    + rewrite H. by destruct (_ || _).
Qed.

(** The fields of a record built from a user object.  The picture URL is
    the high-resolution one when that is truthy and the standard one (or
    [None]) otherwise; the biography is [None] whenever the user's is
    falsy, so never an empty string; the name is passed on as it is. *)
Theorem record_fields kvs r :
  _build_result_from_user lib u (JObj kvs) = Ok r ->
  let field k := default JNull (assoc k kvs) in
  profile_picture_url r
  = (if truthy (field "profile_pic_url_hd") then field "profile_pic_url_hd"
     else field "profile_pic_url")
  /\ biography r
     = (if truthy (field "biography") then field "biography" else JNull)
  /\ (biography r = JNull \/ truthy (biography r) = true)
  /\ full_name r = field "full_name".
Proof.
  rewrite build_result_followers. intros H field.
  destruct (counted kvs) as [c|e]; cbn [mbind result_bind] in H; [|done].
  destruct (int (int_of_str lib) c) as [n|e]; cbn [mbind result_bind] in H; [|done].
  simplify_eq. cbn. subst field. cbn.
  split; [done|]. split; [done|]. split; [|done].
  destruct (truthy (default JNull (assoc "biography" kvs))) eqn:Hb; auto.
Qed.

(** A record extracted by the patterns has something in it: a follower
    count other than zero or a picture URL that is not empty.  It carries
    the handle of the spider, and its name, biography and picture are
    strings or [None]. *)
Theorem regex_record_is_not_empty html r :
  regex_extract lib u html = Ok (Some r) ->
  (followers r <> 0
   \/ exists s, profile_picture_url r = JStr s /\ nonempty s = true)
  /\ html_followers lib html = Ok (followers r)
  /\ username r = u
  /\ Forall (fun v => v = JNull \/ exists s, v = JStr s)
       [full_name r; biography r; profile_picture_url r].
Proof.
  unfold regex_extract. intros H.
  destruct (html_followers lib html) as [n|e]; cbn [mbind result_bind] in H; [|done].
  destruct (html_profile_pic lib html) as [pic|e]; cbn [mbind result_bind] in H; [|done].
  destruct (html_biography lib html) as [bio|e]; cbn [mbind result_bind] in H; [|done].
  destruct (n =? 0) eqn:Hn; cbn [andb] in H.
  - destruct pic as [s|]; [|done].
    destruct (nonempty s) eqn:Hs; cbn [negb] in H; [|done].
    simplify_eq. cbn. split; [right; eauto|]. split; [done|]. split; [done|].
    repeat (apply Forall_cons_2; [repeat case_match; eauto|]); constructor.
  - simplify_eq. cbn. apply Z.eqb_neq in Hn. split; [by left|].
    split; [done|]. split; [done|].
    repeat (apply Forall_cons_2; [repeat case_match; eauto|]); constructor.
Qed.

End ChainMore.

(** The handle the spider keeps ends in no whitespace, and a username that
    already has no whitespace around it and no leading [@] is kept as it
    is. *)
Theorem handle_is_trimmed username :
  Py.rstrip_by Py.isspace (Spider.init_username username)
  = Spider.init_username username
  /\ (Py.strip username = username ->
      Claims.leading_at username = false ->
      Spider.init_username username = username).
Proof.
  unfold Spider.init_username, Py.lstrip_at. split.
  - apply rstrip_lstrip_fixed. unfold Py.strip. apply rstrip_by_idem.
  - intros -> Hlead. destruct username as [|c s]; [done|].
    simpl in *. by rewrite Hlead.
Qed.

(** ** More on the orchestrator *)

Section RoundFacts.
Import Py Service Claims Rounds.

Variable env : Env.
Variable settings : Settings.
Variable username : string.

Lemma socks5_url_nonempty host url :
  socks5_url settings host = Some url -> nonempty url = true.
Proof.
  unfold socks5_url. intros H. repeat case_match; by simplify_eq.
Qed.

Lemma loop_shape_going k r going ending exit :
  goes_on r = true ->
  well_formed settings r ->
  loop_shape settings k going ending exit ->
  loop_shape settings (S k) (r :: going) ending exit.
Proof.
  intros Hr Hwf (Hgo & Hall & Hend). split; [by constructor|].
  split; [by constructor|].
  destruct ending as [|final [|]]; [|destruct Hend as (? & ? & ?)|done].
  - destruct Hend as [<- ->]. done.
  - split; [simpl; lia|done].
Qed.

Lemma loop_shape_ending k final :
  goes_on final = false ->
  well_formed settings final ->
  loop_shape settings (S k) [] [final] (exit_of final).
Proof.
  intros Hf Hwf. split; [constructor|]. split; [by repeat constructor|].
  split; [simpl; lia|done].
Qed.

Lemma proxy_loop_rounds k st exit st' :
  proxy_loop env settings username k st = (exit, st') ->
  exists going ending,
    log st' = log st ++ concat (map (events settings) (going ++ ending))
    /\ result_buffer st' = result_buffer st ++ left_by ending
    /\ loop_shape settings k going ending exit.
Proof.
  revert st. induction k as [|k IH]; intros st H.
  { simpl in H. simplify_eq. exists [], []. rewrite !app_nil_r.
    split; [done|]. split; [done|]. split; [constructor|].
    split; [constructor|done]. }
  cbn [proxy_loop] in H.
  destruct (select env st) as [host st1] eqn:Hsel.
  apply select_spec in Hsel as (Hlog1 & Hfr1 & Hrb1).
  (* the loop is left after the round [final] *)
  assert (Hend : forall final st2,
             (exit_of final, st2) = (exit, st') ->
             goes_on final = false ->
             well_formed settings final ->
             log st2 = log st ++ events settings final ->
             result_buffer st2 = result_buffer st ++ left_by [final] ->
             exists going ending,
               log st' = log st ++ concat (map (events settings) (going ++ ending))
               /\ result_buffer st' = result_buffer st ++ left_by ending
               /\ loop_shape settings (S k) going ending exit).
  { intros final st2 ? Hf Hwf Hl Hb. simplify_eq. exists [], [final].
    cbn [app map concat]. rewrite app_nil_r.
    split; [done|]. split; [done|]. by apply loop_shape_ending. }
  (* the loop goes on after the round [r] *)
  assert (Hnext : forall r st2,
             proxy_loop env settings username k st2 = (exit, st') ->
             goes_on r = true ->
             well_formed settings r ->
             log st2 = log st ++ events settings r ->
             result_buffer st2 = result_buffer st ->
             exists going ending,
               log st' = log st ++ concat (map (events settings) (going ++ ending))
               /\ result_buffer st' = result_buffer st ++ left_by ending
               /\ loop_shape settings (S k) going ending exit).
  { intros r st2 Hloop Hr Hwf Hl Hb.
    destruct (IH _ Hloop) as (going & ending & Hl' & Hb' & Hshape).
    exists (r :: going), ending. cbn [app map concat].
    rewrite Hl', Hl, Hb', Hb, <- app_assoc.
    split; [done|]. split; [done|]. by apply loop_shape_going. }
  destruct (str_truthy host) eqn:Hh; cbn [negb] in H.
  2:{ apply (Hend (Stopped host) st1 H); [done|by left| |].
      - done.
      - cbn. by rewrite Hrb1, app_nil_r. }
  destruct host as [h|]; [|done]. cbn [from_option id] in H.
  destruct (socks5_url settings (Some h)) as [url|] eqn:Hurl.
  2:{ apply (Hend (Stopped (Some h)) st1 H); [done|by right| |].
      - done.
      - cbn. by rewrite Hrb1, app_nil_r. }
  rewrite (socks5_url_nonempty _ _ Hurl) in H. cbn [negb] in H.
  assert (Hwf : nonempty h = true /\ socks5_url settings (Some h) = Some url)
    by done.
  clear Hh.
  destruct (reachable env (length (log st1)) url) as [[]|msg] eqn:Hreach;
    cbn [negb] in H.
  3:{ apply (Hend (Broken h url msg) _ H eq_refl Hwf).
      - done.
      - cbn. by rewrite Hrb1, app_nil_r. }
  2:{ apply (Hnext (Unreachable h url) _ H eq_refl Hwf); [|done].
      cbn. rewrite Hlog1. by rewrite <- !app_assoc. }
  unfold run_with_proxy in H.
  destruct (run_spider env _ username (Some url)) as [rs|exc] eqn:Hout.
  - apply (Hend (Succeeded h url rs) _ H eq_refl Hwf).
    + cbn. rewrite Hlog1. by rewrite <- !app_assoc.
    + cbn. by rewrite Hrb1.
  - destruct exc.
    all: try (match type of Hout with
              | _ = Raised ?exc =>
                  apply (Hnext (Retried h url exc) _ H eq_refl);
                  [by destruct Hwf|cbn; by rewrite Hlog1, <- !app_assoc|done]
              end).
    + apply (Hend (Missing h url msg) _ H eq_refl Hwf).
      * cbn. rewrite Hlog1. by rewrite <- !app_assoc.
      * cbn. by rewrite Hrb1, app_nil_r.
    + apply (Hend (Limited h url msg) _ H eq_refl Hwf).
      * cbn. rewrite Hlog1. by rewrite <- !app_assoc.
      * cbn. by rewrite Hrb1, app_nil_r.
Qed.

Lemma rounds_balance rounds :
  Forall (well_formed settings) rounds ->
  let l := concat (map (events settings) rounds) in
  balanced l
  /\ count is_select l = length rounds
  /\ count is_direct_run l = 0%nat
  /\ Forall (uniform settings) l.
Proof.
  unfold balanced.
  induction 1 as [|r rounds Hwf _ IH]; [by repeat split|].
  cbn [map concat length]. cbv zeta in *. rewrite !count_app, Forall_app.
  destruct IH as ((H1 & H2 & H3 & H4) & H5 & H6 & Hall).
  assert (Hexc : forall h url exc,
             r = Retried h url exc ->
             is_penalised_run (Run (Some h) (Raised exc)) = true
             /\ is_absorbed_run (Run (Some h) (Raised exc)) = true).
  { intros h url exc ->. destruct Hwf as (_ & _ & Habs). by destruct exc. }
  destruct r; try (destruct (Hexc _ _ _ eq_refl) as [Hp Ha]);
    cbn [events count]; rewrite ?Hp, ?Ha; cbn;
    repeat match goal with |- _ /\ _ => split end;
    try lia; try done; by repeat constructor.
Qed.

(** The log of a request.  It is a sequence of rounds of the proxy loop,
    each having one of seven shapes, followed by at most one direct run.
    Every round starts with a selection; a proxy run only ever follows a
    passed probe of the URL built for the host just selected; a failed
    probe, a time-out and an unexpected error are followed by a mark and
    (the last two) a back-off, and only after such rounds does the loop go
    on; a probe that raises ends the request with [ValueError], the
    selection being the last event; a run that raises [RateLimited] marks
    the host and ends the request, one that raises [ProfileNotFound] ends
    it without a mark.  The direct run is made exactly when the loop raised
    nothing and left no record. *)
Theorem request_log_grammar p :
  let run := scrape_instagram_profile env settings username p in
  exists going ending direct exit,
    log run.2 = concat (map (events settings) (going ++ ending)) ++ direct
    /\ loop_shape settings (Z.to_nat (proxy_retry_limit settings))
         going ending exit
    /\ match exit, left_by ending with
       | Some e, _ => direct = [] /\ run.1 = Raise e
       | None, r :: _ => direct = [] /\ run.1 = Ok r
       | None, [] => exists out, direct = [Run None out]
       end.
Proof.
  intros run. subst run. unfold scrape_instagram_profile.
  set (st0 := {| pm := p; result_buffer := []; failure_reasons := []; log := [] |}).
  destruct (proxy_loop _ _ _ _ st0) as [exit st1] eqn:Hloop.
  destruct (proxy_loop_rounds _ _ _ _ Hloop) as (going & ending & Hlog & Hbuf & Hshape).
  simpl in Hlog, Hbuf.
  exists going, ending.
  destruct exit as [e|].
  { exists [], (Some e). rewrite app_nil_r. by cbn. }
  rewrite Hbuf.
  destruct (left_by ending) as [|r rs] eqn:Hleft.
  - unfold direct_attempt, run_with_proxy.
    set (out := run_spider env (length (log st1)) username None).
    exists [Run None out], None.
    split; [|split; [exact Hshape|by eexists]].
    rewrite <- Hlog.
    destruct out as [rs|[]]; cbn; try done.
    unfold finish. cbn. rewrite Hbuf. by destruct rs.
  - exists [], None. rewrite app_nil_r. unfold finish. rewrite Hbuf.
    by cbn.
Qed.

(** The books of a request balance.  In its log there is one mark, of 600
    ticks, for every failed probe and every proxy run that raised anything
    but [ProfileNotFound]; one back-off, of the configured length, for
    every proxy run that timed out or failed unexpectedly; one passed probe
    for every proxy run; no more probes than selections, no more selections
    than the retry limit, and at most one direct run. *)
Theorem request_accounting p :
  let l := log (scrape_instagram_profile env settings username p).2 in
  balanced l
  /\ Z.of_nat (count is_select l) <= Z.max 0 (proxy_retry_limit settings)
  /\ (count is_direct_run l <= 1)%nat
  /\ Forall (uniform settings) l.
Proof.
  intros l. subst l. unfold scrape_instagram_profile.
  set (st0 := {| pm := p; result_buffer := []; failure_reasons := []; log := [] |}).
  destruct (proxy_loop _ _ _ _ st0) as [exit st1] eqn:Hloop.
  destruct (proxy_loop_rounds _ _ _ _ Hloop) as (going & ending & Hlog & _ & Hshape).
  simpl in Hlog.
  destruct Hshape as (_ & Hwf & Hend).
  destruct (rounds_balance _ Hwf) as (Hbal & Hsel & Hdir & Hall).
  cbv zeta in *. rewrite <- Hlog in *.
  assert (Hlen : (length (going ++ ending) <= Z.to_nat (proxy_retry_limit settings))%nat).
  { rewrite length_app. destruct ending as [|final [|]]; simpl; [| |done].
    - destruct Hend as [-> _]. lia.
    - destruct Hend as (? & _). lia. }
  assert (Hloop_ok : balanced (log st1)
            /\ Z.of_nat (count is_select (log st1))
               <= Z.max 0 (proxy_retry_limit settings)
            /\ (count is_direct_run (log st1) <= 1)%nat
            /\ Forall (uniform settings) (log st1)).
  { split; [done|]. split; [lia|]. split; [lia|done]. }
  assert (Hdirect : forall out,
            balanced (log st1 ++ [Run None out])
            /\ Z.of_nat (count is_select (log st1 ++ [Run None out]))
               <= Z.max 0 (proxy_retry_limit settings)
            /\ (count is_direct_run (log st1 ++ [Run None out]) <= 1)%nat
            /\ Forall (uniform settings) (log st1 ++ [Run None out])).
  { intros out. unfold balanced in *. rewrite !count_app, Forall_app. cbn.
    destruct Hbal as (-> & -> & -> & Hle).
    split; [split; [|split; [|split]]|]; try lia.
    split; [lia|]. split; [lia|]. split; [done|by repeat constructor]. }
  destruct exit as [e|]; [done|].
  destruct (result_buffer st1) as [|r rs] eqn:Hb.
  - unfold direct_attempt, run_with_proxy.
    set (out := run_spider env (length (log st1)) username None).
    specialize (Hdirect out).
    destruct out as [rs|[]]; cbn; try done.
    unfold finish. cbn. rewrite Hb. by destruct rs.
  - unfold finish. rewrite Hb. done.
Qed.

Lemma run_crawl_quiet lib transport_of :
  run_spider env = run_crawl lib transport_of -> quiet env.
Proof.
  intros H n u url. rewrite H. unfold run_crawl.
  destruct (Spider.crawl _ _ _ _ _ _) as [[tr [r|e]]|]; eauto.
Qed.

Lemma no_run_app l1 l2 :
  forallb (fun e => negb (is_run e)) (l1 ++ l2)
  = forallb (fun e => negb (is_run e)) l1
    && forallb (fun e => negb (is_run e)) l2.
Proof. apply forallb_app. Qed.

(** The proxy loop when every run returns: it records no failure reason
    and raises nothing but the error of a probe; it makes at most one run,
    the last thing it does. *)
Lemma proxy_loop_quiet k st exit st' :
  quiet env ->
  proxy_loop env settings username k st = (exit, st') ->
  failure_reasons st' = failure_reasons st
  /\ exists ev,
       log st' = log st ++ ev
       /\ ((forallb (fun e => negb (is_run e)) ev = true
            /\ result_buffer st' = result_buffer st
            /\ (exit = None \/ exists m, exit = Some (ValueError m)))
           \/ (exists ev0 h url rs,
                 ev = ev0 ++ [Run (Some h) (Returned rs)]
                 /\ forallb (fun e => negb (is_run e)) ev0 = true
                 /\ socks5_url settings (Some h) = Some url
                 /\ run_spider env (length (log st ++ ev0)) username (Some url)
                    = Returned rs
                 /\ exit = None
                 /\ result_buffer st' = result_buffer st ++ rs)).
Proof.
  intros Hq. revert st. induction k as [|k IH]; intros st H.
  { simpl in H. simplify_eq. split; [done|]. exists []. rewrite app_nil_r.
    split; [done|]. left. auto. }
  cbn [proxy_loop] in H.
  destruct (select env st) as [host st1] eqn:Hsel.
  apply select_spec in Hsel as (Hlog1 & Hfr1 & Hrb1).
  assert (Hstop : forall exit0,
            (exit0 = None \/ exists m, exit0 = Some (ValueError m)) ->
            (exit0, st1) = (exit, st') ->
            failure_reasons st' = failure_reasons st
            /\ exists ev,
                 log st' = log st ++ ev
                 /\ ((forallb (fun e => negb (is_run e)) ev = true
                      /\ result_buffer st' = result_buffer st
                      /\ (exit = None \/ exists m, exit = Some (ValueError m)))
                     \/ (exists ev0 h url rs,
                           ev = ev0 ++ [Run (Some h) (Returned rs)]
                           /\ forallb (fun e => negb (is_run e)) ev0 = true
                           /\ socks5_url settings (Some h) = Some url
                           /\ run_spider env (length (log st ++ ev0)) username
                                (Some url) = Returned rs
                           /\ exit = None
                           /\ result_buffer st' = result_buffer st ++ rs))).
  { intros exit0 Hex ?. simplify_eq. split; [done|]. exists [Select host].
    split; [done|]. left. auto. }
  destruct (str_truthy host) eqn:Hh; cbn [negb] in H; [|apply (Hstop None); auto].
  destruct host as [h|]; [|done]. cbn [from_option id] in H.
  destruct (socks5_url settings (Some h)) as [url|] eqn:Hurl;
    [|apply (Hstop None); auto].
  destruct (nonempty url); cbn [negb] in H; [|apply (Hstop None); auto].
  destruct (reachable env (length (log st1)) url) as [[]|msg] eqn:Hreach;
    cbn [negb] in H.
  3:{ apply (Hstop (Some (ValueError msg))); eauto. }
  2:{ clear Hstop. apply IH in H as (Hfr & ev & Hlog & Hcases).
      cbn in Hfr, Hlog, Hcases. rewrite Hfr1 in Hfr. rewrite Hrb1 in Hcases.
      split; [done|].
      exists ([Select (Some h); Probe url false; MarkBad h 600] ++ ev).
      split; [rewrite Hlog, Hlog1; by rewrite <- !app_assoc|].
      destruct Hcases as [(Hno & Hrb & Hex)|(ev0 & h0 & url0 & rs & -> & Hno & Hu & Hrun & -> & Hrb)].
      - left. by rewrite no_run_app, Hno.
      - right. exists ([Select (Some h); Probe url false; MarkBad h 600] ++ ev0),
                 h0, url0, rs.
        rewrite <- app_assoc. split; [done|]. rewrite no_run_app, Hno.
        split; [done|]. split; [done|]. split; [|done].
        rewrite <- Hrun. f_equal. rewrite Hlog1, !length_app. cbn. lia. }
  clear Hstop. unfold run_with_proxy in H.
  destruct (Hq (length (log st1 ++ [Probe url true])) username (Some url))
    as [rs Hrun].
  cbn [emit log] in H. rewrite Hrun in H. simplify_eq. cbn.
  split; [done|].
  exists ([Select (Some h); Probe url true] ++ [Run (Some h) (Returned rs)]).
  split; [rewrite Hlog1; by rewrite <- !app_assoc|].
  right. exists [Select (Some h); Probe url true], h, url, rs.
  split; [done|]. split; [done|]. split; [done|]. split; [|by rewrite Hrb1].
  rewrite <- Hrun. f_equal. rewrite Hlog1, !length_app. cbn. lia.
Qed.

(** A request when every run returns. *)
Lemma scrape_quiet p :
  quiet env ->
  let run := scrape_instagram_profile env settings username p in
  exists ev,
    forallb (fun e => negb (is_run e)) ev = true
    /\ ((exists m, log run.2 = ev /\ run.1 = Raise (ValueError m))
        \/ (exists rs', log run.2 = ev ++ [Run None (Returned rs')]
                        /\ run.1 = answer username rs')
        \/ (exists h url rs,
              socks5_url settings (Some h) = Some url
              /\ run_spider env (length ev) username (Some url) = Returned rs
              /\ ((exists r rest, rs = r :: rest
                     /\ log run.2 = ev ++ [Run (Some h) (Returned rs)]
                     /\ run.1 = Ok r)
                  \/ (exists rs', rs = []
                        /\ log run.2 = ev ++ [Run (Some h) (Returned []);
                                              Run None (Returned rs')]
                        /\ run.1 = answer username rs')))).
Proof.
  intros Hq run. subst run. unfold scrape_instagram_profile.
  set (st0 := {| pm := p; result_buffer := []; failure_reasons := []; log := [] |}).
  destruct (proxy_loop _ _ _ _ st0) as [exit st1] eqn:Hloop.
  destruct (proxy_loop_quiet _ _ _ _ Hq Hloop) as (Hfr & ev & Hlog & Hcases).
  cbn in Hfr, Hlog, Hcases.
  assert (Hdirect : result_buffer st1 = [] ->
            exists rs',
              log (match direct_attempt env username st1 with
                   | (Some e, st) => (Raise e, st)
                   | (None, st) => finish username st
                   end).2 = log st1 ++ [Run None (Returned rs')]
              /\ (match direct_attempt env username st1 with
                  | (Some e, st) => (Raise e, st)
                  | (None, st) => finish username st
                  end).1 = answer username rs').
  { intros Hb. unfold direct_attempt, run_with_proxy.
    destruct (Hq (length (log st1)) username None) as [rs' Hrun]. rewrite Hrun.
    exists rs'. unfold finish. cbn. rewrite Hb, Hfr. cbn. by destruct rs'. }
  destruct Hcases as [(Hno & Hrb & Hex)|(ev0 & h & url & rs & -> & Hno & Hu & Hrun & -> & Hrb)].
  - exists ev. split; [done|].
    destruct Hex as [->|[m ->]].
    + rewrite Hrb. cbv beta iota. destruct (Hdirect Hrb) as (rs' & Hl & Ha).
      right. left. exists rs'. split; [|exact Ha]. rewrite Hl. by f_equal.
    + left. exists m. cbn. by rewrite Hlog.
  - exists ev0. split; [done|]. right. right. exists h, url, rs.
    split; [done|]. split; [done|].
    destruct rs as [|r rest].
    + right. rewrite Hrb. cbv beta iota.
      destruct (Hdirect Hrb) as (rs' & Hl & Ha). exists rs'.
      split; [done|]. split; [|exact Ha]. rewrite Hl, Hlog, <- app_assoc. done.
    + left. exists r, rest. rewrite Hrb. unfold finish. rewrite Hrb. cbn.
      by rewrite Hlog.
Qed.

Lemma no_run_not_in ev host out :
  forallb (fun e => negb (is_run e)) ev = true -> ~ In (Run host out) ev.
Proof.
  intros Hno Hin. rewrite forallb_forall in Hno. by apply Hno in Hin.
Qed.

(** C8, the defect.  The classification of the spider does not reach
    the orchestrator: a run that is a crawl returns whatever its callbacks
    raised.  So when the crawls through the proxy of [h] end in an
    exception of a callback ([RateLimited] on a 429, [ProfileNotFound] on
    a 404), a proxy attempt through [h] is not terminal: the run returns
    without a record, the loop is left by its [break], the direct attempt
    follows at once (so the host is not marked bad for the run), and what
    the request gives is the
    record of the direct attempt or [ProfileNotFoundError] with the detail
    [No data returned]; [RateLimitError] is not raised. *)
Theorem terminal_classification_is_lost lib transport_of p h url out :
  run_spider env = run_crawl lib transport_of ->
  socks5_url settings (Some h) = Some url ->
  (forall n, exists tr e,
     Spider.crawl lib (Spider.init_username username) 4
       (transport_of n (Some url)) 0 Spider.start_requests
     = Some (tr, Raise e)) ->
  let run := scrape_instagram_profile env settings username p in
  In (Run (Some h) out) (log run.2) ->
  out = Returned []
  /\ (exists pre rs',
        log run.2 = pre ++ [Run (Some h) (Returned []); Run None (Returned rs')]
        /\ forallb (fun e => negb (is_run e)) pre = true
        /\ run.1 = answer username rs')
  /\ (forall m, run.1 <> Raise (RateLimitError m))
  /\ (forall m, run.1 = Raise (ProfileNotFoundError m) ->
                m = unavailable_msg username "No data returned").
Proof.
  intros Hrun Hurl Hcrawl run Hin.
  assert (Hempty : forall n, run_spider env n username (Some url) = Returned []).
  { intros n. rewrite Hrun. unfold run_crawl.
    destruct (Hcrawl n) as (tr & e & ->). done. }
  assert (Hanswer : forall rs',
             run.1 = answer username rs' ->
             (forall m, run.1 <> Raise (RateLimitError m))
             /\ (forall m, run.1 = Raise (ProfileNotFoundError m) ->
                           m = unavailable_msg username "No data returned")).
  { intros rs' ->. destruct rs'; cbn; split; intros m; congruence. }
  pose proof (scrape_quiet p (run_crawl_quiet _ _ Hrun)) as Hq.
  cbv zeta in Hq. fold run in Hq.
  destruct Hq
    as (ev & Hno & [(m & Hl & _)|[(rs' & Hl & _)|(h0 & url0 & rs & Hu & Hr & H)]]).
  - rewrite Hl in Hin. by apply no_run_not_in in Hin.
  - rewrite Hl in Hin. apply in_app_iff in Hin as [Hin|[Hin|[]]].
    + by apply no_run_not_in in Hin.
    + discriminate.
  - destruct H as [(r & rest & -> & Hl & _)|(rs' & -> & Hl & Ha)].
    + rewrite Hl in Hin. apply in_app_iff in Hin as [Hin|[Hin|[]]].
      { by apply no_run_not_in in Hin. }
      simplify_eq. rewrite Hempty in Hr. discriminate.
    + rewrite Hl in Hin. apply in_app_iff in Hin as [Hin|[Hin|[Hin|[]]]].
      { by apply no_run_not_in in Hin. }
      2:{ discriminate. }
      simplify_eq. split; [done|]. split; [by exists ev, rs'|].
      by apply (Hanswer rs').
Qed.

(** What the orchestrator raises on the way to the record (lines 88-162;
    the validation of the record by [InstagramProfile] is not part of the
    embedding) is one of the three errors its docstring declares, or the
    [ValueError] of [_proxy_reachable], which no handler catches: the log
    then ends with the selection of the host whose URL was probed.
    [ScraperRuntimeError] can only come from a direct run that raised
    [ProxyTimeout], and [RateLimitError] from a run that raised
    [RateLimited].  When the runs are crawls, which never raise, neither
    is ever raised: the only errors of a request are
    [ProfileNotFoundError] with the detail [No data returned] and the
    [ValueError] of the probe. *)
Theorem raised_errors_classified p e :
  let run := scrape_instagram_profile env settings username p in
  run.1 = Raise e ->
  (declared e = true
   \/ exists m h pre, e = ValueError m /\ log run.2 = pre ++ [Select (Some h)])
  /\ (forall m, e = ScraperRuntimeError m ->
        exists pre, log run.2 = pre ++ [Run None (Raised (ProxyTimeout m))])
  /\ (forall m, e = RateLimitError m ->
        exists pre host post,
          log run.2 = pre ++ Run host (Raised (RateLimited m)) :: post
          /\ count is_proxy_run post = 0%nat
          /\ count is_direct_run post = 0%nat)
  /\ (forall lib transport_of,
        run_spider env = run_crawl lib transport_of ->
        e = ProfileNotFoundError (unavailable_msg username "No data returned")
        \/ exists m, e = ValueError m).
Proof.
  intros run Hraise. split; [|split; [|split]]; revert Hraise.
  4:{ intros Hraise lib transport_of Hrun.
      destruct (scrape_quiet p (run_crawl_quiet _ _ Hrun))
        as (ev & _ & [(m & _ & H)|[(rs' & _ & H)|(h & url & rs & _ & _ & H)]]).
      - right. exists m. fold run in H. congruence.
      - left. fold run in H. rewrite H in Hraise. destruct rs'; cbn in Hraise; congruence.
      - destruct H as [(r & rest & _ & _ & H)|(rs' & _ & _ & H)]; fold run in H.
        + congruence.
        + left. rewrite H in Hraise. destruct rs'; cbn in Hraise; congruence. }
  all: subst run; unfold scrape_instagram_profile.
  all: set (st0 := {| pm := p; result_buffer := []; failure_reasons := []; log := [] |}).
  all: destruct (proxy_loop _ _ _ _ st0) as [exit st1] eqn:Hloop.
  all: destruct (proxy_loop_rounds _ _ _ _ Hloop) as (going & ending & Hlog & _ & Hshape).
  all: simpl in Hlog; destruct Hshape as (_ & _ & Hend).
  - (* the class of the error *)
    destruct exit as [e'|].
    + cbn. intros ?. simplify_eq.
      destruct ending as [|final [|]]; [by destruct Hend| |done].
      destruct Hend as (_ & _ & Hexit).
      destruct final; cbn in Hexit; simplify_eq; cbn; auto.
      right. exists msg, h, (concat (map (events settings) going)).
      split; [done|]. rewrite Hlog, map_app, concat_app. by cbn.
    + destruct (result_buffer st1) as [|r rs] eqn:Hb.
      2:{ unfold finish. rewrite Hb. by cbn. }
      unfold direct_attempt, run_with_proxy.
      destruct (run_spider env (length (log st1)) username None) as [rs|exc]; cbn.
      * unfold finish. cbn. rewrite Hb. cbn.
        destruct rs; cbn; intros ?; simplify_eq. by left.
      * destruct exc; cbn; intros ?; simplify_eq; by left.
  - (* ScraperRuntimeError *)
    destruct exit as [e'|].
    + cbn. intros ? m ->. simplify_eq.
      destruct ending as [|final [|]]; [by destruct Hend| |done].
      destruct Hend as (_ & _ & Hexit). by destruct final.
    + destruct (result_buffer st1) as [|r rs] eqn:Hb.
      2:{ unfold finish. rewrite Hb. by cbn. }
      unfold direct_attempt, run_with_proxy.
      destruct (run_spider env (length (log st1)) username None) as [rs|exc]; cbn.
      * unfold finish. cbn. rewrite Hb. cbn.
        destruct rs; cbn; intros ? m ->; simplify_eq.
      * destruct exc; cbn; intros ? m' ->; simplify_eq. by exists (log st1).
  - (* RateLimitError *)
    destruct exit as [e'|].
    + cbn. intros ? m ->. simplify_eq.
      destruct ending as [|final [|]]; [by destruct Hend| |done].
      destruct Hend as (_ & _ & Hexit).
      destruct final; cbn in Hexit; simplify_eq.
      rewrite Hlog, map_app, concat_app. cbn.
      exists (concat (map (events settings) going)
              ++ [Select (Some h); Probe url true]), (Some h), [MarkBad h 600].
      split; [|done]. by rewrite <- app_assoc.
    + destruct (result_buffer st1) as [|r rs] eqn:Hb.
      2:{ unfold finish. rewrite Hb. by cbn. }
      unfold direct_attempt, run_with_proxy.
      destruct (run_spider env (length (log st1)) username None) as [rs|exc]; cbn.
      * unfold finish. cbn. rewrite Hb. cbn.
        destruct rs; cbn; intros ? m ->; simplify_eq.
      * destruct exc; cbn; intros ? m' ->; simplify_eq.
        by exists (log st1), None, [].
Qed.

End RoundFacts.

Section PoolAcrossRequest.
Import Py Service Claims Rounds.

Variable env : Env.
Variable settings : Settings.
Variable username : string.

Lemma get_next_host_bad_hosts listing shuffle now q :
  ProxyManager._bad_hosts (ProxyManager.get_next_host listing shuffle now q).2
  = ProxyManager._bad_hosts q.
Proof.
  unfold ProxyManager.get_next_host.
  destruct (ProxyManager.scan _ _ _ _) as [[h|] pool']; [done|].
  cbn [ProxyManager.with_pool ProxyManager._pool].
  destruct pool' as [|x rest].
  - unfold ProxyManager._refresh_pool. cbn.
    by repeat case_match.
  - done.
Qed.

(** What every step of the proxy loop keeps of the proxy manager, the loop
    keeps. *)
Lemma proxy_loop_pm (P : ProxyManager.t -> Prop) :
  (forall now q, P q ->
     P (ProxyManager.get_next_host (listing env) (shuffle env) now q).2) ->
  (forall now h q, P q -> P (ProxyManager.mark_bad now h 600 q)) ->
  forall k st, P (pm st) -> P (pm (proxy_loop env settings username k st).2).
Proof.
  intros Hsel Hmark. induction k as [|k IH]; intros st HP; [done|].
  cbn [proxy_loop].
  destruct (select env st) as [host st1] eqn:Hs.
  assert (HP1 : P (pm st1)).
  { unfold select in Hs.
    pose proof (Hsel (now env st) (pm st) HP) as Hq.
    destruct (ProxyManager.get_next_host _ _ _ _) as [h q]. by simplify_eq. }
  destruct (str_truthy host); cbn [negb]; [|done].
  destruct (socks5_url settings host) as [url|]; [|done].
  destruct (nonempty url); cbn [negb]; [|done].
  destruct (reachable env _ url) as [[]|msg]; cbn [negb]; [| |done].
  2:{ apply IH. cbn. by apply Hmark. }
  unfold run_with_proxy.
  destruct (run_spider env _ username (Some url)) as [rs|exc]; [done|].
  destruct exc; try (apply IH; cbn; by apply Hmark); [done|].
  cbn. by apply Hmark.
Qed.

Lemma scrape_pm (P : ProxyManager.t -> Prop) p :
  (forall now q, P q ->
     P (ProxyManager.get_next_host (listing env) (shuffle env) now q).2) ->
  (forall now h q, P q -> P (ProxyManager.mark_bad now h 600 q)) ->
  P p -> P (pm (scrape_instagram_profile env settings username p).2).
Proof.
  intros Hsel Hmark HP. unfold scrape_instagram_profile.
  set (st0 := {| pm := p; result_buffer := []; failure_reasons := []; log := [] |}).
  pose proof (proxy_loop_pm P Hsel Hmark
                (Z.to_nat (proxy_retry_limit settings)) st0 HP) as H.
  destruct (proxy_loop _ _ _ _ st0) as [[e|] st1]; [done|].
  cbn [snd] in H.
  assert (Hfin : forall st, P (pm st) -> P (pm (finish username st).2)).
  { intros st Hst. unfold finish. by destruct (result_buffer st). }
  destruct (result_buffer st1); [|by apply Hfin].
  unfold direct_attempt, run_with_proxy.
  destruct (run_spider env _ username None) as [rs|[]]; cbn; try done.
  by apply Hfin.
Qed.

(** A request never costs the ring an endpoint.  Every endpoint of the
    ring before the request is in the ring after it, however the request
    ends; the orchestrator only rotates the ring and sets deadlines.  If the
    ring was not empty, it holds the same endpoints afterwards and the
    listing source was not asked. *)
Theorem ring_survives_request p :
  let after := pm (scrape_instagram_profile env settings username p).2 in
  (forall x, x ∈ ProxyManager._pool p -> x ∈ ProxyManager._pool after)
  /\ (ProxyManager._pool p <> [] ->
      ProxyManager._pool after ≡ₚ ProxyManager._pool p
      /\ ProxyManager.api_calls after = ProxyManager.api_calls p).
Proof.
  intros after. subst after. split.
  - apply (scrape_pm (fun q => forall x, x ∈ ProxyManager._pool p ->
                                  x ∈ ProxyManager._pool q)); [| |done].
    + intros now q Hq x Hx. specialize (Hq x Hx).
      destruct (ProxyManager._pool q) as [|y rest] eqn:Hpool.
      { by apply elem_of_nil in Hq. }
      destruct (get_next_host_keeps_ring (listing env) (shuffle env) now q)
        as (_ & Hperm & _); [by rewrite Hpool|].
      rewrite Hperm, Hpool. done.
    + intros now h q Hq. done.
  - intros Hne.
    apply (scrape_pm (fun q => ProxyManager._pool q ≡ₚ ProxyManager._pool p
                               /\ ProxyManager.api_calls q
                                  = ProxyManager.api_calls p)); [| |done].
    + intros now q [Hperm Hcalls].
      destruct (get_next_host_keeps_ring (listing env) (shuffle env) now q)
        as (Hc & Hp & _).
      { intros Hnil. rewrite Hnil in Hperm.
        apply Permutation_nil_l in Hperm. done. }
      split; [by rewrite Hp|by rewrite Hc].
    + intros now h q Hq. done.
Qed.

Lemma proxy_loop_no_url k st :
  (forall host, socks5_url settings host = None) ->
  proxy_loop env settings username (S k) st = (None, (select env st).2).
Proof.
  intros Hurl. cbn [proxy_loop].
  destruct (select env st) as [host st1]. rewrite Hurl.
  by destruct (negb _).
Qed.

(** Without proxy credentials the request goes direct.  When the user
    name, the password or the port of the proxy is not configured and the
    retry limit is positive, the request makes one selection (which still
    turns the ring and, on an empty ring, still asks the listing source),
    no probe and no run through a proxy, then the direct run; no endpoint
    is marked bad. *)
Theorem no_credentials_goes_direct p :
  nord_username settings = None \/ nord_password settings = None
  \/ socks5_port settings = None ->
  0 < proxy_retry_limit settings ->
  let run := scrape_instagram_profile env settings username p in
  let selected :=
    ProxyManager.get_next_host (listing env) (shuffle env) (time_at env 0) p in
  log run.2 = [Select selected.1; Run None (run_spider env 1 username None)]
  /\ pm run.2 = selected.2
  /\ ProxyManager._bad_hosts (pm run.2) = ProxyManager._bad_hosts p.
Proof.
  intros Hmissing Hlimit run selected.
  assert (Hurl : forall host, socks5_url settings host = None).
  { intros host. unfold socks5_url.
    destruct Hmissing as [H|[H|H]]; rewrite H; by repeat case_match. }
  pose proof (get_next_host_bad_hosts (listing env) (shuffle env)
                (time_at env 0) p) as Hbad.
  fold selected in Hbad.
  subst run. unfold scrape_instagram_profile.
  destruct (Z.to_nat (proxy_retry_limit settings)) as [|k] eqn:Hk; [lia|].
  rewrite proxy_loop_no_url by done.
  unfold select, now. cbn [pm log length]. fold selected.
  destruct selected as [host q]. cbn [fst snd] in *.
  unfold direct_attempt, run_with_proxy, finish. cbn.
  destruct (run_spider env 1 username None) as [rs|[]]; cbn; try done.
  by destruct rs.
Qed.

End PoolAcrossRequest.

(** ** The request on the wire *)

Section MiddlewareFacts.
Import Py Config Headers Middleware.

(** The user agent a request is sent with is the middleware's, never the
    spider's.  After [process_request], whatever the strategy, the request
    carries the user agent drawn from [USER_AGENTS]: the Instagram-app user
    agent the spider builds for the mobile API and the Chrome build it
    draws for the web API are replaced.  The headers the middleware does
    not set (among them the application id, the referer and the CSRF
    token) are those of the spider, and a download slot or delay already
    in the meta is kept. *)
Theorem spider_user_agent_is_replaced d u app bag build s meta :
  drawn d ->
  let built := request_headers u app bag build s in
  let sent := process_request d built meta in
  sent.1 !! "User-Agent" = Some (JStr (user_agent d))
  /\ sent.1 !! "User-Agent" <> _build_mobile_api_headers !! "User-Agent"
  /\ (forall k, ~ In k set_headers -> sent.1 !! k = built !! k)
  /\ (forall k v, meta !! k = Some v -> sent.2 !! k = Some v).
Proof.
  intros (Hua & _ & _) built sent. subst sent. unfold process_request.
  cbn [fst snd]. split; [|split; [|split]].
  - by simplify_map_eq.
  - rewrite !lookup_insert_ne by done. rewrite lookup_insert_eq.
    unfold _build_mobile_api_headers. rewrite lookup_insert_eq.
    intros H. simplify_eq.
    unfold USER_AGENTS in Hua. simpl in Hua. rewrite H in Hua.
    repeat (destruct Hua as [Hua|Hua]; [discriminate|]). done.
  - intros k Hk. unfold set_headers in Hk. simpl in Hk.
    rewrite !lookup_insert_ne; [done|intros <-; tauto..].
  - intros k v Hk. unfold setdefault.
    destruct (meta !! "download_slot") as [slot|] eqn:Hslot.
    + destruct (meta !! "download_delay") eqn:Hdelay; [done|].
      destruct (decide (k = "download_delay")) as [->|Hne]; [congruence|].
      by rewrite lookup_insert_ne.
    + assert (Hk1 : k <> "download_slot") by congruence.
      destruct (<["download_slot" := JStr (user_agent d)]> meta !! "download_delay")
        eqn:Hdelay.
      * by rewrite lookup_insert_ne.
      * rewrite lookup_insert_ne in Hdelay by done.
        destruct (decide (k = "download_delay")) as [->|Hne]; [congruence|].
        by rewrite !lookup_insert_ne.
Qed.

End MiddlewareFacts.

(** ** From the login to the spider *)

Section SessionFacts.
Import Py Config Auth.

Lemma assoc_filter_keys k (kvs : list (string * json)) :
  in_keys k = true ->
  assoc k (List.filter (fun kv => in_keys kv.1) kvs) = assoc k kvs.
Proof.
  intros Hk. induction kvs as [|[k' v] kvs IH]; [done|]. simpl.
  destruct (in_keys k') eqn:Hk'; simpl.
  - by rewrite IH.
  - destruct (String.eqb k k') eqn:Heq; [|done].
    apply String.eqb_eq in Heq. congruence.
Qed.

Lemma cookies_of_file_lookup json_loads text data k :
  json_loads text = Some (JObj data) ->
  In k COOKIE_KEYS ->
  cookies_of_file json_loads (Some text) !! k
  = match assoc k data with
    | Some v => if truthy v then Some v else None
    | None => None
    end.
Proof.
  intros Hload Hk. unfold cookies_of_file. rewrite Hload. cbn [foldl].
  unfold COOKIE_KEYS in Hk. simpl in Hk.
  destruct Hk as [<-|[<-|[<-|[]]]].
  - rewrite !take_key_lookup_ne by done. unfold take_key.
    destruct (assoc "sessionid" data) as [v|]; [|done].
    destruct (truthy v); [|done]. apply lookup_insert_eq.
  - rewrite !take_key_lookup_ne by done. unfold take_key at 1.
    destruct (assoc "csrftoken" data) as [v|].
    + destruct (truthy v); [apply lookup_insert_eq|].
      by rewrite take_key_lookup_ne.
    + by rewrite take_key_lookup_ne.
  - unfold take_key at 1.
    destruct (assoc "ds_user_id" data) as [v|].
    + destruct (truthy v); [apply lookup_insert_eq|].
      by rewrite !take_key_lookup_ne.
    + by rewrite !take_key_lookup_ne.
Qed.

(** The session saved by the login is the session of the spider.  If the
    decoder reads back the payload [save_cookies] wrote and the environment
    sets no session id and no CSRF token, the cookie bag the spider is
    built with holds, under each of the three session names, the value
    saved under it when that value is truthy, and nothing under that name
    otherwise. *)
Theorem saved_session_reaches_spider json_loads json_dumps cookies k :
  let payload := JObj (List.filter (fun kv => in_keys kv.1) cookies) in
  json_loads (json_dumps payload) = Some payload ->
  In k COOKIE_KEYS ->
  instagram_cookies json_loads
    {| instagram_sessionid := None; instagram_csrftoken := None;
       cookie_file := save_cookies json_dumps cookies |} !! k
  = match assoc k cookies with
    | Some v => if truthy v then Some v else None
    | None => None
    end.
Proof.
  intros payload Hrt Hk.
  assert (Hkeys : in_keys k = true).
  { unfold in_keys. apply existsb_exists. exists k.
    split; [done|apply String.eqb_refl]. }
  assert (Hne : k <> "ig_nrcb").
  { intros ->. unfold COOKIE_KEYS in Hk. simpl in Hk.
    destruct Hk as [|[|[|[]]]]; discriminate. }
  unfold instagram_cookies, set_if_truthy.
  cbn [instagram_sessionid instagram_csrftoken cookie_file]. unfold save_cookies.
  fold payload.
  assert (Hfile : cookies_of_file json_loads (Some (json_dumps payload)) !! k
                  = match assoc k cookies with
                    | Some v => if truthy v then Some v else None
                    | None => None
                    end).
  { rewrite (cookies_of_file_lookup _ _ _ _ Hrt Hk).
    by rewrite assoc_filter_keys. }
  case_decide; [done|]. by rewrite setdefault_lookup_ne.
Qed.

End SessionFacts.

(** ** The handle of the route and the handle of the spider *)

Section RouteFacts.
Import Py Main.

Lemma lstrip_by_no_head p s :
  match s with String c _ => p c = false | EmptyString => True end ->
  lstrip_by p s = s.
Proof. destruct s as [|c s]; [done|]. simpl. by intros ->. Qed.

Lemma lstrip_by_shorter p c s :
  p c = true ->
  (String.length (lstrip_by p (String c s)) < String.length (String c s))%nat.
Proof.
  intros Hc. simpl. rewrite Hc.
  pose proof (lstrip_by_length p s). lia.
Qed.

(** The route normalises the username once, the spider once more, and the
    two handles can differ.  The spider's handle of the route's handle is
    the route's handle without the whitespace at its front and the [@]
    that follow; the two are equal exactly when the route's handle does not
    start with whitespace (it does for a username such as [@ a]). *)
Theorem route_handle_renormalised username :
  let h := handle username in
  Spider.init_username h = lstrip_at (lstrip_by isspace h)
  /\ (Spider.init_username h = h <-> leading_space h = false).
Proof.
  intros h.
  assert (Htrim : rstrip_by isspace h = h).
  { subst h. unfold handle, lstrip_at. apply rstrip_lstrip_fixed.
    unfold strip. apply rstrip_by_idem. }
  assert (Hat : Claims.leading_at h = false).
  { subst h. unfold handle. apply lstrip_at_no_leading. }
  assert (Hspider : Spider.init_username h = lstrip_at (lstrip_by isspace h)).
  { unfold Spider.init_username, strip. by rewrite rstrip_lstrip_fixed. }
  split; [done|]. rewrite Hspider. split.
  - intros Heq. destruct h as [|c s] eqn:Hh; [done|]. cbn [leading_space].
    destruct (isspace c) eqn:Hc; [|done].
    pose proof (lstrip_by_shorter isspace c s Hc) as Hlt.
    pose proof (lstrip_by_length (fun c => Ascii.eqb c "@"%char)
                  (lstrip_by isspace (String c s))) as Hle.
    unfold lstrip_at in Heq. rewrite Heq in Hle. lia.
  - intros Hsp. rewrite (lstrip_by_no_head isspace h).
    + unfold lstrip_at. apply lstrip_by_no_head.
      destruct h; [done|]. exact Hat.
    + destruct h; [done|]. exact Hsp.
Qed.

End RouteFacts.

(** ** The added properties at concrete inputs *)

Section RingExamples.
Import ProxyManager Ring Scenario Cases.

(** At time 1001 the head [a] of the ring [a, b, c] is cooling: [b] is
    selected and both go to the back. *)
Lemma get_next_host_first_viable_witness :
  (_pool ring_abc_bad = ["a"] ++ "b" :: ["c"]
   /\ Forall (fun x => cooling (_bad_hosts ring_abc_bad) 1001 x = true) ["a"]
   /\ cooling (_bad_hosts ring_abc_bad) 1001 "b" = false)
  /\ get_next_host listing_b shuffle_rev 1001 ring_abc_bad
     = (Some "b", {| _pool := ["c"; "a"; "b"];
                     _bad_hosts := _bad_hosts ring_abc_bad;
                     api_calls := 0 |}).
Proof.
  assert (H1 : _pool ring_abc_bad = ["a"] ++ "b" :: ["c"]) by reflexivity.
  assert (H2 : Forall (fun x => cooling (_bad_hosts ring_abc_bad) 1001 x = true)
                 ["a"]).
  { constructor; [vm_compute; reflexivity|constructor]. }
  assert (H3 : cooling (_bad_hosts ring_abc_bad) 1001 "b" = false)
    by (vm_compute; reflexivity).
  split; [auto|].
  exact (get_next_host_first_viable listing_b shuffle_rev 1001 ring_abc_bad
           ["a"] ["c"] "b" H1 H2 H3).
Defined.

(** Three selections on the ring [a, b, c], none cooling. *)
Lemma one_turn_visits_all_witness :
  (length [1001; 1002; 1003] = length (_pool ring_abc)
   /\ forall now x, In now [1001; 1002; 1003] -> In x (_pool ring_abc) ->
                    cooling (_bad_hosts ring_abc) now x = false)
  /\ select_many listing_b shuffle_rev [1001; 1002; 1003] ring_abc
     = ([Some "a"; Some "b"; Some "c"], ring_abc).
Proof.
  assert (H1 : length [1001; 1002; 1003] = length (_pool ring_abc))
    by reflexivity.
  assert (H2 : forall now x, In now [1001; 1002; 1003] -> In x (_pool ring_abc) ->
                             cooling (_bad_hosts ring_abc) now x = false).
  { intros now x _ _. unfold cooling. simpl. by rewrite lookup_empty. }
  split; [auto|].
  exact (one_turn_visits_all listing_b shuffle_rev [1001; 1002; 1003] ring_abc
           H1 H2).
Defined.

(** The listing source would answer [b]; it is not asked. *)
Lemma get_next_host_only_rotates_witness :
  _pool ring_a_bad <> []
  /\ exists n,
       (get_next_host listing_b shuffle_rev 1001 ring_a_bad).2
       = {| _pool := Nat.iter n rotate (_pool ring_a_bad);
            _bad_hosts := _bad_hosts ring_a_bad;
            api_calls := api_calls ring_a_bad |}.
Proof.
  assert (H : _pool ring_a_bad <> []) by discriminate.
  split; [exact H|].
  exact (get_next_host_only_rotates listing_b shuffle_rev 1001 ring_a_bad H).
Defined.

(** [a] is marked at 1000 for 600: at 1599 [b] is selected, at 1600 [a]. *)
Lemma marked_head_skipped_until_deadline_witness :
  (_pool ring_abc = "a" :: ["b"; "c"] /\ 0 < 1000 + 600)
  /\ (get_next_host listing_b shuffle_rev 1600
        (mark_bad 1000 "a" 600 ring_abc)).1 = Some "a"
  /\ (get_next_host listing_b shuffle_rev 1599
        (mark_bad 1000 "a" 600 ring_abc)).1 = Some "b".
Proof.
  assert (H1 : _pool ring_abc = "a" :: ["b"; "c"]) by reflexivity.
  assert (H2 : 0 < 1000 + 600) by lia.
  split; [auto|]. split.
  - apply (proj1 (marked_head_skipped_until_deadline listing_b shuffle_rev
                    1000 "a" 600 1600 ring_abc ["b"; "c"] "b" ["c"] H1 H2)).
    lia.
  - apply (proj2 (marked_head_skipped_until_deadline listing_b shuffle_rev
                    1000 "a" 600 1599 ring_abc ["b"; "c"] "b" ["c"] H1 H2));
      [lia|reflexivity|discriminate|vm_compute; reflexivity].
Defined.

End RingExamples.

Section ConfigExamples.
Import Py Config Auth Scenario Cases.

Lemma split_csv_items_clean_witness :
  In "b" (_split_csv (Some " a, b ,,c "))
  /\ _split_csv (Some " a, b ,,c ") = ["a"; "b"; "c"]
  /\ clean_item "b" = true.
Proof.
  assert (H : In "b" (_split_csv (Some " a, b ,,c "))) by (vm_compute; auto).
  split; [exact H|]. split; [vm_compute; reflexivity|].
  exact (split_csv_items_clean (Some " a, b ,,c ") "b" H).
Defined.

Lemma split_csv_join_witness :
  Forall (fun s => clean_item s = true) ["a"; "b c"]
  /\ join "," ["a"; "b c"] = "a,b c"
  /\ _split_csv (Some (join "," ["a"; "b c"])) = ["a"; "b c"].
Proof.
  assert (H : Forall (fun s => clean_item s = true) ["a"; "b c"]).
  { constructor; [vm_compute; reflexivity|].
    constructor; [vm_compute; reflexivity|constructor]. }
  split; [exact H|]. split; [vm_compute; reflexivity|].
  exact (split_csv_join ["a"; "b c"] H).
Defined.

(** Saving a session id, a cookie of another name and an empty CSRF token,
    then loading: the session id alone comes back. *)
Lemma load_after_save_witness :
  loads_demo (dumps_demo (JObj (List.filter (fun kv => in_keys kv.1) cookies_demo)))
  = Some (JObj (List.filter (fun kv => in_keys kv.1) cookies_demo))
  /\ save_cookies dumps_demo cookies_demo = Some cookie_text
  /\ load_persisted_cookies loads_demo (save_cookies dumps_demo cookies_demo)
     = Ok [("sessionid", JStr "abc")].
Proof.
  assert (H : loads_demo (dumps_demo (JObj (List.filter (fun kv => in_keys kv.1)
                                              cookies_demo)))
              = Some (JObj (List.filter (fun kv => in_keys kv.1) cookies_demo)))
    by (vm_compute; reflexivity).
  split; [exact H|]. split; [vm_compute; reflexivity|].
  exact (proj1 (load_after_save loads_demo dumps_demo cookies_demo H)).
Defined.

End ConfigExamples.

Section PersistenceExamples.
Import Py Persistence Cases.

(** Only dicebear answers: the three sources are asked in order and the
    image of the third is written. *)
Lemma download_image_fallbacks_witness :
  present outside_fallback = false
  /\ _download_image outside_fallback "u" "https://cdn.example/p.jpg"
     = (Pair (Some "/data/images/u_20231114221320.jpg") (Some (dicebear_url "u")),
        {| fetched := ["https://cdn.example/p.jpg"; unavatar_url "u";
                       dicebear_url "u"];
           written := Some "png" |})
  /\ exists n,
       (1 <= n <= 3)%nat
       /\ fetched (_download_image outside_fallback "u"
                     "https://cdn.example/p.jpg").2
          = take n ["https://cdn.example/p.jpg"; unavatar_url "u";
                    dicebear_url "u"].
Proof.
  assert (H : present outside_fallback = false) by reflexivity.
  split; [exact H|]. split; [vm_compute; reflexivity|].
  destruct (download_image_fallbacks outside_fallback "u"
              "https://cdn.example/p.jpg" H) as (n & Hn & Hf & _).
  exists n. split; [exact Hn|exact Hf].
Defined.

(** The image file of the profile is already there. *)
Lemma persist_existing_image_raises_witness :
  (profile_picture_url profile_demo = Some "https://cdn.example/p.jpg"
   /\ nonempty "https://cdn.example/p.jpg" = true
   /\ present outside_present = true
   /\ String.length (destination outside_present) <> 2%nat)
  /\ persist_profile outside_present profile_demo
     = (Raise (ValueError "too many values to unpack (expected 2)"),
        {| fetched := []; written := None |})
  /\ exists msg,
       persist_profile outside_present profile_demo
       = (Raise (ValueError msg), {| fetched := []; written := None |}).
Proof.
  assert (H1 : profile_picture_url profile_demo = Some "https://cdn.example/p.jpg")
    by reflexivity.
  assert (H2 : nonempty "https://cdn.example/p.jpg" = true) by reflexivity.
  assert (H3 : present outside_present = true) by reflexivity.
  assert (H4 : String.length (destination outside_present) <> 2%nat)
    by (vm_compute; discriminate).
  split; [auto|]. split; [vm_compute; reflexivity|].
  exact (persist_existing_image_raises outside_present profile_demo
           "https://cdn.example/p.jpg" H1 H2 H3 H4).
Defined.

(** The image comes from dicebear; the picture URL persisted is still the
    one of the profile, and the profile is marked not cached. *)
Lemma persist_keeps_profile_witness :
  let p :=
    {| username := "u"; full_name := Some "U"; biography := None;
       followers := 1234;
       profile_picture_url := Some "https://cdn.example/p.jpg";
       profile_image_path := Some "/data/images/u_20231114221320.jpg";
       is_cached := false; scraped_at := 1700000000 |} in
  let row :=
    {| row_username := "u"; row_full_name := Some "U"; row_biography := None;
       row_followers := 1234;
       row_profile_picture_url := Some "https://cdn.example/p.jpg";
       row_profile_image_path := Some "/data/images/u_20231114221320.jpg";
       row_scraped_at := 1700000000; row_is_cached := 0 |} in
  let eff :=
    {| fetched := ["https://cdn.example/p.jpg"; unavatar_url "u";
                   dicebear_url "u"];
       written := Some "png" |} in
  persist_profile outside_fallback profile_demo = (Ok (p, row), eff)
  /\ profile_picture_url p = profile_picture_url profile_demo
  /\ is_cached p = false
  /\ row_profile_image_path row = profile_image_path p.
Proof.
  cbv zeta.
  match goal with |- ?eq /\ _ => assert (H : eq) by (vm_compute; reflexivity) end.
  split; [exact H|].
  destruct (persist_keeps_profile outside_fallback profile_demo _ _ _ H)
    as (Hp & _ & Hc & _ & Hpath & _).
  split; [by inversion Hp|]. split; [exact Hc|exact Hpath].
Defined.

End PersistenceExamples.

Section ChainMoreExamples.
Import Py Spider Claims Scenario Cases.

(** C2, the failing input: the mobile API answers 200 with the body
    [[1]].  No user object can be parsed from it, yet the web API is not
    requested: the crawl ends at the mobile API with [AttributeError]. *)
Lemma advance_signal_lost_witness :
  (transport_list 0%nat MobileApi = Delivered response_list
   /\ json_loads lib_list (text response_list) = Some (JArr [JInt 1]))
  /\ advance_signal lib_list response_list = true
  /\ crawl lib_list "u" 4 transport_list 0 start_requests
     = Some ([MobileApi],
             Raise (AttributeError "'list' object has no attribute 'get'")).
Proof.
  assert (Hc : crawl lib_list "u" 4 transport_list 0 start_requests
               = Some ([MobileApi],
                       Raise (AttributeError "'list' object has no attribute 'get'")))
    by (vm_compute; reflexivity).
  split; [split; reflexivity|].
  destruct (advance_signal_lost lib_list "u" transport_list 4 0 MobileApi
              response_list (JArr [JInt 1]) (le_n 4) (or_introl eq_refl)
              eq_refl eq_refl eq_refl eq_refl eq_refl) as (Hsig & _ & _).
  split; [exact Hsig|exact Hc].
Defined.

(** The mobile API is answered 429. *)
Lemma rate_limit_is_terminal_witness :
  (4 <= 4)%nat
  /\ transport_429 0%nat MobileApi = Delivered response_429
  /\ crawl lib_demo "u" 4 transport_429 0 start_requests
     = Some ([MobileApi], Raise (RateLimited rate_limited_msg))
  /\ exists tr out,
       crawl lib_demo "u" 4 transport_429 0 start_requests = Some (tr, out)
       /\ forall k s response,
            tr !! k = Some s ->
            transport_429 k s = Delivered response ->
            status response = 429 ->
            callback_of lib_demo "u" s response
            = Raise (RateLimited rate_limited_msg)
            /\ length tr = S k
            /\ out = Raise (RateLimited rate_limited_msg).
Proof.
  split; [lia|]. split; [reflexivity|]. split; [vm_compute; reflexivity|].
  exact (rate_limit_is_terminal lib_demo "u" transport_429 4 (le_n 4)).
Defined.

(** The download of the mobile API times out. *)
Lemma failure_ends_crawl_witness :
  (4 <= 4)%nat
  /\ crawl lib_demo "u" 4 transport_timeout 0 start_requests
     = Some ([MobileApi], Raise (ProxyTimeout (timeout_msg "u")))
  /\ exists tr out,
       crawl lib_demo "u" 4 transport_timeout 0 start_requests = Some (tr, out)
       /\ length tr = 1%nat
       /\ out = Raise (ProxyTimeout (timeout_msg "u")).
Proof.
  split; [lia|]. split; [vm_compute; reflexivity|].
  destruct (failure_ends_crawl lib_demo "u" transport_timeout 4 (le_n 4))
    as (tr & out & Hc & H).
  exists tr, out. split; [exact Hc|].
  apply (H 0%nat MobileApi
           {| kind := TimeoutError;
              value := OtherError "User timeout caused connection failure." |});
    [|reflexivity].
  vm_compute in Hc. by simplify_eq.
Defined.

(** The mobile API answers with a profile. *)
Lemma mobile_success_short_circuits_witness :
  let user := user_count (JInt 1234) in
  let r := {| username := "u"; full_name := JNull; biography := JNull;
              followers := 1234; profile_picture_url := JNull |} in
  (transport_user 0%nat MobileApi = Delivered response_user
   /\ json_loads lib_demo (text response_user)
      = Some (JObj [("data", JObj [("user", user)])])
   /\ _build_result_from_user lib_demo "u" user = Ok r)
  /\ crawl lib_demo "u" 1 transport_user 0 start_requests
     = Some ([MobileApi], Ok r).
Proof.
  cbv zeta.
  split; [split; [reflexivity|split; vm_compute; reflexivity]|].
  apply (mobile_success_short_circuits lib_demo "u" transport_user 1
           response_user [("data", JObj [("user", user_count (JInt 1234))])]
           [("user", user_count (JInt 1234))] (user_count (JInt 1234)));
    [lia|reflexivity|reflexivity|vm_compute; reflexivity|vm_compute; reflexivity
    |reflexivity|reflexivity|reflexivity|vm_compute; reflexivity].
Defined.

(** A redirect with an empty body makes every API strategy advance. *)
Lemma unreadable_answers_advance_witness :
  (status response_302 <> 404 /\ status response_302 <> 429)
  /\ parse_mobile_api lib_demo "u" response_302 = Ok (Request WebApi)
  /\ parse_api_v1 lib_demo "u" response_302 = Ok (Request LegacyJson)
  /\ parse_legacy_json lib_demo "u" response_302 = Ok (Request HtmlPage).
Proof.
  assert (H1 : status response_302 <> 404) by discriminate.
  assert (H2 : status response_302 <> 429) by discriminate.
  destruct (unreadable_answers_advance lib_demo "u" response_302 H1 H2)
    as (Ha & Hb & Hc).
  split; [auto|]. split; [apply Ha; left; discriminate|].
  split; [apply Hb; left; discriminate|apply Hc; right; left; reflexivity].
Defined.

(** A user with a standard picture only and an empty biography. *)
Lemma record_fields_witness :
  let r := {| username := "u"; full_name := JStr "U"; biography := JNull;
              followers := 1234;
              profile_picture_url := JStr "https://cdn.example/p.jpg" |} in
  _build_result_from_user lib_demo "u" (JObj user_fields) = Ok r
  /\ profile_picture_url r = JStr "https://cdn.example/p.jpg"
  /\ biography r = JNull
  /\ full_name r = JStr "U".
Proof.
  cbv zeta.
  match goal with |- ?eq /\ _ => assert (H : eq) by (vm_compute; reflexivity) end.
  split; [exact H|].
  destruct (record_fields lib_demo "u" user_fields _ H) as (Hp & Hb & _ & Hn).
  split; [exact Hp|]. split; [exact Hb|exact Hn].
Defined.

(** A page on which only the follower pattern matches. *)
Lemma regex_record_is_not_empty_witness :
  let r := {| username := "u"; full_name := JNull; biography := JNull;
              followers := 1234; profile_picture_url := JNull |} in
  regex_extract lib_regex "u" page_followers = Ok (Some r)
  /\ (followers r <> 0
      \/ exists s, profile_picture_url r = JStr s /\ nonempty s = true)
  /\ html_followers lib_regex page_followers = Ok (followers r)
  /\ username r = "u"
  /\ Forall (fun v => v = JNull \/ exists s, v = JStr s)
       [full_name r; biography r; profile_picture_url r].
Proof.
  cbv zeta.
  match goal with |- ?eq /\ _ => assert (H : eq) by (vm_compute; reflexivity) end.
  split; [exact H|].
  exact (regex_record_is_not_empty lib_regex "u" page_followers _ H).
Defined.

End ChainMoreExamples.

Section RoundExamples.
Import Py Service Claims Rounds Scenario Cases.

(** C8, the failing input: the ring is [a], every download is answered
    429.  The crawl through the proxy ends with [RateLimited] at the mobile
    API, yet the run returns, [a] is not marked bad, a direct attempt is
    made and [ProfileNotFoundError] is raised. *)
Lemma terminal_classification_is_lost_witness :
  let run := scrape_instagram_profile env_429 settings_demo "u" ring_a in
  Spider.crawl lib_demo "u" 4 transport_429 0 Spider.start_requests
  = Some ([Spider.MobileApi], Raise (RateLimited Spider.rate_limited_msg))
  /\ log run.2
     = [Select (Some "a"); Probe "socks5://user:pass@a:1080" true;
        Run (Some "a") (Returned []); Run None (Returned [])]
  /\ ProxyManager._bad_hosts (pm run.2) = ∅
  /\ run.1 = Raise (ProfileNotFoundError
                      "Instagram profile 'u' is unavailable or private. No data returned")
  /\ forall m, run.1 <> Raise (RateLimitError m).
Proof.
  cbv zeta.
  assert (Hlog : log (scrape_instagram_profile env_429 settings_demo "u" ring_a).2
                 = [Select (Some "a"); Probe "socks5://user:pass@a:1080" true;
                    Run (Some "a") (Returned []); Run None (Returned [])])
    by (vm_compute; reflexivity).
  assert (Hin : In (Run (Some "a") (Returned []))
                  (log (scrape_instagram_profile env_429 settings_demo "u" ring_a).2)).
  { rewrite Hlog. simpl. auto. }
  assert (Hcrawl : forall n : nat, exists tr e,
             Spider.crawl lib_demo (Spider.init_username "u") 4
               ((fun (_ : nat) (_ : option string) => transport_429) n
                  (Some "socks5://user:pass@a:1080")) 0 Spider.start_requests
             = Some (tr, Raise e)).
  { intros n. exists [Spider.MobileApi], (RateLimited Spider.rate_limited_msg).
    vm_compute. reflexivity. }
  split; [vm_compute; reflexivity|]. split; [exact Hlog|].
  split; [vm_compute; reflexivity|]. split; [vm_compute; reflexivity|].
  exact (proj1 (proj2 (proj2
           (terminal_classification_is_lost env_429 settings_demo "u" lib_demo
              (fun _ _ => transport_429) ring_a "a" "socks5://user:pass@a:1080"
              (Returned []) eq_refl eq_refl Hcrawl Hin)))).
Defined.

(** Every download times out: the run through the proxy [a] and the
    direct run both return without a record, and the request ends with
    [ProfileNotFoundError].  With a proxy port that is no port number,
    the probe raises and [ValueError] leaves the request. *)
Lemma raised_errors_classified_witness :
  let run := scrape_instagram_profile env_timeout settings_demo "u" ring_a in
  let bad := scrape_instagram_profile env_port_error settings_bad_port "u" ring_a in
  (run.1 = Raise (ProfileNotFoundError
                    "Instagram profile 'u' is unavailable or private. No data returned")
   /\ log run.2
      = [Select (Some "a"); Probe "socks5://user:pass@a:1080" true;
         Run (Some "a") (Returned []); Run None (Returned [])])
  /\ (bad.1 = Raise (ValueError "Port out of range 0-65535")
      /\ exists m h pre,
           ValueError "Port out of range 0-65535" = ValueError m
           /\ log bad.2 = pre ++ [Select (Some h)]).
Proof.
  cbv zeta.
  assert (H : (scrape_instagram_profile env_timeout settings_demo "u" ring_a).1
              = Raise (ProfileNotFoundError
                  "Instagram profile 'u' is unavailable or private. No data returned"))
    by (vm_compute; reflexivity).
  assert (Hb : (scrape_instagram_profile env_port_error settings_bad_port "u" ring_a).1
               = Raise (ValueError "Port out of range 0-65535"))
    by (vm_compute; reflexivity).
  split; [split; [exact H|vm_compute; reflexivity]|]. split; [exact Hb|].
  destruct (proj1 (raised_errors_classified env_port_error settings_bad_port "u"
                     ring_a _ Hb)) as [Hd|Hv]; [discriminate Hd|exact Hv].
Defined.

(** The user name of the proxy is not configured: [a] is selected, no
    probe and no proxy run is made, and the direct run follows. *)
Lemma no_credentials_goes_direct_witness :
  let run := scrape_instagram_profile env_direct settings_no_user "u" ring_a in
  (nord_username settings_no_user = None
   /\ 0 < proxy_retry_limit settings_no_user)
  /\ log run.2 = [Select (Some "a"); Run None (run_spider env_direct 1 "u" None)]
  /\ ProxyManager._bad_hosts (pm run.2) = ProxyManager._bad_hosts ring_a.
Proof.
  cbv zeta.
  assert (H1 : nord_username settings_no_user = None
               \/ nord_password settings_no_user = None
               \/ socks5_port settings_no_user = None) by (left; reflexivity).
  assert (H2 : 0 < proxy_retry_limit settings_no_user) by (simpl; lia).
  destruct (no_credentials_goes_direct env_direct settings_no_user "u" ring_a
              H1 H2) as (Hlog & _ & Hbad).
  split; [split; [reflexivity|exact H2]|]. split; [exact Hlog|exact Hbad].
Defined.

End RoundExamples.

Section WireExamples.
Import Py Config Auth Headers Middleware Main Scenario Cases.

(** The mobile request after the middleware: a Firefox user agent. *)
Lemma spider_user_agent_is_replaced_witness :
  let built := request_headers "u" "936619743392459" ∅ "124.0.6367.118"
                 Spider.MobileApi in
  drawn draws_demo
  /\ built !! "User-Agent"
     = Some (JStr "Instagram 219.0.0.12.117 Android (26/8.0.0; 640dpi; 1440x2560; Google; Pixel 3 XL; Crosshatch; qcom; en_US; 123456789)")
  /\ (process_request draws_demo built ∅).1 !! "User-Agent"
     = Some (JStr "Mozilla/5.0 (X11; Linux x86_64; rv:125.0) Gecko/20100101 Firefox/125.0").
Proof.
  cbv zeta.
  assert (H : drawn draws_demo).
  { unfold drawn, USER_AGENTS, SEC_CH_UA_VALUES, SEC_CH_UA_PLATFORM.
    simpl. auto 20. }
  split; [exact H|]. split; [reflexivity|].
  exact (proj1 (spider_user_agent_is_replaced draws_demo "u" "936619743392459"
                  ∅ "124.0.6367.118" Spider.MobileApi ∅ H)).
Defined.

(** The session id saved comes back; the empty CSRF token does not. *)
Lemma saved_session_reaches_spider_witness :
  let cfg := {| instagram_sessionid := None; instagram_csrftoken := None;
                cookie_file := save_cookies dumps_demo cookies_demo |} in
  loads_demo (dumps_demo (JObj (List.filter (fun kv => in_keys kv.1) cookies_demo)))
  = Some (JObj (List.filter (fun kv => in_keys kv.1) cookies_demo))
  /\ instagram_cookies loads_demo cfg !! "sessionid" = Some (JStr "abc")
  /\ instagram_cookies loads_demo cfg !! "csrftoken" = None.
Proof.
  cbv zeta.
  match goal with |- ?eq /\ _ => assert (H : eq) by (vm_compute; reflexivity) end.
  split; [exact H|]. split.
  - apply (saved_session_reaches_spider loads_demo dumps_demo cookies_demo
             "sessionid" H). simpl. auto.
  - apply (saved_session_reaches_spider loads_demo dumps_demo cookies_demo
             "csrftoken" H). simpl. auto.
Defined.

(** The username [@ a]: the route's handle is [ a], the spider's [a]. *)
Lemma route_handle_renormalised_witness :
  handle "@ a" = " a"
  /\ Spider.init_username (handle "@ a") = "a"
  /\ Spider.init_username (handle "@ a") <> handle "@ a".
Proof.
  split; [reflexivity|]. split; [reflexivity|].
  intros H.
  apply (proj2 (route_handle_renormalised "@ a")) in H. discriminate H.
Defined.

End WireExamples.
